(** * Upload job processing: a shallow embedding of [app/main.py],
      [app/crud.py], [app/config.py] and [app/models.py].

    The first part holds the definitions: the fragment of the Python
    runtime the program relies on (module [Py]), the rows of the two tables,
    the ledger operations of [crud.py], the procedures of [main.py] and the
    settings of [config.py].  The second and the third part hold the lemmas.

    Conventions.
    - A Python [str] is a [string]; every character stands for the code
      point of the same number, so the model covers text whose code points
      are below 256.
    - A [datetime] is an integer number of microseconds, counted from
      1970-01-01T00:00:00; a procedure that calls [datetime.utcnow()]
      receives the value read as an argument.
    - An exception is a value of type [exn]; a computation that may raise
      returns a [result]. *)

From Stdlib Require Import ZArith Lia String Ascii List DecimalString.
From stdpp Require Import gmap strings list.

Local Open Scope string_scope.
Local Open Scope list_scope.
Local Open Scope Z_scope.

(* ===================================================================== *)
(** * Part 1: definitions                                                 *)
(* ===================================================================== *)

(** ** Exceptions and results *)

Inductive exn_kind : Set :=
| ValueError | TypeError | OverflowError | IndexError | KeyError | OSError
| HTTPException
| LibraryError.  (* raised by a collaborator: storage driver, workbook reader *)

(** [exn_text] is what [str(exc)] returns. *)
Record exn : Set := Exn { exn_class : exn_kind; exn_text : string }.

Inductive result (A : Type) : Type :=
| Ok (a : A)
| Raise (e : exn).
Arguments Ok {A} a.
Arguments Raise {A} e.

Definition bind_result {A B} (r : result A) (k : A -> result B) : result B :=
  match r with
  | Ok a => k a
  | Raise e => Raise e
  end.

(** ** The Python runtime *)

Module Py.

Definition code (c : ascii) : N := N_of_ascii c.

Definition between (lo hi : N) (c : ascii) : bool :=
  ((lo <=? code c) && (code c <=? hi))%N.

(** [str.isspace] on one character (code points below 256). *)
Definition isspace (c : ascii) : bool :=
  between 9 13 c || between 28 32 c || (code c =? 133)%N || (code c =? 160)%N.

Fixpoint lstrip (s : string) : string :=
  match s with
  | EmptyString => EmptyString
  | String c t => if isspace c then lstrip t else s
  end.

Fixpoint rstrip (s : string) : string :=
  match s with
  | EmptyString => EmptyString
  | String c t =>
      match rstrip t with
      | EmptyString => if isspace c then EmptyString else String c EmptyString
      | t' => String c t'
      end
  end.

(** [s.strip()] *)
Definition strip (s : string) : string := rstrip (lstrip s).

Definition lower_char (c : ascii) : ascii :=
  if between 65 90 c || (between 192 222 c && negb (code c =? 215)%N)
  then ascii_of_N (code c + 32)
  else c.

(** [s.lower()] *)
Fixpoint lower (s : string) : string :=
  match s with
  | EmptyString => EmptyString
  | String c t => String (lower_char c) (lower t)
  end.

(** [str(n)] for an [int]. *)
Definition str_of_int (z : Z) : string := NilZero.string_of_int (Z.to_int z).

(** *** [repr] of a [str], of a list and of a tuple of [str] *)

Definition hex_digit (n : N) : ascii :=
  if (n <? 10)%N then ascii_of_N (48 + n) else ascii_of_N (87 + n).

Definition printable (c : ascii) : bool :=
  between 32 126 c || (between 161 255 c && negb (code c =? 173)%N).

Definition repr_char (quote : ascii) (c : ascii) : string :=
  if (Ascii.eqb c quote || Ascii.eqb c "\")%bool then String "\" (String c EmptyString)
  else if (code c =? 9)%N then "\t"
  else if (code c =? 10)%N then "\n"
  else if (code c =? 13)%N then "\r"
  else if printable c then String c EmptyString
  else String "\" (String "x" (String (hex_digit (code c / 16))
                              (String (hex_digit (code c mod 16)) EmptyString))).

Fixpoint contains_char (q : ascii) (s : string) : bool :=
  match s with
  | EmptyString => false
  | String c t => Ascii.eqb c q || contains_char q t
  end.

Fixpoint repr_body (quote : ascii) (s : string) : string :=
  match s with
  | EmptyString => EmptyString
  | String c t => repr_char quote c +:+ repr_body quote t
  end.

Definition squote : ascii := "'"%char.
Definition dquote : ascii := ascii_of_N 34.

(** [repr(s)]: single quotes unless the text has a single quote and no
    double quote. *)
Definition repr (s : string) : string :=
  let quote := if contains_char squote s && negb (contains_char dquote s)
               then dquote else squote in
  String quote (repr_body quote s +:+ String quote EmptyString).

Fixpoint join (sep : string) (l : list string) : string :=
  match l with
  | [] => EmptyString
  | [x] => x
  | x :: t => x +:+ sep +:+ join sep t
  end.

(** [repr(l)] for a list of [str]. *)
Definition repr_list (l : list string) : string :=
  "[" +:+ join ", " (map repr l) +:+ "]".

(** [repr(t)] for a tuple of [str]. *)
Definition repr_tuple (l : list string) : string :=
  match l with
  | [x] => "(" +:+ repr x +:+ ",)"
  | _ => "(" +:+ join ", " (map repr l) +:+ ")"
  end.

(** *** Floats

    A finite [float] is kept as its exact value [m * 2^e] with a sign. *)

Inductive pyfloat : Set :=
| FNan
| FInf (neg : bool)
| FFin (neg : bool) (m : Z) (e : Z).

Definition round_half_even (n d : Z) : Z :=
  let q := n / d in
  let r := n mod d in
  if 2 * r <? d then q
  else if d <? 2 * r then q + 1
  else if Z.even q then q else q + 1.

(** The binary64 number nearest to [n / d], for [0 < n] and [0 < d];
    [None] when the magnitude rounds beyond the largest finite float. *)
Definition binary64_of_ratio (n d : Z) : option (Z * Z) :=
  let k0 := Z.log2 n - Z.log2 d in
  let below := if 0 <=? k0 then n <? d * 2 ^ k0 else n * 2 ^ (- k0) <? d in
  let k := if below then k0 - 1 else k0 in
  let e := Z.max (k - 52) (-1074) in
  let m := round_half_even (n * 2 ^ Z.max 0 (- e)) (d * 2 ^ Z.max 0 e) in
  let '(m, e) := if m =? 2 ^ 53 then (2 ^ 52, e + 1) else (m, e) in
  if 971 <? e then None else Some (m, e).

(** The float nearest to [sign * mant * 10^dexp]. *)
Definition float_of_decimal (neg : bool) (mant dexp : Z) : pyfloat :=
  if mant =? 0 then FFin neg 0 0
  else
    let r := if 0 <=? dexp then binary64_of_ratio (mant * 10 ^ dexp) 1
             else binary64_of_ratio mant (10 ^ (- dexp)) in
    match r with
    | Some (m, e) => FFin neg m e
    | None => FInf neg
    end.

(** [float(n)] for an [int]. *)
Definition float_of_int (z : Z) : result pyfloat :=
  if z =? 0 then Ok (FFin false 0 0)
  else match binary64_of_ratio (Z.abs z) 1 with
       | Some (m, e) => Ok (FFin (z <? 0) m e)
       | None => Raise (Exn OverflowError "int too large to convert to float")
       end.

Definition is_digit (c : ascii) : bool := between 48 57 c.

Definition digit_value (c : ascii) : Z := Z.of_N (code c) - 48.

(** Reads a run of digits: the accumulated value, the number of digits read
    and the rest of the text. *)
Fixpoint take_digits (cs : list ascii) (acc : Z) (count : Z)
  : Z * Z * list ascii :=
  match cs with
  | c :: t => if is_digit c then take_digits t (10 * acc + digit_value c) (count + 1)
              else (acc, count, cs)
  | [] => (acc, count, [])
  end.

Definition take_sign (cs : list ascii) : bool * list ascii :=
  match cs with
  | c :: t => if Ascii.eqb c "-" then (true, t)
              else if Ascii.eqb c "+" then (false, t)
              else (false, cs)
  | [] => (false, [])
  end.

Definition chars (s : string) : list ascii := list_ascii_of_string s.

Definition list_ascii_eqb (a b : list ascii) : bool :=
  String.eqb (string_of_list_ascii a) (string_of_list_ascii b).

(** The exponent part: consumed only when at least one digit follows. *)
Definition take_exponent (cs : list ascii) : Z * list ascii :=
  match cs with
  | c :: t =>
      if Ascii.eqb c "e" || Ascii.eqb c "E" then
        let '(eneg, t1) := take_sign t in
        let '(ev, en, t2) := take_digits t1 0 0 in
        if 0 <? en then ((if eneg then - ev else ev), t2) else (0, cs)
      else (0, cs)
  | [] => (0, [])
  end.

(** A number, [inf], [infinity] or [nan] with an optional sign, the whole
    text being consumed. *)
Definition parse_float (cs : list ascii) : option pyfloat :=
  let '(neg, body) := take_sign cs in
  let low := map lower_char body in
  if list_ascii_eqb low (chars "inf") || list_ascii_eqb low (chars "infinity")
  then Some (FInf neg)
  else if list_ascii_eqb low (chars "nan") then Some FNan
  else
    let '(ip, ni, r1) := take_digits body 0 0 in
    let '(mant, nf, r2) :=
      match r1 with
      | c :: t => if Ascii.eqb c "." then take_digits t ip 0 else (ip, 0, r1)
      | [] => (ip, 0, r1)
      end in
    if (ni + nf =? 0) then None
    else
      let '(ex, r3) := take_exponent r2 in
      match r3 with
      | [] => Some (float_of_decimal neg mant (ex - nf))
      | _ :: _ => None
      end.

(** Underscores are accepted between two digits only. *)
Fixpoint underscores_ok (prev : ascii) (cs : list ascii) : bool :=
  match cs with
  | [] => negb (Ascii.eqb prev "_")
  | c :: t =>
      if Ascii.eqb c "_" then is_digit prev && underscores_ok c t
      else if Ascii.eqb prev "_" then is_digit c && underscores_ok c t
      else underscores_ok c t
  end.

Definition float_space (c : ascii) : bool := between 9 13 c || (code c =? 32)%N.

(** Before parsing, the runtime turns a space outside ASCII into a blank and
    any other character outside ASCII into a question mark. *)
Definition to_ascii (c : ascii) : ascii :=
  if (code c <? 127)%N then c
  else if isspace c then " "%char
  else "?"%char.

Fixpoint drop_float_space (cs : list ascii) : list ascii :=
  match cs with
  | c :: t => if float_space c then drop_float_space t else cs
  | [] => []
  end.

(** [float(s)] for a [str]. *)
Definition float_of_string (s : string) : result pyfloat :=
  let cs := if forallb (fun c => (code c <? 128)%N) (chars s) then chars s
            else map to_ascii (chars s) in
  let cs := rev (drop_float_space (rev (drop_float_space cs))) in
  let parsed :=
    if existsb (fun c => Ascii.eqb c "_") cs then
      if underscores_ok zero cs
      then parse_float (filter (fun c => negb (Ascii.eqb c "_")) cs)
      else None
    else parse_float cs in
  match parsed with
  | Some f => Ok f
  | None => Raise (Exn ValueError ("could not convert string to float: " +:+ repr s))
  end.

(** [int(x)] for a [float]: truncation toward zero. *)
Definition int_of_float (f : pyfloat) : result Z :=
  match f with
  | FNan => Raise (Exn ValueError "cannot convert float NaN to integer")
  | FInf _ => Raise (Exn OverflowError "cannot convert float infinity to integer")
  | FFin neg m e =>
      let mag := if 0 <=? e then m * 2 ^ e else m / 2 ^ (- e) in
      Ok (if neg then - mag else mag)
  end.

End Py.

(** ** Spreadsheet cells

    The values [iter_rows(values_only=True)] hands out.  A float carries the
    text [str] prints for it; [COther] stands for the date and time values
    (a zero [timedelta] is the only false one), with their text. *)

Inductive cell : Set :=
| CNone
| CStr (s : string)
| CInt (z : Z)
| CBool (b : bool)
| CFloat (f : Py.pyfloat) (text : string)
| COther (truth : bool) (text : string).

Definition raw_row : Set := list cell.

(** [bool(v)] *)
Definition truthy (v : cell) : bool :=
  match v with
  | CNone => false
  | CStr s => negb (String.eqb s "")
  | CInt z => negb (z =? 0)
  | CBool b => b
  | CFloat (Py.FFin _ m _) _ => negb (m =? 0)
  | CFloat _ _ => true
  | COther t _ => t
  end.

(** [str(v)] *)
Definition py_str (v : cell) : string :=
  match v with
  | CNone => "None"
  | CStr s => s
  | CInt z => Py.str_of_int z
  | CBool b => if b then "True" else "False"
  | CFloat _ text => text
  | COther _ text => text
  end.

(** [float(v)] *)
Definition py_float (v : cell) : result Py.pyfloat :=
  match v with
  | CStr s => Py.float_of_string s
  | CInt z => Py.float_of_int z
  | CBool b => Ok (Py.FFin false (if b then 2 ^ 52 else 0) (if b then -52 else 0))
  | CFloat f _ => Ok f
  | CNone | COther _ _ =>
      (* the text goes on with the name of the type *)
      Raise (Exn TypeError "float() argument must be a string or a real number")
  end.

(** ** [models.py] *)

Record User : Set := { name : string; email : string; age : Z }.

Record UploadJob : Set := {
  job_id : string;
  filename : string;
  saved_path : string;
  status : string;
  chunk_size : Z;
  inserted_rows : Z;
  error : option string;
  created_at : Z;
  started_at : option Z;
  completed_at : option Z;
  file_deleted_at : option Z
}.

(** ** [config.py] *)

Record Settings : Set := {
  EXCEL_CHUNK_SIZE : Z;
  CLEANUP_EXPIRED_UPLOADS : bool;
  UPLOAD_FILE_RETENTION_HOURS : Z;
  REQUIRED_COLUMNS : list string
}.

(** The defaults of [Settings]. *)
Definition default_settings : Settings :=
  {| EXCEL_CHUNK_SIZE := 500;
     CLEANUP_EXPIRED_UPLOADS := true;
     UPLOAD_FILE_RETENTION_HOURS := 72;
     REQUIRED_COLUMNS := ["name"; "email"; "age"] |}.

(** ** The world the program runs in

    The two tables, the upload directory and two pieces of bookkeeping about
    the storage collaborator: [pending_faults] gives the outcome of each
    coming bulk write in order ([Some msg]: the write raises with text
    [msg]; past the end of the list every write succeeds), and [bulk_log]
    keeps every batch handed to [bulk_insert_users], oldest first.

    [deactivated] is the state of the session [process_excel_job] works on.
    A write that raises leaves the table as it was and leaves the session
    with a transaction that was rolled back: [deactivated] then holds the
    text of that exception.  Nothing in the program calls [rollback()], so
    from then on every call on that session raises, until the session is
    closed.  The other procedures open a session of their own and make no
    bulk write. *)

Inductive node : Set :=
| Directory
| RegularFile (removable : bool).  (* [unlink] raises [OSError] when false *)

Record World : Type := {
  users : list User;
  upload_jobs : list UploadJob;
  files : gmap string node;
  pending_faults : list (option string);
  bulk_log : list (list User);
  deactivated : option string
}.

Definition with_jobs (w : World) (jobs : list UploadJob) : World :=
  {| users := users w; upload_jobs := jobs; files := files w;
     pending_faults := pending_faults w; bulk_log := bulk_log w;
     deactivated := deactivated w |}.

Definition with_files (w : World) (fs : gmap string node) : World :=
  {| users := users w; upload_jobs := upload_jobs w; files := fs;
     pending_faults := pending_faults w; bulk_log := bulk_log w;
     deactivated := deactivated w |}.

(** [SessionLocal()]: the procedure gets a session of its own, with no
    transaction behind it. *)
Definition SessionLocal (w : World) : World :=
  {| users := users w; upload_jobs := upload_jobs w; files := files w;
     pending_faults := pending_faults w; bulk_log := bulk_log w;
     deactivated := None |}.

(** [db.close()]: the session is given up, and its transaction with it. *)
Definition close_session (w : World) : World :=
  {| users := users w; upload_jobs := upload_jobs w; files := files w;
     pending_faults := pending_faults w; bulk_log := bulk_log w;
     deactivated := None |}.

(** Computations over the world that may raise; the world reached when the
    exception is raised is kept. *)
Definition M (A : Type) : Type := World -> result A * World.

Definition ret {A} (a : A) : M A := fun w => (Ok a, w).

Definition raise {A} (e : exn) : M A := fun w => (Raise e, w).

Definition lift {A} (r : result A) : M A := fun w => (r, w).

Definition bind {A B} (m : M A) (k : A -> M B) : M B :=
  fun w =>
    match m w with
    | (Ok a, w') => k a w'
    | (Raise e, w') => (Raise e, w')
    end.

Definition modify (f : World -> World) : M unit := fun w => (Ok tt, f w).

Notation "'do' x <- m ; k" := (bind m (fun x => k))
  (at level 10, x name, m at level 100, k at level 200).

(** ** [crud.py] *)

(** What a call raises on a session whose transaction was rolled back by
    an exception with text [original] ([sqlalchemy.exc.PendingRollbackError];
    the library ends the text with a link to its documentation, which is
    left out here; no caller reads the text). *)
Definition PendingRollbackError (original : string) : exn :=
  Exn LibraryError
      ("This Session's transaction has been rolled back due to a previous "
       +:+ "exception during flush. To begin a new transaction with this "
       +:+ "Session, first issue Session.rollback(). Original exception was: "
       +:+ original).

(** A ledger call made on the session of a run: it goes through on a
    session in working order and raises on a deactivated one. *)
Definition on_session (call : World -> World) : M unit :=
  fun w =>
    match deactivated w with
    | Some original => (Raise (PendingRollbackError original), w)
    | None => (Ok tt, call w)
    end.

(** [db.bulk_insert_mappings(User, users); db.commit()] *)
Definition bulk_insert_users (batch : list User) : M unit :=
  fun w =>
    let log := bulk_log w ++ [batch] in
    match deactivated w with
    | Some original =>
        (Raise (PendingRollbackError original),
         {| users := users w; upload_jobs := upload_jobs w; files := files w;
            pending_faults := pending_faults w; bulk_log := log;
            deactivated := Some original |})
    | None =>
        match pending_faults w with
        | Some msg :: rest =>
            (Raise (Exn LibraryError msg),
             {| users := users w; upload_jobs := upload_jobs w;
                files := files w; pending_faults := rest; bulk_log := log;
                deactivated := Some msg |})
        | outcomes =>
            (Ok tt,
             {| users := users w ++ batch; upload_jobs := upload_jobs w;
                files := files w; pending_faults := tl outcomes;
                bulk_log := log; deactivated := None |})
        end
    end.

(** Some row carries this id. *)
Definition has_job (db : World) (id : string) : bool :=
  existsb (fun j => String.eqb (job_id j) id) (upload_jobs db).

(** [db.add(job); db.commit(); db.refresh(job)].  The insert of a second row
    with the same primary key is refused by the storage (the text of its
    error is not modelled). *)
Definition create_upload_job (db : World) (id fname path : string)
    (size : Z) (now : Z) : result UploadJob * World :=
  let job := {| job_id := id; filename := fname; saved_path := path;
                status := "queued"; chunk_size := size; inserted_rows := 0;
                error := None; created_at := now; started_at := None;
                completed_at := None; file_deleted_at := None |} in
  if has_job db id
  then (Raise (Exn LibraryError "IntegrityError"), db)
  else (Ok job, with_jobs db (upload_jobs db ++ [job])).

Definition get_upload_job (db : World) (id : string) : option UploadJob :=
  head (List.filter (fun j => String.eqb (job_id j) id) (upload_jobs db)).

(** [db.query(UploadJob).filter(UploadJob.job_id == id).update(...)]: the
    change is applied to every row the filter keeps. *)
Definition update_job (id : string) (change : UploadJob -> UploadJob)
    (db : World) : World :=
  with_jobs db
    (map (fun j => if String.eqb (job_id j) id then change j else j)
         (upload_jobs db)).

Definition running_fields (now : Z) (j : UploadJob) : UploadJob :=
  {| job_id := job_id j; filename := filename j; saved_path := saved_path j;
     status := "running"; chunk_size := chunk_size j;
     inserted_rows := inserted_rows j; error := None;
     created_at := created_at j; started_at := Some now;
     completed_at := completed_at j; file_deleted_at := file_deleted_at j |}.

Definition completed_fields (rows : Z) (now : Z) (j : UploadJob) : UploadJob :=
  {| job_id := job_id j; filename := filename j; saved_path := saved_path j;
     status := "completed"; chunk_size := chunk_size j;
     inserted_rows := rows; error := None;
     created_at := created_at j; started_at := started_at j;
     completed_at := Some now; file_deleted_at := file_deleted_at j |}.

Definition failed_fields (err : string) (now : Z) (j : UploadJob) : UploadJob :=
  {| job_id := job_id j; filename := filename j; saved_path := saved_path j;
     status := "failed"; chunk_size := chunk_size j;
     inserted_rows := inserted_rows j; error := Some err;
     created_at := created_at j; started_at := started_at j;
     completed_at := Some now; file_deleted_at := file_deleted_at j |}.

Definition deleted_fields (now : Z) (j : UploadJob) : UploadJob :=
  {| job_id := job_id j; filename := filename j; saved_path := saved_path j;
     status := status j; chunk_size := chunk_size j;
     inserted_rows := inserted_rows j; error := error j;
     created_at := created_at j; started_at := started_at j;
     completed_at := completed_at j; file_deleted_at := Some now |}.

Definition set_upload_job_running (db : World) (id : string) (now : Z) : World :=
  update_job id (running_fields now) db.

Definition set_upload_job_completed (db : World) (id : string) (rows : Z)
    (now : Z) : World :=
  update_job id (completed_fields rows now) db.

Definition set_upload_job_failed (db : World) (id : string) (err : string)
    (now : Z) : World :=
  update_job id (failed_fields err now) db.

Definition mark_upload_file_deleted (db : World) (id : string) (now : Z) : World :=
  update_job id (deleted_fields now) db.

(** The filter of [get_jobs_for_cleanup].  Its fourth conjunct,
    [saved_path IS NOT NULL], holds of every row: the column is declared
    [nullable=False] and [saved_path] is a [string] here. *)
Definition due_for_cleanup (completed_before : Z) (j : UploadJob) : bool :=
  match completed_at j with
  | Some t => (t <=? completed_before)
              && match file_deleted_at j with None => true | Some _ => false end
  | None => false
  end.

Definition get_jobs_for_cleanup (db : World) (completed_before : Z)
  : list UploadJob :=
  List.filter (due_for_cleanup completed_before) (upload_jobs db).

Definition get_upload_jobs_by_status (db : World) (statuses : list string)
  : list UploadJob :=
  match statuses with
  | [] => []
  | _ => List.filter
           (fun j => existsb (String.eqb (status j)) statuses)
           (upload_jobs db)
  end.

(** ** [main.py] *)

(** *** The filesystem calls of [pathlib.Path]

    [exists] and [is_file] are taken to answer, never to raise. *)

Definition path_exists (w : World) (p : string) : bool :=
  match files w !! p with Some _ => true | None => false end.

Definition path_is_file (w : World) (p : string) : bool :=
  match files w !! p with Some (RegularFile _) => true | _ => false end.

(** [Path.unlink()].  The text of the error is never looked at: the only
    caller swallows [OSError]. *)
Definition unlink (p : string) : M unit :=
  fun w =>
    match files w !! p with
    | Some (RegularFile true) => (Ok tt, with_files w (delete p (files w)))
    | Some (RegularFile false) => (Raise (Exn OSError "[Errno 13] Permission denied"), w)
    | Some Directory => (Raise (Exn OSError "[Errno 21] Is a directory"), w)
    | None => (Raise (Exn OSError "[Errno 2] No such file or directory"), w)
    end.

(** *** [_normalize_row] *)

Definition get_value (raw : raw_row) (column_map : gmap string nat)
    (column_name : string) : result cell :=
  match column_map !! column_name with
  | None => Raise (Exn KeyError (Py.repr column_name))
  | Some i =>
      match raw !! i with
      | Some v => Ok v
      | None => Raise (Exn IndexError "tuple index out of range")
      end
  end.

(** [str(v or "").strip()] *)
Definition text_of (v : cell) : string :=
  Py.strip (py_str (if truthy v then v else CStr "")).

(** [age_value not in (None, "")] *)
Definition is_none_or_empty (v : cell) : bool :=
  match v with
  | CNone => true
  | CStr s => String.eqb s ""
  | _ => false
  end.

(** The [try] ... [except (TypeError, ValueError)] around the conversion. *)
Definition age_of (age_value : cell) : result Z :=
  if is_none_or_empty age_value then Ok 0
  else
    match bind_result (py_float age_value) Py.int_of_float with
    | Ok n => Ok n
    | Raise e =>
        match exn_class e with
        | TypeError | ValueError => Ok 0
        | _ => Raise e
        end
    end.

Definition _normalize_row (raw : raw_row) (column_map : gmap string nat)
  : result User :=
  bind_result (get_value raw column_map "name") (fun v_name =>
  bind_result (get_value raw column_map "email") (fun v_email =>
  bind_result (get_value raw column_map "age") (fun age_value =>
  bind_result (age_of age_value) (fun n =>
  Ok {| name := text_of v_name; email := text_of v_email; age := n |})))).

(** *** [cleanup_expired_uploads] *)

(** [h] hours in microseconds. *)
Definition hours (h : Z) : Z := h * 3600000000.

(** The first and the last [datetime]: 0001-01-01T00:00:00 and
    9999-12-31T23:59:59.999999. *)
Definition datetime_min : Z := -62135596800000000.
Definition datetime_max : Z := 253402300799999999.

(** [timedelta(hours=h)] for an [int]: the number of whole days must fit a
    C [int] and be at most 999999999 in magnitude. *)
Definition timedelta_hours (h : Z) : result Z :=
  let days := h / 24 in
  if (days <? -2147483648) || (2147483647 <? days) then
    Raise (Exn OverflowError "Python int too large to convert to C int")
  else if (days <? -999999999) || (999999999 <? days) then
    Raise (Exn OverflowError
             ("days=" +:+ Py.str_of_int days
              +:+ "; must have magnitude <= 999999999"))
  else Ok (hours h).

(** [t - delta] for a [datetime] and a [timedelta]. *)
Definition datetime_sub (t delta : Z) : result Z :=
  let difference := t - delta in
  if (difference <? datetime_min) || (datetime_max <? difference) then
    Raise (Exn OverflowError "date value out of range")
  else Ok difference.

(** [datetime.utcnow() - timedelta(hours=settings.UPLOAD_FILE_RETENTION_HOURS)] *)
Definition sweep_cutoff (settings : Settings) (now : Z) : result Z :=
  bind_result (timedelta_hours (UPLOAD_FILE_RETENTION_HOURS settings))
              (datetime_sub now).

(** The body of the [try] for one job; the value is what it adds to
    [deleted_files]. *)
Definition cleanup_job (now : Z) (job : UploadJob) : M Z :=
  let file_path := saved_path job in
  do n <- (fun w => if path_exists w file_path && path_is_file w file_path
                    then (do _ <- unlink file_path; ret 1) w
                    else ret 0 w);
  do _ <- modify (fun w => mark_upload_file_deleted w (job_id job) now);
  ret n.

Fixpoint cleanup_loop (now : Z) (cleanup_jobs : list UploadJob)
    (deleted_files : Z) (w : World) : result Z * World :=
  match cleanup_jobs with
  | [] => (Ok deleted_files, w)
  | job :: rest =>
      match cleanup_job now job w with
      | (Ok n, w') => cleanup_loop now rest (deleted_files + n) w'
      | (Raise e, w') =>
          match exn_class e with
          | OSError => cleanup_loop now rest deleted_files w'  (* continue *)
          | _ => (Raise e, w')
          end
      end
  end.

Definition cleanup_expired_uploads (settings : Settings) (now : Z) (db : World)
  : result Z * World :=
  if negb (CLEANUP_EXPIRED_UPLOADS settings) then (Ok 0, db)
  else
    match sweep_cutoff settings now with
    | Raise e => (Raise e, db)
    | Ok cutoff =>
        let cleanup_jobs := get_jobs_for_cleanup db cutoff in
        cleanup_loop now cleanup_jobs 0 db
    end.

(** *** [process_excel_job] *)

(** The key a header cell contributes to [header_map], if any. *)
Definition header_key (value : cell) : option string :=
  match value with
  | CNone => None
  | _ => let k := Py.strip (py_str value) in
         if String.eqb k "" then None else Some (Py.lower k)
  end.

(** The dict comprehension over [enumerate(headers)]: a later cell with the
    same key replaces an earlier one. *)
Fixpoint build_header_map (headers : list cell) (index : nat)
    (acc : gmap string nat) : gmap string nat :=
  match headers with
  | [] => acc
  | value :: rest =>
      build_header_map rest (S index)
        (match header_key value with
         | Some k => <[k := index]> acc
         | None => acc
         end)
  end.

Definition header_map_of (headers : list cell) : gmap string nat :=
  build_header_map headers 0%nat ∅.

Definition missing_columns (settings : Settings) (header_map : gmap string nat)
  : list string :=
  List.filter (fun column => match header_map !! column with
                             | None => true | Some _ => false end)
              (REQUIRED_COLUMNS settings).

Definition missing_message (settings : Settings) (missing : list string) : string :=
  "Excel must contain columns: " +:+ Py.repr_tuple (REQUIRED_COLUMNS settings)
  +:+ ". Missing: " +:+ Py.repr_list missing.

(** [header_map[key]] *)
Definition subscript (m : gmap string nat) (key : string) : result nat :=
  match m !! key with
  | Some i => Ok i
  | None => Raise (Exn KeyError (Py.repr key))
  end.

(** From the header row to [column_map]. *)
Definition resolve_columns (settings : Settings) (headers : list cell)
  : result (gmap string nat) :=
  let header_map := header_map_of headers in
  match missing_columns settings header_map with
  | (_ :: _) as missing =>
      Raise (Exn ValueError (missing_message settings missing))
  | [] =>
      bind_result (subscript header_map "name") (fun i_name =>
      bind_result (subscript header_map "email") (fun i_email =>
      bind_result (subscript header_map "age") (fun i_age =>
      Ok (<["age" := i_age]> (<["email" := i_email]> {["name" := i_name]})))))
  end.

(** The skip test of the row loop. *)
Definition is_blank (user : User) : bool :=
  String.eqb (name user) "" && String.eqb (email user) "" && (age user =? 0).

(** The [for row in rows] loop; the value is the pair of [batch] and
    [inserted_rows] when the stream ends. *)
Fixpoint ingest_rows (settings : Settings) (column_map : gmap string nat)
    (rows : list (option raw_row)) (batch : list User) (inserted : Z)
  : M (list User * Z) :=
  match rows with
  | [] => ret (batch, inserted)
  | None :: rest => ingest_rows settings column_map rest batch inserted
  | Some row :: rest =>
      do user <- lift (_normalize_row row column_map);
      if is_blank user then ingest_rows settings column_map rest batch inserted
      else
        let batch := batch ++ [user] in
        if Z.of_nat (length batch) >=? EXCEL_CHUNK_SIZE settings then
          do _ <- bulk_insert_users batch;
          ingest_rows settings column_map rest []
                      (inserted + Z.of_nat (length batch))
        else ingest_rows settings column_map rest batch inserted
  end.

(** [db = SessionLocal()] and the body of the [try].  [loaded] is what
    [load_workbook] and [iter_rows] give for the file: the rows of the
    active sheet, or the exception raised on opening it. *)
Definition process_excel_try (settings : Settings) (id : string)
    (loaded : result (list (option raw_row))) (started finished : Z) : M unit :=
  do _ <- modify SessionLocal;
  do _ <- on_session (fun db => set_upload_job_running db id started);
  do rows <- lift loaded;
  do headers <- lift (match rows with
                      | Some h :: _ => Ok h
                      | _ => Raise (Exn ValueError "Excel file is empty")
                      end);
  do column_map <- lift (resolve_columns settings headers);
  do rest <- ingest_rows settings column_map (tl rows) [] 0;
  do inserted <- (match fst rest with
                  | [] => ret (snd rest)
                  | _ :: _ =>
                      do _ <- bulk_insert_users (fst rest);
                      ret (snd rest + Z.of_nat (length (fst rest)))
                  end);
  on_session (fun db => set_upload_job_completed db id inserted finished).

(** The handler [except Exception as exc]: one ledger call, on the session
    the body of the [try] worked on. *)
Definition process_excel_except (id : string) (exc : exn) (finished : Z)
  : M unit :=
  on_session (fun db => set_upload_job_failed db id (exn_text exc) finished).

(** The procedure, with its handler and its [finally]; the value is the
    world it leaves.  When the handler raises in its turn, the exception
    leaves the procedure and ends the thread or background task that ran it;
    nothing in the program sees it. *)
Definition process_excel_job (settings : Settings) (id : string)
    (loaded : result (list (option raw_row))) (started finished : Z)
    (w : World) : World :=
  close_session
    match process_excel_try settings id loaded started finished w with
    | (Ok _, w') => w'
    | (Raise exc, w') => snd (process_excel_except id exc finished w')
    end.

(** *** [_recover_jobs_after_restart] *)

(** What the supervisor does, in order. *)
Inductive event : Set :=
| MarkedFailed (id : string) (err : string)
| StatusQueried (statuses : list string)
| PathChecked (path : string)
| ThreadStarted (id : string) (path : string).

Definition interrupted_text : string := "Job interrupted because server restarted".

Definition not_found_text : string := "Queued job file not found after server restart".

Fixpoint fail_interrupted (now : Z) (interrupted_jobs : list UploadJob)
    (db : World) : World * list event :=
  match interrupted_jobs with
  | [] => (db, [])
  | job :: rest =>
      let '(db', evs) :=
        fail_interrupted now rest
          (set_upload_job_failed db (job_id job) interrupted_text now) in
      (db', MarkedFailed (job_id job) interrupted_text :: evs)
  end.

Fixpoint restart_queued (now : Z) (queued_jobs : list UploadJob)
    (db : World) : World * list event :=
  match queued_jobs with
  | [] => (db, [])
  | job :: rest =>
      let file_path := saved_path job in
      if negb (path_exists db file_path) then
        let '(db', evs) :=
          restart_queued now rest
            (set_upload_job_failed db (job_id job) not_found_text now) in
        (db', PathChecked file_path :: MarkedFailed (job_id job) not_found_text :: evs)
      else
        let '(db', evs) := restart_queued now rest db in
        (db', PathChecked file_path :: ThreadStarted (job_id job) file_path :: evs)
  end.

(** The supervisor, with the list of what it does, in order.  A started
    thread runs [process_excel_job] on its own and touches the row of its own
    job only; the world returned is the one the supervisor itself leaves. *)
Definition _recover_jobs_after_restart (now : Z) (db : World)
  : World * list event :=
  let interrupted_jobs := get_upload_jobs_by_status db ["running"] in
  let '(db1, evs1) := fail_interrupted now interrupted_jobs db in
  let queued_jobs := get_upload_jobs_by_status db1 ["queued"] in
  let '(db2, evs2) := restart_queued now queued_jobs db1 in
  (db2, StatusQueried ["running"] :: evs1 ++ StatusQueried ["queued"] :: evs2).

(** *** [upload_excel]

    [id] and [path] are the job id and the file name the handler draws, and
    the upload is stored under [path] by [_save_upload_file].  The value is
    the record created; the handler then hands [process_excel_job] to the
    background tasks and answers with the job id. *)

Fixpoint endswith (s suffix : string) : bool :=
  String.eqb s suffix
  || match s with
     | EmptyString => false
     | String _ t => endswith t suffix
     end.

Definition upload_excel (settings : Settings) (fname id path : string)
    (now : Z) : M UploadJob :=
  if String.eqb fname "" then
    raise (Exn HTTPException "Uploaded file name is missing")
  else if negb (endswith (Py.lower fname) ".xlsx") then
    raise (Exn HTTPException "Only .xlsx files are supported")
  else
    do _ <- cleanup_expired_uploads settings now;
    do _ <- modify (fun w => with_files w (<[path := RegularFile true]> (files w)));
    (fun db => create_upload_job db id fname path (EXCEL_CHUNK_SIZE settings) now).

(** ** Notions used in the statements *)

(** The job id is the primary key of [upload_jobs]. *)
Definition ledger_ok (db : World) : Prop := NoDup (map job_id (upload_jobs db)).

(** [unlink] would raise on this path. *)
Definition blocked (fs : gmap string node) (p : string) : bool :=
  match fs !! p with Some (RegularFile false) => true | _ => false end.

(** Row [j] carries the id of a job of [l] whose file can be handled. *)
Definition marked_by (fs : gmap string node) (l : list UploadJob)
    (j : UploadJob) : bool :=
  existsb (fun job => String.eqb (job_id j) (job_id job)
                      && negb (blocked fs (saved_path job))) l.

(** The files left once the sweep has gone through the jobs of [l]. *)
Fixpoint swept (fs : gmap string node) (l : list UploadJob) : gmap string node :=
  match l with
  | [] => fs
  | job :: rest =>
      match fs !! saved_path job with
      | Some (RegularFile true) => swept (delete (saved_path job) fs) rest
      | _ => swept fs rest
      end
  end.

(** The moment one retention window before [now]. *)
Definition cutoff_of (settings : Settings) (now : Z) : Z :=
  now - hours (UPLOAD_FILE_RETENTION_HOURS settings).

(** The reading of the sweep under examination: every selected job has
    [file_deleted_at = now] once the sweep is over, whatever became of its
    file. *)
Definition sweep_marks_every_candidate (settings : Settings) (now : Z)
    (db : World) : Prop :=
  forall job, In job (get_jobs_for_cleanup db (cutoff_of settings now)) ->
    exists j', get_upload_job (snd (cleanup_expired_uploads settings now db))
                              (job_id job) = Some j'
               /\ file_deleted_at j' = Some now.

(** Row [j] carries the id of a job of [l]. *)
Definition has_id (l : list UploadJob) (j : UploadJob) : bool :=
  existsb (fun job => String.eqb (job_id j) (job_id job)) l.

Definition file_missing (db : World) (job : UploadJob) : bool :=
  negb (path_exists db (saved_path job)).

(** What the supervisor does for one queued job. *)
Definition queued_events (db : World) (job : UploadJob) : list event :=
  if file_missing db job
  then [PathChecked (saved_path job); MarkedFailed (job_id job) not_found_text]
  else [PathChecked (saved_path job); ThreadStarted (job_id job) (saved_path job)].

(** The record the supervisor leaves for a row. *)
Definition recovered (now : Z) (db : World) (j : UploadJob) : UploadJob :=
  if String.eqb (status j) "running"
  then failed_fields interrupted_text now j
  else if String.eqb (status j) "queued" && file_missing db j
       then failed_fields not_found_text now j
       else j.

(** [x] occurs in [s]. *)
Definition occurs_in (x s : string) : Prop :=
  exists pre post, s = pre +:+ x +:+ post.

(** A name that [repr] prints as it is, between quotes. *)
Fixpoint plain (s : string) : bool :=
  match s with
  | EmptyString => true
  | String c t =>
      Py.printable c && negb (Ascii.eqb c Py.squote)
      && negb (Ascii.eqb c Py.dquote) && negb (Ascii.eqb c "\") && plain t
  end.

(** The records the row loop keeps: the rows that normalize to a record
    that is not blank, in order.  (A row on which [_normalize_row] raises
    ends the run; it contributes nothing here.) *)
Fixpoint valid_rows (column_map : gmap string nat)
    (rows : list (option raw_row)) : list User :=
  match rows with
  | [] => []
  | None :: rest => valid_rows column_map rest
  | Some row :: rest =>
      match _normalize_row row column_map with
      | Ok user => if is_blank user then valid_rows column_map rest
                   else user :: valid_rows column_map rest
      | Raise _ => valid_rows column_map rest
      end
  end.

(** The last write of a run: the batch in hand when the stream ends, unless
    it is empty. *)
Definition tail_batch (batch : list User) : list (list User) :=
  match batch with
  | [] => []
  | _ :: _ => [batch]
  end.

(** The ledger once job [id] has run to completion with [total] rows. *)
Definition completed_ledger (id : string) (total started finished : Z)
    (rows : list UploadJob) : list UploadJob :=
  map (fun j => if String.eqb (job_id j) id
                then completed_fields total finished (running_fields started j)
                else j) rows.

(** The reading of a failed run under examination: when a bulk write
    raises after an earlier chunk was written, the job's record ends up
    failed, with an error text that is not empty, and with [inserted_rows]
    equal to the number of rows written by the earlier chunks. *)
Definition failed_run_counts_committed_rows (settings : Settings) (id : string)
    (loaded : result (list (option raw_row))) (started finished : Z)
    (w : World) : Prop :=
  forall e w1,
    process_excel_try settings id loaded started finished w = (Raise e, w1) ->
    exn_class e = LibraryError ->
    users w1 <> users w ->
    exists j,
      get_upload_job (process_excel_job settings id loaded started finished w) id
      = Some j
      /\ status j = "failed"
      /\ (exists msg, error j = Some msg /\ msg <> "")
      /\ inserted_rows j
         = Z.of_nat (length (users w1)) - Z.of_nat (length (users w)).

(** The reading of the batch size under examination: in a completed run,
    every batch but the last has as many records as the [chunk_size] the
    job's record holds. *)
Definition batches_follow_recorded_chunk_size (settings : Settings)
    (id : string) (headers : raw_row) (rows : list (option raw_row))
    (started finished : Z) (w : World) : Prop :=
  forall job w' log,
    get_upload_job w id = Some job ->
    process_excel_try settings id (Ok (Some headers :: rows)) started finished w
    = (Ok tt, w') ->
    bulk_log w' = bulk_log w ++ log ->
    forall i b, log !! i = Some b -> (S i < length log)%nat ->
      Z.of_nat (length b) = chunk_size job.

(** ** Sample data *)

Definition sample_job (id path state : string) (done : option Z) : UploadJob :=
  {| job_id := id; filename := "people.xlsx"; saved_path := path;
     status := state; chunk_size := 2; inserted_rows := 0; error := None;
     created_at := 10; started_at := None; completed_at := done;
     file_deleted_at := None |}.

(** Three finished jobs and one running job; the file of the first can be
    removed, the file of the second cannot, the file of the third is gone. *)
Definition sample_ledger : World :=
  {| users := [];
     upload_jobs := [sample_job "j1" "up/a.xlsx" "completed" (Some 100);
                     sample_job "j2" "up/b.xlsx" "failed" (Some 200);
                     sample_job "j3" "up/c.xlsx" "completed" (Some 300);
                     sample_job "j4" "up/d.xlsx" "running" None];
     files := <["up/d.xlsx" := RegularFile true]>
              (<["up/b.xlsx" := RegularFile false]>
               {["up/a.xlsx" := RegularFile true]});
     pending_faults := [];
     bulk_log := [];
     deactivated := None |}.

Definition sample_now : Z := 300 + hours 72.

(** After a restart: one job was running, one queued job has its file, the
    file of the other queued job is gone. *)
Definition sample_restart : World :=
  {| users := [];
     upload_jobs := [sample_job "r1" "up/r.xlsx" "running" None;
                     sample_job "q1" "up/q.xlsx" "queued" None;
                     sample_job "q2" "up/lost.xlsx" "queued" None;
                     sample_job "d1" "up/d.xlsx" "completed" (Some 50)];
     files := <["up/q.xlsx" := RegularFile true]>
              {["up/r.xlsx" := RegularFile true]};
     pending_faults := [];
     bulk_log := [];
     deactivated := None |}.


(** A sheet with a header row and six data rows; the second data row is
    blank (its age does not parse), the others are valid.  The age column is
    the fourth one. *)
Definition two_per_chunk : Settings :=
  {| EXCEL_CHUNK_SIZE := 2;
     CLEANUP_EXPIRED_UPLOADS := true;
     UPLOAD_FILE_RETENTION_HOURS := 72;
     REQUIRED_COLUMNS := ["name"; "email"; "age"] |}.

Definition sample_headers : raw_row :=
  [CStr " Name"; CStr "EMAIL "; CNone; CStr "Age"].

Definition sample_column_map : gmap string nat :=
  <["age" := 3%nat]> (<["email" := 1%nat]> {["name" := 0%nat]}).

Definition sample_row (n e : string) (a : cell) : option raw_row :=
  Some [CStr n; CStr e; CInt 7; a].

Definition blank_row : raw_row := [CStr "  "; CNone; CInt 7; CStr "n/a"].

Definition sample_rows : list (option raw_row) :=
  [sample_row "Ann" "ann@example.org" (CInt 31);
   Some blank_row;
   sample_row "Bob" "bob@example.org" (CStr "42.9");
   sample_row "Cy" " cy@example.org " (CFloat (Py.FFin true 3 0) "-3.0");
   sample_row "Di" "" CNone;
   sample_row "" "ed@example.org" (CBool true)].

(** The ledger after the upload of that sheet as job [j1], under
    [two_per_chunk]. *)
Definition sample_upload : World :=
  snd (upload_excel two_per_chunk "people.xlsx" "j1" "up/people.xlsx" 10
         {| users := []; upload_jobs := []; files := ∅;
            pending_faults := []; bulk_log := []; deactivated := None |}).

Definition sample_completed : World :=
  process_excel_job two_per_chunk "j1" (Ok (Some sample_headers :: sample_rows))
                    200 300 sample_upload.

(** The same upload, with a storage that takes the first bulk write and
    raises on the second. *)
Definition sample_faulty : World :=
  {| users := users sample_upload; upload_jobs := upload_jobs sample_upload;
     files := files sample_upload;
     pending_faults := [None; Some "server has gone away"];
     bulk_log := [];
     deactivated := None |}.

(** The settings after the chunk size was raised to three. *)
Definition three_per_chunk : Settings :=
  {| EXCEL_CHUNK_SIZE := 3;
     CLEANUP_EXPIRED_UPLOADS := true;
     UPLOAD_FILE_RETENTION_HOURS := 72;
     REQUIRED_COLUMNS := ["name"; "email"; "age"] |}.

(** A header row with the three columns in order. *)
Definition three_columns : gmap string nat :=
  <["age" := 2%nat]> (<["email" := 1%nat]> {["name" := 0%nat]}).

(** ** Further notions *)

(** The row, if there is one, goes through [_normalize_row] without an
    exception. *)
Definition normalizes (column_map : gmap string nat) (r : option raw_row)
  : bool :=
  match r with
  | None => true
  | Some row => match _normalize_row row column_map with
                | Ok _ => true
                | Raise _ => false
                end
  end.

(** No bulk write that is still to come will raise. *)
Definition storage_reliable (w : World) : Prop :=
  Forall (fun outcome => outcome = None) (pending_faults w).

(** The file gives the row loop nothing to write: it cannot be read, or it
    has no header row, or its header row does not resolve, or every row
    after the header row is absent or normalizes to a blank record. *)
Definition no_data_rows (settings : Settings)
    (loaded : result (list (option raw_row))) : Prop :=
  match loaded with
  | Ok (Some headers :: rows) =>
      match resolve_columns settings headers with
      | Ok column_map =>
          Forall (fun r => normalizes column_map r = true) rows
          /\ valid_rows column_map rows = []
      | Raise _ => True
      end
  | _ => True
  end.

(** A sheet with a header row and rows that hold nothing. *)
Definition sample_hollow : result (list (option raw_row)) :=
  Ok [Some sample_headers; None; Some blank_row;
      Some [CNone; CStr ""; CNone; CInt 0]].

(** ** The rest of [main.py]: what the endpoints do to the world *)




(** ** The rest of [config.py] *)

(** [_to_bool] *)
Definition _to_bool (value : option string) (default : bool) : bool :=
  match value with
  | None => default
  | Some v =>
      existsb (String.eqb (Py.lower (Py.strip v))) ["1"; "true"; "yes"; "on"]
  end.

(** [s.split(sep)] for a separator of one character. *)
Fixpoint split_on (sep : ascii) (s : string) : list string :=
  match s with
  | EmptyString => [EmptyString]
  | String c t =>
      if Ascii.eqb c sep then EmptyString :: split_on sep t
      else match split_on sep t with
           | piece :: rest => String c piece :: rest
           | [] => [String c EmptyString]
           end
  end.

(** The generator behind [REQUIRED_COLUMNS]. *)
Definition required_columns_of (raw : string) : list string :=
  map Py.strip
      (List.filter (fun column => negb (String.eqb (Py.strip column) ""))
                   (split_on "," raw)).

(** The digits and underscores a text starts with, and what follows. *)
Fixpoint span_digits (cs : list ascii) : list ascii * list ascii :=
  match cs with
  | c :: t =>
      if Py.is_digit c || Ascii.eqb c "_"
      then let '(run, rest) := span_digits t in (c :: run, rest)
      else ([], cs)
  | [] => ([], [])
  end.

(** [int(s)] for a [str], in base ten: white space, a sign, digits with
    single underscores between them, white space.  The runtime reads the
    digits first; a run of more than 4300 digits is refused, as it is by
    default, before the runtime looks at what follows the run.  The text of
    the other error quotes the first 200 characters of [repr(s)]. *)
Definition int_of_string (s : string) : result Z :=
  let refused :=
    Raise (Exn ValueError
             ("invalid literal for int() with base 10: "
              +:+ String.substring 0 200 (Py.repr s))) in
  let cs := if forallb (fun c => (Py.code c <? 128)%N) (Py.chars s)
            then Py.chars s else map Py.to_ascii (Py.chars s) in
  let '(neg, body) := Py.take_sign (Py.drop_float_space cs) in
  let '(run, rest) := span_digits body in
  if negb (Py.underscores_ok zero run) then refused
  else
    let digits := List.filter Py.is_digit run in
    if (4300 <? length digits)%nat then
      Raise (Exn ValueError
               ("Exceeds the limit (4300 digits) for integer string conversion: "
                +:+ "value has " +:+ Py.str_of_int (Z.of_nat (length digits))
                +:+ " digits; use sys.set_int_max_str_digits() "
                +:+ "to increase the limit"))
    else
      match digits, Py.drop_float_space rest with
      | _ :: _, [] =>
          let v := fst (fst (Py.take_digits digits 0 0)) in
          Ok (if neg then - v else v)
      | _, _ => refused
      end.

(** [os.getenv(key, default)] *)
Definition getenv (environ : gmap string string) (key default : string)
  : string :=
  match environ !! key with
  | Some v => v
  | None => default
  end.

(** The body of [class Settings], for the four options the procedures
    read ([DATABASE_URL] and [UPLOAD_DIR] are plain [getenv] calls). *)
Definition load_settings (environ : gmap string string) : result Settings :=
  bind_result (int_of_string (getenv environ "EXCEL_CHUNK_SIZE" "500"))
    (fun chunk =>
  bind_result (int_of_string (getenv environ "UPLOAD_FILE_RETENTION_HOURS" "72"))
    (fun retention =>
  Ok {| EXCEL_CHUNK_SIZE := chunk;
        CLEANUP_EXPIRED_UPLOADS :=
          _to_bool (Some (getenv environ "CLEANUP_EXPIRED_UPLOADS" "true")) true;
        UPLOAD_FILE_RETENTION_HOURS := retention;
        REQUIRED_COLUMNS :=
          required_columns_of (getenv environ "REQUIRED_COLUMNS" "name,email,age")
     |})).

(** [line.split("=", 1)] for a line that holds the sign. *)
Fixpoint split_first (sep : ascii) (s : string) : string * string :=
  match s with
  | EmptyString => (EmptyString, EmptyString)
  | String c t =>
      if Ascii.eqb c sep then (EmptyString, t)
      else let '(key, value) := split_first sep t in (String c key, value)
  end.

(** [s.strip(q)] for one character [q]. *)
Fixpoint lstrip_char (q : ascii) (s : string) : string :=
  match s with
  | EmptyString => EmptyString
  | String c t => if Ascii.eqb c q then lstrip_char q t else s
  end.

Fixpoint rstrip_char (q : ascii) (s : string) : string :=
  match s with
  | EmptyString => EmptyString
  | String c t =>
      match rstrip_char q t with
      | EmptyString => if Ascii.eqb c q then EmptyString else String c EmptyString
      | t' => String c t'
      end
  end.

Definition strip_char (q : ascii) (s : string) : string :=
  rstrip_char q (lstrip_char q s).

(** [os.environ.setdefault(key, value)].  A variable that is set is left
    alone.  A new one is refused with [ValueError] when name or value holds
    a null character, and with the [OSError] of [setenv] when the name is
    empty (the name holds no [=] here: it is what stands before the first
    one). *)
Definition setdefault (key value : string) (environ : gmap string string)
  : result (gmap string string) :=
  match environ !! key with
  | Some _ => Ok environ
  | None =>
      if Py.contains_char zero key || Py.contains_char zero value
      then Raise (Exn ValueError "embedded null byte")
      else if String.eqb key ""
      then Raise (Exn OSError "[Errno 22] Invalid argument")
      else Ok (<[key := value]> environ)
  end.

(** One pass of the loop of [_load_env_file]. *)
Definition load_env_line (raw_line : string) (environ : gmap string string)
  : result (gmap string string) :=
  let line := Py.strip raw_line in
  if String.eqb line "" || String.prefix "#" line
     || negb (Py.contains_char "=" line)
  then Ok environ
  else
    let '(key, value) := split_first "=" line in
    let key := Py.strip key in
    let value := strip_char "'" (strip_char Py.dquote (Py.strip value)) in
    setdefault key value environ.

(** [_load_env_file], given the lines of the file ([None]: there is no
    file). *)
Fixpoint load_env_lines (lines : list string) (environ : gmap string string)
  : result (gmap string string) :=
  match lines with
  | [] => Ok environ
  | raw_line :: rest =>
      bind_result (load_env_line raw_line environ) (load_env_lines rest)
  end.

Definition _load_env_file (dotenv : option (list string))
    (environ : gmap string string) : result (gmap string string) :=
  match dotenv with
  | None => Ok environ
  | Some lines => load_env_lines lines environ
  end.

(* ===================================================================== *)
(** * Part 2: lemmas                                                      *)
(* ===================================================================== *)

(** ** The ledger updates *)

Section Ledger.

Implicit Types (db w : World) (id : string) (j : UploadJob).

Lemma with_jobs_same db : with_jobs db (upload_jobs db) = db.
Proof. by destruct db. Qed.

Lemma update_job_rows id change db :
  upload_jobs (update_job id change db)
  = map (fun j => if String.eqb (job_id j) id then change j else j)
        (upload_jobs db).
Proof. reflexivity. Qed.

Lemma update_job_users id change db : users (update_job id change db) = users db.
Proof. reflexivity. Qed.

Lemma update_job_files id change db : files (update_job id change db) = files db.
Proof. reflexivity. Qed.

Lemma update_job_log id change db :
  bulk_log (update_job id change db) = bulk_log db.
Proof. reflexivity. Qed.

Lemma has_job_false_rows db id :
  has_job db id = false ->
  Forall (fun j => String.eqb (job_id j) id = false) (upload_jobs db).
Proof.
  unfold has_job. intros H. apply Forall_forall. intros j Hj.
  destruct (String.eqb (job_id j) id) eqn:E; [|done].
  assert (existsb (fun j => String.eqb (job_id j) id) (upload_jobs db) = true)
    as Hex by (apply existsb_exists; exists j; by rewrite <- list_elem_of_In).
  congruence.
Qed.

Lemma update_job_absent id change db :
  has_job db id = false -> update_job id change db = db.
Proof.
  intros H. unfold update_job.
  apply has_job_false_rows in H.
  assert (map (fun j => if String.eqb (job_id j) id then change j else j)
              (upload_jobs db) = upload_jobs db) as ->; [|apply with_jobs_same].
  induction H as [|j l Hj _ IH]; [done|].
  simpl. rewrite Hj. by f_equal.
Qed.

(** The record of job [id] once every row with that id went through
    [change]. *)
Lemma get_upload_job_changed (change : UploadJob -> UploadJob) w w' id j :
  (forall x, job_id (change x) = job_id x) ->
  upload_jobs w'
  = map (fun x => if String.eqb (job_id x) id then change x else x)
        (upload_jobs w) ->
  get_upload_job w id = Some j ->
  get_upload_job w' id = Some (change j).
Proof.
  intros Hid Hrows. unfold get_upload_job. rewrite Hrows. clear Hrows.
  induction (upload_jobs w) as [|r rows IH]; [done|].
  cbn [map List.filter].
  destruct (String.eqb (job_id r) id) eqn:E.
  - rewrite Hid, E. cbn [head]. by intros [= ->].
  - by rewrite E.
Qed.

End Ledger.

(** C10. A ledger update (set running, set completed, set failed, mark file
    deleted) for a job id that no row of the ledger carries changes nothing:
    the world it returns is the world it was given. *)
Theorem ledger_update_unknown_id_is_noop (db : World) (id : string) :
  has_job db id = false ->
  forall (now rows : Z) (err : string),
    set_upload_job_running db id now = db
    /\ set_upload_job_completed db id rows now = db
    /\ set_upload_job_failed db id err now = db
    /\ mark_upload_file_deleted db id now = db.
Proof.
  intros H now rows err.
  unfold set_upload_job_running, set_upload_job_completed,
    set_upload_job_failed, mark_upload_file_deleted.
  repeat split; by apply update_job_absent.
Qed.

Lemma ledger_update_unknown_id_is_noop_witness :
  has_job sample_ledger "j9" = false
  /\ (set_upload_job_running sample_ledger "j9" 500 = sample_ledger
      /\ set_upload_job_completed sample_ledger "j9" 12 500 = sample_ledger
      /\ set_upload_job_failed sample_ledger "j9" "boom" 500 = sample_ledger
      /\ mark_upload_file_deleted sample_ledger "j9" 500 = sample_ledger).
Proof.
  split; [reflexivity|].
  exact (ledger_update_unknown_id_is_noop sample_ledger "j9" eq_refl
           500 12 "boom").
Defined.

(** ** The retention sweep *)

Section Sweep.

Implicit Types (db w : World) (job j : UploadJob) (fs : gmap string node).

Lemma same_id_same_row (rows : list UploadJob) a b :
  NoDup (map job_id rows) -> In a rows -> In b rows ->
  job_id a = job_id b -> a = b.
Proof.
  induction rows as [|r rows IH]; simpl; [done|].
  intros Hnd Ha Hb Hid. apply NoDup_cons in Hnd as [Hr Hnd].
  destruct Ha as [->|Ha], Hb as [->|Hb]; [done| | |by apply IH].
  - exfalso. apply Hr. rewrite Hid. apply list_elem_of_In, in_map, Hb.
  - exfalso. apply Hr. rewrite <- Hid. apply list_elem_of_In, in_map, Ha.
Qed.

Lemma get_upload_job_of_row db j :
  ledger_ok db -> In j (upload_jobs db) ->
  get_upload_job db (job_id j) = Some j.
Proof.
  unfold ledger_ok, get_upload_job.
  induction (upload_jobs db) as [|r rows IH]; simpl; [done|].
  intros Hnd Hj. apply NoDup_cons in Hnd as [Hr Hnd].
  destruct (String.eqb (job_id r) (job_id j)) eqn:E.
  - apply String.eqb_eq in E. destruct Hj as [->|Hj]; [done|].
    exfalso. apply Hr. rewrite E. apply list_elem_of_In, in_map, Hj.
  - destruct Hj as [->|Hj]; [by rewrite String.eqb_refl in E|by apply IH].
Qed.

Lemma due_for_cleanup_spec cutoff j :
  due_for_cleanup cutoff j = true <->
  (exists t, completed_at j = Some t /\ t <= cutoff) /\ file_deleted_at j = None.
Proof.
  unfold due_for_cleanup.
  destruct (completed_at j) as [t|], (file_deleted_at j) as [d|]; simpl;
    rewrite ?andb_true_r, ?andb_false_r, ?Z.leb_le; split;
    try (intros [[? [? ?]] ?]); try intros ?; try done.
  - split; [exists t; split; [done|lia]|done].
  - by simplify_eq.
Qed.

(** One pass of the loop body, by the state of the job's file. *)
Lemma cleanup_job_step now job w :
  cleanup_job now job w =
  match files w !! saved_path job with
  | Some (RegularFile true) =>
      (Ok 1, mark_upload_file_deleted
               (with_files w (delete (saved_path job) (files w)))
               (job_id job) now)
  | Some (RegularFile false) =>
      (Raise (Exn OSError "[Errno 13] Permission denied"), w)
  | _ => (Ok 0, mark_upload_file_deleted w (job_id job) now)
  end.
Proof.
  unfold cleanup_job, bind, modify, ret, unlink, path_exists, path_is_file.
  destruct (files w !! saved_path job) as [[|[]]|] eqn:E; simpl;
    rewrite ?E; reflexivity.
Qed.

Lemma blocked_delete fs q p :
  fs !! q = Some (RegularFile true) ->
  blocked (delete q fs) p = blocked fs p.
Proof.
  intros Hq. unfold blocked.
  destruct (decide (q = p)) as [->|Hne].
  - by rewrite lookup_delete_eq, Hq.
  - by rewrite lookup_delete_ne.
Qed.

Lemma marked_by_cons fs job l j :
  marked_by fs (job :: l) j
  = (String.eqb (job_id j) (job_id job) && negb (blocked fs (saved_path job)))
    || marked_by fs l j.
Proof. reflexivity. Qed.

Lemma marked_by_delete fs q l j :
  fs !! q = Some (RegularFile true) ->
  marked_by (delete q fs) l j = marked_by fs l j.
Proof.
  intros Hq. induction l as [|job l IH]; [done|].
  by rewrite !marked_by_cons, IH, blocked_delete.
Qed.

Lemma mark_rows_nil fs now (rows : list UploadJob) :
  map (fun j => if marked_by fs [] j then deleted_fields now j else j) rows
  = rows.
Proof. induction rows as [|j rows IH]; simpl; [done|]. by f_equal. Qed.

(** Marking the rows of [job], then those of the jobs of [l]. *)
Lemma mark_rows_step fs now job l (rows : list UploadJob) :
  blocked fs (saved_path job) = false ->
  map (fun j => if marked_by fs l j then deleted_fields now j else j)
      (map (fun j => if String.eqb (job_id j) (job_id job)
                     then deleted_fields now j else j) rows)
  = map (fun j => if marked_by fs (job :: l) j then deleted_fields now j else j)
        rows.
Proof.
  intros Hb. rewrite map_map. apply map_ext. intros j.
  rewrite marked_by_cons, Hb, andb_true_r.
  destruct (String.eqb (job_id j) (job_id job)); simpl; [|done].
  change (marked_by fs l (deleted_fields now j)) with (marked_by fs l j).
  by destruct (marked_by fs l j).
Qed.

Lemma mark_rows_skip fs now job l (rows : list UploadJob) :
  blocked fs (saved_path job) = true ->
  map (fun j => if marked_by fs l j then deleted_fields now j else j) rows
  = map (fun j => if marked_by fs (job :: l) j then deleted_fields now j else j)
        rows.
Proof.
  intros Hb. apply map_ext. intros j.
  by rewrite marked_by_cons, Hb, andb_false_r.
Qed.

(** The whole loop: it ends without raising, the rows marked are those of
    the jobs whose file could be handled, and the files are those left by
    [swept]. *)
Lemma cleanup_loop_spec now l : forall acc w,
  exists n,
    cleanup_loop now l acc w
    = (Ok n,
       {| users := users w;
          upload_jobs :=
            map (fun j => if marked_by (files w) l j
                          then deleted_fields now j else j) (upload_jobs w);
          files := swept (files w) l;
          pending_faults := pending_faults w;
          bulk_log := bulk_log w;
          deactivated := deactivated w |}).
Proof.
  induction l as [|job l IH]; intros acc w.
  - exists acc. cbn [cleanup_loop swept]. rewrite mark_rows_nil. by destruct w.
  - cbn [cleanup_loop swept]. rewrite cleanup_job_step.
    destruct (files w !! saved_path job) as [[|[]]|] eqn:E.
    + destruct (IH (acc + 0) (mark_upload_file_deleted w (job_id job) now))
        as [n ->].
      exists n. do 2 f_equal. cbn [files upload_jobs mark_upload_file_deleted
        update_job with_jobs]. apply mark_rows_step. unfold blocked. by rewrite E.
    + destruct (IH (acc + 1)
                  (mark_upload_file_deleted
                     (with_files w (delete (saved_path job) (files w)))
                     (job_id job) now)) as [n ->].
      exists n. do 2 f_equal. cbn [files upload_jobs mark_upload_file_deleted
        update_job with_jobs with_files].
      erewrite map_ext; [|intros j; by rewrite (marked_by_delete _ _ _ _ E)].
      apply mark_rows_step. unfold blocked. by rewrite E.
    + cbn [exn_class]. destruct (IH acc w) as [n ->].
      exists n. do 2 f_equal. apply mark_rows_skip. unfold blocked. by rewrite E.
    + destruct (IH (acc + 0) (mark_upload_file_deleted w (job_id job) now))
        as [n ->].
      exists n. do 2 f_equal. cbn [files upload_jobs mark_upload_file_deleted
        update_job with_jobs]. apply mark_rows_step. unfold blocked. by rewrite E.
Qed.

End Sweep.

Section SweepResults.

Implicit Types (db w : World) (job j : UploadJob) (fs : gmap string node).

Lemma swept_lookup l : forall fs p,
  swept fs l !! p
  = match fs !! p with
    | Some (RegularFile true) =>
        if existsb (fun job => String.eqb (saved_path job) p) l
        then None else Some (RegularFile true)
    | other => other
    end.
Proof.
  induction l as [|job l IH]; intros fs p; cbn [swept existsb].
  - by destruct (fs !! p) as [[|[]]|].
  - destruct (String.eqb (saved_path job) p) eqn:E.
    + apply String.eqb_eq in E. subst p.
      destruct (fs !! saved_path job) as [[|[]]|] eqn:F; rewrite IH.
      * by rewrite F.
      * by rewrite lookup_delete_eq.
      * by rewrite F.
      * by rewrite F.
    + apply String.eqb_neq in E. simpl.
      destruct (fs !! saved_path job) as [[|[]]|] eqn:F; rewrite IH;
        by rewrite ?lookup_delete_ne.
Qed.

Lemma cleanup_selected_rows db cutoff job :
  In job (get_jobs_for_cleanup db cutoff) ->
  In job (upload_jobs db) /\ due_for_cleanup cutoff job = true.
Proof. unfold get_jobs_for_cleanup. apply filter_In. Qed.

(** With unique ids, a row is marked only through its own job. *)
Lemma marked_by_own_job db cutoff j :
  ledger_ok db -> In j (upload_jobs db) ->
  marked_by (files db) (get_jobs_for_cleanup db cutoff) j = true ->
  In j (get_jobs_for_cleanup db cutoff)
  /\ blocked (files db) (saved_path j) = false.
Proof.
  intros Hok Hj Hm. unfold marked_by in Hm.
  apply existsb_exists in Hm as (job & Hjob & Hc).
  apply andb_true_iff in Hc as [Hid Hb].
  apply String.eqb_eq in Hid.
  assert (j = job) as ->.
  { apply (same_id_same_row (upload_jobs db)); try done.
    by apply cleanup_selected_rows in Hjob as [? _]. }
  split; [done|]. by apply negb_true_iff.
Qed.

Lemma marked_by_selected db cutoff job :
  In job (get_jobs_for_cleanup db cutoff) ->
  blocked (files db) (saved_path job) = false ->
  marked_by (files db) (get_jobs_for_cleanup db cutoff) job = true.
Proof.
  intros Hjob Hb. unfold marked_by. apply existsb_exists.
  exists job. split; [done|]. by rewrite String.eqb_refl, Hb.
Qed.

(** The cutoff, when it is a date, is one retention window before [now]. *)
Lemma sweep_cutoff_value settings now cutoff :
  sweep_cutoff settings now = Ok cutoff -> cutoff = cutoff_of settings now.
Proof.
  unfold sweep_cutoff, timedelta_hours, datetime_sub, cutoff_of.
  destruct (_ || _); [done|]. destruct (_ || _); [done|]. cbn [bind_result].
  destruct (_ || _); [done|]. by intros [= <-].
Qed.

(** It is a date exactly when the retention window fits a [timedelta] and
    the moment one window before [now] is within the range of [datetime]. *)
Lemma sweep_cutoff_ok settings now :
  (exists cutoff, sweep_cutoff settings now = Ok cutoff) <->
  -999999999 <= UPLOAD_FILE_RETENTION_HOURS settings / 24 <= 999999999
  /\ datetime_min <= cutoff_of settings now <= datetime_max.
Proof.
  unfold sweep_cutoff, timedelta_hours, datetime_sub, cutoff_of.
  set (days := UPLOAD_FILE_RETENTION_HOURS settings / 24).
  set (t := now - hours (UPLOAD_FILE_RETENTION_HOURS settings)).
  destruct ((days <? -2147483648) || (2147483647 <? days)) eqn:E1.
  { cbn [bind_result]. split; [by intros [? ?]|].
    apply orb_true_iff in E1 as [E1|E1]; apply Z.ltb_lt in E1; lia. }
  destruct ((days <? -999999999) || (999999999 <? days)) eqn:E2.
  { cbn [bind_result]. split; [by intros [? ?]|].
    apply orb_true_iff in E2 as [E2|E2]; apply Z.ltb_lt in E2; lia. }
  cbn [bind_result]. fold t.
  apply orb_false_iff in E2 as [E2 E2']. apply Z.ltb_ge in E2, E2'.
  destruct ((t <? datetime_min) || (datetime_max <? t)) eqn:E3.
  - split; [by intros [? ?]|].
    apply orb_true_iff in E3 as [E3|E3]; apply Z.ltb_lt in E3; lia.
  - apply orb_false_iff in E3 as [E3 E3']. apply Z.ltb_ge in E3, E3'.
    split; [lia|by eexists].
Qed.

Lemma sweep_cutoff_raises settings now e :
  sweep_cutoff settings now = Raise e -> exn_class e = OverflowError.
Proof.
  unfold sweep_cutoff, timedelta_hours, datetime_sub.
  destruct (_ || _); [by intros [= <-]|].
  destruct (_ || _); [by intros [= <-]|]. cbn [bind_result].
  destruct (_ || _); [by intros [= <-]|done].
Qed.

(** The sweep as a whole, when it is switched on and the cutoff is a
    date. *)
Lemma cleanup_expired_uploads_spec settings now db cutoff :
  CLEANUP_EXPIRED_UPLOADS settings = true ->
  sweep_cutoff settings now = Ok cutoff ->
  exists n,
    cleanup_expired_uploads settings now db
    = (Ok n,
       {| users := users db;
          upload_jobs :=
            map (fun j => if marked_by (files db)
                               (get_jobs_for_cleanup db (cutoff_of settings now)) j
                          then deleted_fields now j else j) (upload_jobs db);
          files := swept (files db)
                         (get_jobs_for_cleanup db (cutoff_of settings now));
          pending_faults := pending_faults db;
          bulk_log := bulk_log db;
          deactivated := deactivated db |}).
Proof.
  intros Hon Hcut. unfold cleanup_expired_uploads. rewrite Hon. cbn [negb].
  rewrite Hcut. rewrite (sweep_cutoff_value _ _ _ Hcut).
  apply cleanup_loop_spec.
Qed.

(** The three ways a sweep goes: it runs its loop, it is switched off, or
    the cutoff is no date and it raises before it has looked at any job. *)
Lemma cleanup_expired_uploads_cases settings now db :
  (CLEANUP_EXPIRED_UPLOADS settings = true
   /\ sweep_cutoff settings now = Ok (cutoff_of settings now)
   /\ exists n,
        cleanup_expired_uploads settings now db
        = (Ok n,
           {| users := users db;
              upload_jobs :=
                map (fun j =>
                       if marked_by (files db)
                            (get_jobs_for_cleanup db (cutoff_of settings now)) j
                       then deleted_fields now j else j) (upload_jobs db);
              files := swept (files db)
                             (get_jobs_for_cleanup db (cutoff_of settings now));
              pending_faults := pending_faults db;
              bulk_log := bulk_log db;
              deactivated := deactivated db |}))
  \/ (CLEANUP_EXPIRED_UPLOADS settings = false
      /\ cleanup_expired_uploads settings now db = (Ok 0, db))
  \/ (CLEANUP_EXPIRED_UPLOADS settings = true
      /\ exists e, sweep_cutoff settings now = Raise e
                   /\ exn_class e = OverflowError
                   /\ cleanup_expired_uploads settings now db = (Raise e, db)).
Proof.
  destruct (CLEANUP_EXPIRED_UPLOADS settings) eqn:Hon.
  - destruct (sweep_cutoff settings now) as [cutoff|e] eqn:Hcut.
    + left. split; [done|].
      pose proof (sweep_cutoff_value _ _ _ Hcut) as ->. split; [done|].
      by apply (cleanup_expired_uploads_spec _ _ _ (cutoff_of settings now)).
    + right. right. split; [done|]. exists e. split; [done|].
      split; [by apply (sweep_cutoff_raises settings now)|].
      unfold cleanup_expired_uploads. by rewrite Hon, Hcut.
  - right. left. split; [done|].
    unfold cleanup_expired_uploads. by rewrite Hon.
Qed.

Lemma Forall2_same {A} (R : A -> A -> Prop) (l : list A) :
  (forall x, R x x) -> Forall2 R l l.
Proof. intros HR. induction l; by constructor. Qed.

Lemma mark_rows_ids (mark : UploadJob -> bool) now (rows : list UploadJob) :
  map job_id (map (fun j => if mark j then deleted_fields now j else j) rows)
  = map job_id rows.
Proof.
  rewrite map_map. apply map_ext. intros j. by destruct (mark j).
Qed.

End SweepResults.

(** C9. The jobs the sweep selects are the rows whose [completed_at] is set
    and at least the retention window before the current time and whose
    [file_deleted_at] is still null ([saved_path] cannot be null); a row with
    [file_deleted_at] set is never selected; and a sweep changes a row only
    by writing [file_deleted_at = now] on a job it selected. *)
Theorem cleanup_only_after_retention (settings : Settings) (now : Z)
    (db : World) :
  ledger_ok db ->
  (forall j,
      In j (get_jobs_for_cleanup db (cutoff_of settings now)) <->
      In j (upload_jobs db)
      /\ (exists t, completed_at j = Some t
                    /\ t + hours (UPLOAD_FILE_RETENTION_HOURS settings) <= now)
      /\ file_deleted_at j = None)
  /\ (forall j cutoff, file_deleted_at j <> None ->
        ~ In j (get_jobs_for_cleanup db cutoff))
  /\ Forall2
       (fun j j' =>
          j' = j
          \/ (j' = deleted_fields now j
              /\ In j (get_jobs_for_cleanup db (cutoff_of settings now))))
       (upload_jobs db)
       (upload_jobs (snd (cleanup_expired_uploads settings now db))).
Proof.
  intros Hok. split; [|split].
  - intros j. unfold get_jobs_for_cleanup. rewrite filter_In.
    rewrite due_for_cleanup_spec. unfold cutoff_of.
    split.
    + intros (Hj & (t & Ht & Hle) & Hd). repeat split; try done.
      exists t. split; [done|lia].
    + intros (Hj & (t & Ht & Hle) & Hd). repeat split; try done.
      exists t. split; [done|lia].
  - intros j cutoff Hset Hsel.
    apply cleanup_selected_rows in Hsel as [_ Hdue].
    apply due_for_cleanup_spec in Hdue as [_ Hd]. done.
  - destruct (cleanup_expired_uploads_cases settings now db)
      as [(_ & _ & n & ->)|[(_ & ->)|(_ & e & _ & _ & ->)]]; cbn [snd].
    + cbn [upload_jobs].
      assert (forall j, In j (upload_jobs db) -> In j (upload_jobs db)) as Hall
        by done.
      revert Hall. generalize (upload_jobs db) at 1 3 4.
      intros rows. induction rows as [|r rows IH]; intros Hall; simpl.
      * constructor.
      * constructor.
        -- destruct (marked_by _ _ r) eqn:Hm; [|by left].
           right. split; [done|].
           apply (marked_by_own_job db); try done. apply Hall. by left.
        -- apply IH. intros j Hj. apply Hall. by right.
    + apply Forall2_same. by left.
    + apply Forall2_same. by left.
Qed.

Lemma sample_ledger_ok : ledger_ok sample_ledger.
Proof.
  unfold ledger_ok. simpl. repeat (apply NoDup_cons; split); try apply NoDup_nil;
    rewrite ?list_elem_of_In; simpl; intuition congruence.
Qed.

Lemma cleanup_only_after_retention_witness :
  ledger_ok sample_ledger
  /\ Forall2
       (fun j j' =>
          j' = j
          \/ (j' = deleted_fields sample_now j
              /\ In j (get_jobs_for_cleanup sample_ledger
                         (cutoff_of default_settings sample_now))))
       (upload_jobs sample_ledger)
       (upload_jobs (snd (cleanup_expired_uploads default_settings sample_now
                                                  sample_ledger))).
Proof.
  split; [exact sample_ledger_ok|].
  exact (proj2 (proj2 (cleanup_only_after_retention default_settings sample_now
                         sample_ledger sample_ledger_ok))).
Defined.

(** C4, as stated, fails: the second sample job is selected, its file cannot
    be removed, and the sweep leaves its [file_deleted_at] null. *)
Lemma sweep_marks_every_candidate_fails :
  ~ sweep_marks_every_candidate default_settings sample_now sample_ledger.
Proof.
  intros H.
  destruct (H (sample_job "j2" "up/b.xlsx" "failed" (Some 200)))
    as (j' & Hget & Hdel).
  - vm_compute. right. left. reflexivity.
  - vm_compute in Hget. injection Hget as <-. discriminate Hdel.
Qed.

(** C4, amended. With the sweep switched on and a cutoff that is a date,
    the sweep never raises and every selected job is dealt with by the state
    of its file alone.  When the file is a regular file and [unlink] raises,
    the file stays and the job's record is left as it was, with
    [file_deleted_at] null, so the job is selected again by the next sweep.
    When [unlink] succeeds, the file is gone and the record has
    [file_deleted_at = now].  When there is no regular file at the path,
    nothing is deleted and the record has [file_deleted_at = now].  No other
    field of the record changes. *)
Theorem sweep_marks_unless_unlink_raises (settings : Settings)
    (now cutoff : Z) (db : World) :
  ledger_ok db ->
  CLEANUP_EXPIRED_UPLOADS settings = true ->
  sweep_cutoff settings now = Ok cutoff ->
  (exists n, fst (cleanup_expired_uploads settings now db) = Ok n)
  /\ forall job,
       In job (get_jobs_for_cleanup db cutoff) ->
       let after := snd (cleanup_expired_uploads settings now db) in
       exists job',
         get_upload_job after (job_id job) = Some job'
         /\ (job_id job', filename job', saved_path job', status job',
             chunk_size job', inserted_rows job', error job', created_at job',
             started_at job', completed_at job')
            = (job_id job, filename job, saved_path job, status job,
               chunk_size job, inserted_rows job, error job, created_at job,
               started_at job, completed_at job)
         /\ match files db !! saved_path job with
            | Some (RegularFile false) =>
                file_deleted_at job' = None
                /\ files after !! saved_path job = Some (RegularFile false)
            | Some (RegularFile true) =>
                file_deleted_at job' = Some now
                /\ files after !! saved_path job = None
            | other =>
                file_deleted_at job' = Some now
                /\ files after !! saved_path job = other
            end.
Proof.
  intros Hok Hon Hcut.
  destruct (cleanup_expired_uploads_spec settings now db cutoff Hon Hcut)
    as [n Hrun].
  rewrite Hrun. cbn [fst snd]. split; [by exists n|].
  rewrite (sweep_cutoff_value _ _ _ Hcut).
  intros job Hsel. cbv zeta.
  set (after := {| users := users db; upload_jobs := _ |}).
  assert (ledger_ok after) as Hok'.
  { unfold ledger_ok, after. cbn [upload_jobs]. by rewrite mark_rows_ids. }
  pose proof (cleanup_selected_rows _ _ _ Hsel) as [Hrow Hdue].
  apply due_for_cleanup_spec in Hdue as [_ Hnull].
  assert (existsb (fun job' => String.eqb (saved_path job') (saved_path job))
            (get_jobs_for_cleanup db (cutoff_of settings now)) = true) as Hex.
  { apply existsb_exists. exists job. by rewrite String.eqb_refl. }
  assert (blocked (files db) (saved_path job) = false ->
          get_upload_job after (job_id job) = Some (deleted_fields now job))
    as Hmarked.
  { intros Hb.
    change (job_id job) with (job_id (deleted_fields now job)).
    apply get_upload_job_of_row; [done|].
    unfold after. cbn [upload_jobs]. apply in_map_iff. exists job.
    by rewrite (marked_by_selected _ _ _ Hsel Hb). }
  assert (blocked (files db) (saved_path job) = true ->
          get_upload_job after (job_id job) = Some job) as Hkept.
  { intros Hb. apply get_upload_job_of_row; [done|].
    unfold after. cbn [upload_jobs]. apply in_map_iff. exists job.
    destruct (marked_by _ _ job) eqn:Hm; [|done].
    apply (marked_by_own_job db) in Hm as [_ Hm]; [congruence|done..]. }
  assert (forall p, files after !! p = swept (files db)
            (get_jobs_for_cleanup db (cutoff_of settings now)) !! p) as Hfiles
    by done.
  unfold blocked in Hmarked, Hkept.
  destruct (files db !! saved_path job) as [[|[]]|] eqn:F.
  - exists (deleted_fields now job). split; [by apply Hmarked|].
    split; [done|]. split; [done|]. by rewrite Hfiles, swept_lookup, F.
  - exists (deleted_fields now job). split; [by apply Hmarked|].
    split; [done|]. split; [done|]. by rewrite Hfiles, swept_lookup, F, Hex.
  - exists job. split; [by apply Hkept|].
    split; [done|]. split; [done|]. by rewrite Hfiles, swept_lookup, F.
  - exists (deleted_fields now job). split; [by apply Hmarked|].
    split; [done|]. split; [done|]. by rewrite Hfiles, swept_lookup, F.
Qed.

Lemma sweep_marks_unless_unlink_raises_witness :
  (ledger_ok sample_ledger /\ CLEANUP_EXPIRED_UPLOADS default_settings = true
   /\ sweep_cutoff default_settings sample_now = Ok 300)
  /\ (exists n,
        fst (cleanup_expired_uploads default_settings sample_now sample_ledger)
        = Ok n)
  /\ (forall job,
        In job (get_jobs_for_cleanup sample_ledger 300) ->
        exists job',
          get_upload_job
            (snd (cleanup_expired_uploads default_settings sample_now
                    sample_ledger)) (job_id job) = Some job'
          /\ (job_id job = "j2" -> file_deleted_at job' = None)
          /\ (job_id job <> "j2" -> file_deleted_at job' = Some sample_now)).
Proof.
  assert (sweep_cutoff default_settings sample_now = Ok 300) as Hcut
    by (vm_compute; reflexivity).
  split; [split; [exact sample_ledger_ok|by split]|].
  destruct (sweep_marks_unless_unlink_raises default_settings sample_now 300
              sample_ledger sample_ledger_ok eq_refl Hcut) as [Hn Hjobs].
  split; [exact Hn|].
  intros job Hsel. destruct (Hjobs job Hsel) as (job' & Hget & _ & Hfile).
  exists job'. split; [exact Hget|].
  vm_compute in Hsel.
  destruct Hsel as [<-|[<-|[<-|[]]]]; vm_compute in Hfile;
    destruct Hfile as [Hdel _]; split; intros Hid; try exact Hdel;
    exfalso; vm_compute in Hid; congruence.
Defined.

(** ** Recovery after a restart *)

Section Recovery.

Implicit Types (db w : World) (job j : UploadJob).

Lemma with_jobs_update id change db rows :
  with_jobs (update_job id change db) rows = with_jobs db rows.
Proof. reflexivity. Qed.

Lemma with_jobs_twice db rows rows' :
  with_jobs (with_jobs db rows) rows' = with_jobs db rows'.
Proof. reflexivity. Qed.

Lemma has_id_cons job l j :
  has_id (job :: l) j = String.eqb (job_id j) (job_id job) || has_id l j.
Proof. reflexivity. Qed.

(** Failing the rows of [job], then those of the jobs of [l]. *)
Lemma fail_rows_step err now job l (rows : list UploadJob) :
  map (fun j => if has_id l j then failed_fields err now j else j)
      (map (fun j => if String.eqb (job_id j) (job_id job)
                     then failed_fields err now j else j) rows)
  = map (fun j => if has_id (job :: l) j then failed_fields err now j else j)
        rows.
Proof.
  rewrite map_map. apply map_ext. intros j. rewrite has_id_cons.
  destruct (String.eqb (job_id j) (job_id job)); simpl; [|done].
  change (has_id l (failed_fields err now j)) with (has_id l j).
  by destruct (has_id l j).
Qed.

Lemma fail_rows_nil err now (rows : list UploadJob) :
  map (fun j => if has_id [] j then failed_fields err now j else j) rows = rows.
Proof. induction rows as [|j rows IH]; simpl; [done|]. by f_equal. Qed.

Lemma fail_interrupted_spec now l : forall db,
  fail_interrupted now l db
  = (with_jobs db
       (map (fun j => if has_id l j
                      then failed_fields interrupted_text now j else j)
            (upload_jobs db)),
     map (fun job => MarkedFailed (job_id job) interrupted_text) l).
Proof.
  induction l as [|job l IH]; intros db; cbn [fail_interrupted map].
  - by rewrite fail_rows_nil, with_jobs_same.
  - rewrite IH. unfold set_upload_job_failed.
    rewrite with_jobs_update, update_job_rows. by rewrite fail_rows_step.
Qed.

Lemma file_missing_with_jobs db rows job :
  file_missing (with_jobs db rows) job = file_missing db job.
Proof. reflexivity. Qed.

Lemma restart_queued_spec now l : forall db,
  restart_queued now l db
  = (with_jobs db
       (map (fun j => if has_id (List.filter (file_missing db) l) j
                      then failed_fields not_found_text now j else j)
            (upload_jobs db)),
     flat_map (queued_events db) l).
Proof.
  induction l as [|job l IH]; intros db; cbn [restart_queued flat_map List.filter].
  - by rewrite fail_rows_nil, with_jobs_same.
  - unfold queued_events at 1.
    change (negb (path_exists db (saved_path job))) with (file_missing db job).
    destruct (file_missing db job) eqn:E.
    + rewrite IH. unfold set_upload_job_failed.
      rewrite with_jobs_update, update_job_rows.
      change (update_job (job_id job) (failed_fields not_found_text now) db)
        with (with_jobs db (upload_jobs
                (update_job (job_id job) (failed_fields not_found_text now) db))).
      erewrite (filter_ext (file_missing (with_jobs db _)));
        [|intros a; apply file_missing_with_jobs].
      rewrite update_job_rows, fail_rows_step. reflexivity.
    + by rewrite IH.
Qed.

Lemma rows_ids_preserved (g : UploadJob -> UploadJob) (rows : list UploadJob) :
  (forall j, job_id (g j) = job_id j) ->
  map job_id (map g rows) = map job_id rows.
Proof. intros Hg. rewrite map_map. by apply map_ext. Qed.

Lemma has_id_true_iff l j :
  has_id l j = true <-> exists job, In job l /\ job_id j = job_id job.
Proof.
  unfold has_id. rewrite existsb_exists.
  split; intros (job & Hin & Hid); exists job; split; try done;
    by apply String.eqb_eq.
Qed.

(** With unique ids, carrying the id of a selected row is being that row. *)
Lemma has_id_filter (keep : UploadJob -> bool) (rows : list UploadJob) j :
  NoDup (map job_id rows) -> In j rows ->
  has_id (List.filter keep rows) j = keep j.
Proof.
  intros Hnd Hj. destruct (keep j) eqn:K.
  - apply has_id_true_iff. exists j. split; [|done]. by apply filter_In.
  - destruct (has_id (List.filter keep rows) j) eqn:H; [|done].
    apply has_id_true_iff in H as (job & Hin & Hid).
    apply filter_In in Hin as [Hin Hk].
    assert (j = job) by (by apply (same_id_same_row rows)). congruence.
Qed.

Lemma by_status_one db state :
  get_upload_jobs_by_status db [state]
  = List.filter (fun j => String.eqb (status j) state) (upload_jobs db).
Proof.
  unfold get_upload_jobs_by_status. apply filter_ext. intros j.
  simpl. by rewrite orb_false_r.
Qed.

End Recovery.

Section RecoveryResults.

Implicit Types (db w : World) (job j : UploadJob).

Lemma filter_twice {A} (f g : A -> bool) (l : list A) :
  List.filter f (List.filter g l) = List.filter (fun x => g x && f x) l.
Proof.
  induction l as [|x l IH]; simpl; [done|].
  destruct (g x); simpl; [|done]. destruct (f x); by rewrite IH.
Qed.

(** The jobs still queued once the interrupted ones are failed are the jobs
    that were queued to start with. *)
Lemma queued_after_interrupted now db :
  ledger_ok db ->
  List.filter (fun j => String.eqb (status j) "queued")
    (map (fun j => if has_id (get_upload_jobs_by_status db ["running"]) j
                   then failed_fields interrupted_text now j else j)
         (upload_jobs db))
  = List.filter (fun j => String.eqb (status j) "queued") (upload_jobs db).
Proof.
  intros Hok. rewrite by_status_one.
  assert (forall j, In j (upload_jobs db) ->
            has_id (List.filter (fun j => String.eqb (status j) "running")
                                (upload_jobs db)) j
            = String.eqb (status j) "running") as Hid
    by (intros j Hj; by apply has_id_filter).
  set (R := List.filter _ (upload_jobs db)) in *. clearbody R.
  revert Hid. generalize (upload_jobs db). intros rows Hid.
  induction rows as [|r rows IH]; [done|]. cbn [map List.filter].
  rewrite (Hid r) by (by left). rewrite IH by (intros j Hj; apply Hid; by right).
  destruct (String.eqb (status r) "running") eqn:E; [|done].
  apply String.eqb_eq in E. by rewrite E.
Qed.

Lemma recover_spec now db :
  ledger_ok db ->
  _recover_jobs_after_restart now db
  = (with_jobs db (map (recovered now db) (upload_jobs db)),
     StatusQueried ["running"]
     :: map (fun j => MarkedFailed (job_id j) interrupted_text)
            (get_upload_jobs_by_status db ["running"])
     ++ StatusQueried ["queued"]
     :: flat_map (queued_events db) (get_upload_jobs_by_status db ["queued"])).
Proof.
  intros Hok. unfold _recover_jobs_after_restart.
  rewrite fail_interrupted_spec, restart_queued_spec.
  rewrite !(by_status_one _ "queued"). cbn [upload_jobs with_jobs].
  rewrite (queued_after_interrupted now db Hok).
  rewrite with_jobs_twice. f_equal.
  f_equal. rewrite map_map. apply map_ext_in. intros j Hj.
  rewrite by_status_one, filter_twice.
  rewrite (has_id_filter _ _ j Hok Hj).
  unfold recovered. destruct (String.eqb (status j) "running") eqn:E.
  - change (has_id ?l (failed_fields interrupted_text now j)) with (has_id l j).
    rewrite (has_id_filter _ _ j Hok Hj).
    apply String.eqb_eq in E. by rewrite E.
  - rewrite (has_id_filter _ _ j Hok Hj). reflexivity.
Qed.

Lemma recovered_id now db j : job_id (recovered now db j) = job_id j.
Proof.
  unfold recovered.
  by destruct (String.eqb (status j) "running"),
              (String.eqb (status j) "queued" && file_missing db j).
Qed.

End RecoveryResults.

(** C8. The supervisor marks every running job failed with the text
    [Job interrupted because server restarted] first, and only after that
    queries and goes through the queued jobs.  A job that was running ends
    with [status = failed] and that text as [error]; a queued job whose file
    is missing ends with [status = failed] and the text [Queued job file not
    found after server restart] as [error], and no thread is started for
    it. *)
Theorem recovery_fails_interrupted_then_missing (now : Z) (db : World) :
  ledger_ok db ->
  let after := fst (_recover_jobs_after_restart now db) in
  let evs := snd (_recover_jobs_after_restart now db) in
  let in_state state :=
    List.filter (fun j => String.eqb (status j) state) (upload_jobs db) in
  let examined j :=
    if path_exists db (saved_path j)
    then [PathChecked (saved_path j); ThreadStarted (job_id j) (saved_path j)]
    else [PathChecked (saved_path j);
          MarkedFailed (job_id j)
                       "Queued job file not found after server restart"] in
  evs = StatusQueried ["running"]
        :: map (fun j => MarkedFailed (job_id j)
                           "Job interrupted because server restarted")
               (in_state "running")
        ++ StatusQueried ["queued"] :: flat_map examined (in_state "queued")
  /\ (forall j, In j (upload_jobs db) -> status j = "running" ->
        exists j',
          get_upload_job after (job_id j) = Some j'
          /\ status j' = "failed"
          /\ error j' = Some "Job interrupted because server restarted"
          /\ completed_at j' = Some now)
  /\ (forall j, In j (upload_jobs db) -> status j = "queued" ->
        path_exists db (saved_path j) = false ->
        (exists j',
           get_upload_job after (job_id j) = Some j'
           /\ status j' = "failed"
           /\ error j' = Some "Queued job file not found after server restart"
           /\ completed_at j' = Some now)
        /\ forall p, ~ In (ThreadStarted (job_id j) p) evs).
Proof.
  intros Hok. rewrite (recover_spec now db Hok). cbn [fst snd]. cbv zeta.
  rewrite !by_status_one.
  assert (ledger_ok (with_jobs db (map (recovered now db) (upload_jobs db))))
    as Hok'.
  { unfold ledger_ok. cbn [upload_jobs with_jobs].
    rewrite rows_ids_preserved; [done|apply recovered_id]. }
  split; [|split].
  - do 3 f_equal. apply flat_map_ext. intros j.
    unfold queued_events, file_missing.
    by destruct (path_exists db (saved_path j)).
  - intros j Hj Hrun.
    exists (failed_fields interrupted_text now j). split; [|done].
    change (job_id j) with (job_id (failed_fields interrupted_text now j)).
    apply get_upload_job_of_row; [done|].
    cbn [upload_jobs with_jobs]. apply in_map_iff. exists j. split; [|done].
    unfold recovered. by rewrite Hrun.
  - intros j Hj Hq Hmiss. split.
    + exists (failed_fields not_found_text now j). split; [|done].
      change (job_id j) with (job_id (failed_fields not_found_text now j)).
      apply get_upload_job_of_row; [done|].
      cbn [upload_jobs with_jobs]. apply in_map_iff. exists j. split; [|done].
      unfold recovered, file_missing. by rewrite Hq, Hmiss.
    + intros p [Hin|Hin]; [discriminate|].
      apply in_app_or in Hin as [Hin|[Hin|Hin]]; [|discriminate|].
      * apply in_map_iff in Hin as (x & Hx & _). discriminate.
      * apply in_flat_map in Hin as (job & Hjob & Hev).
        apply filter_In in Hjob as [Hjob _].
        unfold queued_events, file_missing in Hev.
        destruct (path_exists db (saved_path job)) eqn:P; cbn [negb] in Hev.
        -- destruct Hev as [Hev|[Hev|[]]]; [discriminate|].
           injection Hev as Hid _.
           assert (job = j) by (by apply (same_id_same_row (upload_jobs db))).
           congruence.
        -- destruct Hev as [Hev|[Hev|[]]]; discriminate.
Qed.

Lemma sample_restart_ok : ledger_ok sample_restart.
Proof.
  unfold ledger_ok. simpl. repeat (apply NoDup_cons; split); try apply NoDup_nil;
    rewrite ?list_elem_of_In; simpl; intuition congruence.
Qed.

Lemma recovery_fails_interrupted_then_missing_witness :
  ledger_ok sample_restart
  /\ snd (_recover_jobs_after_restart 900 sample_restart)
     = [StatusQueried ["running"];
        MarkedFailed "r1" "Job interrupted because server restarted";
        StatusQueried ["queued"];
        PathChecked "up/q.xlsx"; ThreadStarted "q1" "up/q.xlsx";
        PathChecked "up/lost.xlsx";
        MarkedFailed "q2" "Queued job file not found after server restart"]
  /\ map (fun j => (job_id j, status j, error j))
         (upload_jobs (fst (_recover_jobs_after_restart 900 sample_restart)))
     = [("r1", "failed", Some "Job interrupted because server restarted");
        ("q1", "queued", None);
        ("q2", "failed",
         Some "Queued job file not found after server restart");
        ("d1", "completed", None)].
Proof.
  split; [exact sample_restart_ok|].
  split; [|reflexivity].
  exact (proj1 (recovery_fails_interrupted_then_missing 900 sample_restart
                  sample_restart_ok)).
Defined.

(** ** Column resolution *)

Section Columns.

Lemma append_nil_r (s : string) : s +:+ "" = s.
Proof.
  induction s as [|c s IH]; [done|].
  change (String c (s +:+ "") = String c s). by f_equal.
Qed.

Lemma append_assoc (a b c : string) : (a +:+ b) +:+ c = a +:+ b +:+ c.
Proof.
  induction a as [|x a IH]; [done|].
  change (String x ((a +:+ b) +:+ c) = String x (a +:+ b +:+ c)). by f_equal.
Qed.

Lemma occurs_in_refl x : occurs_in x x.
Proof. exists "", "". symmetry. apply (append_nil_r x). Qed.

Lemma occurs_in_app_l x s t : occurs_in x s -> occurs_in x (s +:+ t).
Proof.
  intros (pre & post & ->). exists pre, (post +:+ t).
  by rewrite !append_assoc.
Qed.

Lemma occurs_in_app_r x s t : occurs_in x t -> occurs_in x (s +:+ t).
Proof.
  intros (pre & post & ->). exists (s +:+ pre), post.
  by rewrite !append_assoc.
Qed.

Lemma occurs_in_trans x y z : occurs_in x y -> occurs_in y z -> occurs_in x z.
Proof.
  intros Hxy (pre & post & ->).
  by apply occurs_in_app_r, occurs_in_app_l.
Qed.

Lemma occurs_in_join sep x l : In x l -> occurs_in x (Py.join sep l).
Proof.
  induction l as [|y l IH]; [done|].
  intros [->|Hin].
  - destruct l as [|z l]; [apply occurs_in_refl|].
    cbn [Py.join]. apply occurs_in_app_l, occurs_in_refl.
  - destruct l as [|z l]; [done|].
    cbn [Py.join]. by apply occurs_in_app_r, occurs_in_app_r, IH.
Qed.

Lemma occurs_in_repr_list x l : In x l -> occurs_in (Py.repr x) (Py.repr_list l).
Proof.
  intros Hin. unfold Py.repr_list.
  apply occurs_in_app_r, occurs_in_app_l, occurs_in_join.
  by apply in_map.
Qed.

Lemma repr_body_plain quote s :
  (quote = Py.squote \/ quote = Py.dquote) ->
  plain s = true -> Py.repr_body quote s = s.
Proof.
  intros Hq. induction s as [|c s IH]; [done|].
  cbn [plain Py.repr_body]. rewrite !andb_true_iff, !negb_true_iff.
  intros [[[[Hp Hs] Hd] Hb] Hrest]. rewrite (IH Hrest).
  unfold Py.repr_char.
  assert (Ascii.eqb c quote = false) as -> by (by destruct Hq as [->| ->]).
  rewrite Hb. cbn [orb].
  destruct (Py.code c =? 9)%N eqn:E9.
  { apply N.eqb_eq in E9. unfold Py.printable, Py.between in Hp.
    rewrite E9 in Hp. done. }
  destruct (Py.code c =? 10)%N eqn:E10.
  { apply N.eqb_eq in E10. unfold Py.printable, Py.between in Hp.
    rewrite E10 in Hp. done. }
  destruct (Py.code c =? 13)%N eqn:E13.
  { apply N.eqb_eq in E13. unfold Py.printable, Py.between in Hp.
    rewrite E13 in Hp. done. }
  by rewrite Hp.
Qed.

Lemma occurs_in_repr_plain s : plain s = true -> occurs_in s (Py.repr s).
Proof.
  intros Hp. unfold Py.repr.
  set (quote := if Py.contains_char Py.squote s
                     && negb (Py.contains_char Py.dquote s)
                  then Py.dquote else Py.squote).
  assert (quote = Py.squote \/ quote = Py.dquote) as Hq
    by (unfold quote;
        destruct (Py.contains_char Py.squote s
                  && negb (Py.contains_char Py.dquote s)); auto).
  rewrite (repr_body_plain quote s Hq Hp).
  exists (String quote ""), (String quote ""). reflexivity.
Qed.

Lemma build_header_map_none headers : forall index acc c,
  build_header_map headers index acc !! c = None <->
  acc !! c = None /\ forall v, In v headers -> header_key v <> Some c.
Proof.
  induction headers as [|v headers IH]; intros index acc c;
    cbn [build_header_map].
  - split; [intros H; split; [done|intros ? []]|by intros [H _]].
  - rewrite IH. split.
    + intros [Hacc Hrest]. destruct (header_key v) as [k|] eqn:K.
      * apply lookup_insert_None in Hacc as [Hacc Hk].
        split; [done|]. intros v' [<-|Hin]; [congruence|by apply Hrest].
      * split; [done|]. intros v' [<-|Hin]; [congruence|by apply Hrest].
    + intros [Hacc Hall]. split.
      * destruct (header_key v) as [k|] eqn:K; [|done].
        apply lookup_insert_None. split; [done|].
        intros ->. by apply (Hall v); [left|].
      * intros v' Hin. apply Hall. by right.
Qed.

Lemma header_map_none headers c :
  header_map_of headers !! c = None <->
  forall v, In v headers -> header_key v <> Some c.
Proof.
  unfold header_map_of. rewrite build_header_map_none.
  split; [by intros [_ H]|intros H; split; [apply lookup_empty|done]].
Qed.

Lemma missing_columns_spec settings header_map c :
  In c (missing_columns settings header_map) <->
  In c (REQUIRED_COLUMNS settings) /\ header_map !! c = None.
Proof.
  unfold missing_columns. rewrite filter_In.
  destruct (header_map !! c); split; intros [? ?]; split; congruence.
Qed.

End Columns.

(** C6. If a required column is absent from the header row (a header cell
    counts under its trimmed, lower-cased text; null and blank cells do not
    count), column resolution raises a [ValueError] whose message ends with
    [Missing: ] and a list; the columns in that list are the required columns
    that are absent, all of them, and the text of the list holds the quoted
    form of each, and so the name itself whenever the name needs no
    escaping. *)
Theorem missing_columns_all_named (settings : Settings) (headers : list cell) :
  (exists c, In c (REQUIRED_COLUMNS settings)
             /\ forall v, In v headers -> header_key v <> Some c) ->
  exists missing,
    resolve_columns settings headers
    = Raise (Exn ValueError
               ("Excel must contain columns: "
                +:+ Py.repr_tuple (REQUIRED_COLUMNS settings)
                +:+ ". Missing: " +:+ Py.repr_list missing))
    /\ (forall c, In c missing <->
          In c (REQUIRED_COLUMNS settings)
          /\ forall v, In v headers -> header_key v <> Some c)
    /\ forall c, In c missing ->
         occurs_in (Py.repr c) (Py.repr_list missing)
         /\ (plain c = true -> occurs_in c (Py.repr_list missing)).
Proof.
  intros (c0 & Hreq0 & Habs0).
  assert (In c0 (missing_columns settings (header_map_of headers))) as Hin0.
  { apply missing_columns_spec. split; [done|]. by apply header_map_none. }
  exists (missing_columns settings (header_map_of headers)).
  split; [|split].
  - unfold resolve_columns.
    by destruct (missing_columns settings (header_map_of headers)).
  - intros c. rewrite missing_columns_spec. by rewrite header_map_none.
  - intros c Hin.
    assert (occurs_in (Py.repr c)
              (Py.repr_list (missing_columns settings (header_map_of headers))))
      as Hocc by (by apply occurs_in_repr_list).
    split; [done|].
    intros Hp. eapply occurs_in_trans; [|exact Hocc].
    by apply occurs_in_repr_plain.
Qed.

Lemma missing_columns_all_named_witness :
  (exists c, In c (REQUIRED_COLUMNS default_settings)
             /\ forall v, In v [CStr " Name "; CNone] -> header_key v <> Some c)
  /\ exists missing,
       resolve_columns default_settings [CStr " Name "; CNone]
       = Raise (Exn ValueError
                  ("Excel must contain columns: ('name', 'email', 'age')"
                   +:+ ". Missing: " +:+ Py.repr_list missing))
       /\ (In "email" missing /\ In "age" missing /\ ~ In "name" missing).
Proof.
  assert (exists c, In c (REQUIRED_COLUMNS default_settings)
             /\ forall v, In v [CStr " Name "; CNone] -> header_key v <> Some c)
    as Habs.
  { exists "email". split; [simpl; auto|].
    intros v [<-|[<-|[]]]; vm_compute; discriminate. }
  assert (forall c, c <> "name" ->
            forall v, In v [CStr " Name "; CNone] -> header_key v <> Some c)
    as Hother.
  { intros c Hc v [<-|[<-|[]]]; [|vm_compute; discriminate].
    vm_compute. intros [= <-]. by apply Hc. }
  split; [exact Habs|].
  destruct (missing_columns_all_named default_settings [CStr " Name "; CNone]
              Habs) as (missing & Hmsg & Hiff & _).
  exists missing. split; [exact Hmsg|].
  split; [apply Hiff; split; [simpl; auto|by apply Hother]|].
  split; [apply Hiff; split; [simpl; auto|by apply Hother]|].
  intros Hin. apply Hiff in Hin as [_ Hin].
  apply (Hin (CStr " Name ")); [by left|]. vm_compute. reflexivity.
Defined.

(** The case quoted in the specification: the header holds only [name]. *)
Example missing_email_and_age :
  resolve_columns default_settings [CStr "name"]
  = Raise (Exn ValueError
      "Excel must contain columns: ('name', 'email', 'age'). Missing: ['email', 'age']").
Proof. vm_compute. reflexivity. Qed.

(** ** The ingestion run *)

Section Engine.

Implicit Types (w : World) (batch : list User) (rows : list (option raw_row)).

Lemma bulk_insert_users_spec batch w r w2 :
  bulk_insert_users batch w = (r, w2) ->
  bulk_log w2 = bulk_log w ++ [batch]
  /\ upload_jobs w2 = upload_jobs w
  /\ files w2 = files w
  /\ match r with
     | Ok _ => users w2 = users w ++ batch
     | Raise e => users w2 = users w /\ exn_class e = LibraryError
     end.
Proof.
  unfold bulk_insert_users.
  destruct (deactivated w) as [original|]; [intros [= <- <-]; by cbn|].
  destruct (pending_faults w) as [|[msg|] rest]; intros [= <- <-]; by cbn.
Qed.

(** A write goes through on a session in working order only, and leaves it
    so; a write that raises leaves the session deactivated. *)
Lemma bulk_insert_users_session batch w r w2 :
  bulk_insert_users batch w = (r, w2) ->
  match r with
  | Ok _ => deactivated w = None /\ deactivated w2 = None
  | Raise _ => exists original, deactivated w2 = Some original
  end.
Proof.
  unfold bulk_insert_users.
  destruct (deactivated w) as [original|];
    [intros [= <- <-]; by exists original|].
  destruct (pending_faults w) as [|[msg|] rest]; intros [= <- <-]; cbn;
    try done. by exists msg.
Qed.

(** A row loop that ends without an exception leaves the session in
    working order. *)
Lemma ingest_rows_session settings column_map rows :
  forall batch inserted w v w',
    ingest_rows settings column_map rows batch inserted w = (Ok v, w') ->
    deactivated w = None -> deactivated w' = None.
Proof.
  induction rows as [|[row|] rows IH]; intros batch inserted w v w' Hrun Hs;
    cbn [ingest_rows] in Hrun.
  - by injection Hrun as <- <-.
  - unfold bind at 1, lift at 1 in Hrun.
    destruct (_normalize_row row column_map) as [user|e]; [|done].
    destruct (is_blank user); [by eapply IH|].
    destruct (_ >=? _); [|by eapply IH].
    unfold bind in Hrun.
    destruct (bulk_insert_users (batch ++ [user]) w) as [[[]|e] w2] eqn:W;
      [|done].
    pose proof (bulk_insert_users_session _ _ _ _ W) as [_ Hs2].
    by eapply IH.
  - by eapply IH.
Qed.

(** What a pass through the rows does to the world, whatever the chunk
    size: the batches handed to the storage are appended to the log, the
    batches written before the first failure are appended to the table, and
    nothing else changes. *)
Lemma ingest_rows_effects settings column_map rows :
  forall batch inserted w r w',
    ingest_rows settings column_map rows batch inserted w = (r, w') ->
    exists log done,
      bulk_log w' = bulk_log w ++ log
      /\ users w' = users w ++ concat done
      /\ upload_jobs w' = upload_jobs w
      /\ files w' = files w
      /\ match r with
         | Ok _ => done = log
         | Raise e => done = log \/ exists b, log = done ++ [b]
         end.
Proof.
  induction rows as [|[row|] rows IH]; intros batch inserted w r w' Hrun;
    cbn [ingest_rows] in Hrun.
  - injection Hrun as <- <-. exists [], []. cbn. by rewrite !app_nil_r.
  - unfold bind at 1, lift at 1 in Hrun.
    destruct (_normalize_row row column_map) as [user|e].
    + destruct (is_blank user); [by eapply IH|].
      destruct (_ >=? _); [|by eapply IH].
      unfold bind in Hrun.
      destruct (bulk_insert_users (batch ++ [user]) w) as [[[]|e] w2] eqn:W;
        apply bulk_insert_users_spec in W as (Hlog & Hjobs & Hfiles & Husers).
      * apply IH in Hrun as (log & done & Hl & Hu & Hj & Hf & Hr).
        exists ((batch ++ [user]) :: log), ((batch ++ [user]) :: done).
        rewrite Hl, Hu, Hj, Hf, Hlog, Husers, Hjobs, Hfiles.
        cbn [concat]. rewrite <- !app_assoc. repeat split; try done.
        destruct r as [?|e]; [by subst|].
        destruct Hr as [->|[b ->]]; [by left|right; by exists b].
      * injection Hrun as <- <-. destruct Husers as [Husers _].
        exists [batch ++ [user]], [].
        rewrite Hlog, Husers, Hjobs, Hfiles. cbn. rewrite app_nil_r.
        repeat split; try done. right. by exists (batch ++ [user]).
    + injection Hrun as <- <-. exists [], []. cbn. rewrite !app_nil_r.
      repeat split; try done. by left.
  - by eapply IH.
Qed.

(** With a chunk size of at least one, every batch flushed inside the loop
    has exactly that size, and when the stream ends the flushed batches and
    the batch in hand are the valid rows. *)
Lemma ingest_rows_chunks settings column_map rows :
  1 <= EXCEL_CHUNK_SIZE settings ->
  forall batch inserted w r w',
    Z.of_nat (length batch) < EXCEL_CHUNK_SIZE settings ->
    ingest_rows settings column_map rows batch inserted w = (r, w') ->
    exists log,
      bulk_log w' = bulk_log w ++ log
      /\ Forall (fun b => Z.of_nat (length b) = EXCEL_CHUNK_SIZE settings) log
      /\ match r with
         | Ok (batch', inserted') =>
             concat log ++ batch' = batch ++ valid_rows column_map rows
             /\ inserted' = inserted
                            + EXCEL_CHUNK_SIZE settings * Z.of_nat (length log)
             /\ Z.of_nat (length batch') < EXCEL_CHUNK_SIZE settings
         | Raise _ => True
         end.
Proof.
  intros HC.
  induction rows as [|[row|] rows IH]; intros batch inserted w r w' Hlen Hrun;
    cbn [ingest_rows valid_rows] in *.
  - injection Hrun as <- <-. exists []. cbn. rewrite !app_nil_r.
    repeat split; try done. lia.
  - unfold bind at 1, lift at 1 in Hrun.
    destruct (_normalize_row row column_map) as [user|e].
    + destruct (is_blank user); [by eapply IH|].
      destruct (_ >=? _) eqn:G.
      * unfold bind in Hrun.
        rewrite Z.geb_leb in G. apply Z.leb_le in G.
        rewrite length_app in G, Hrun. cbn [length] in G, Hrun.
        assert (Z.of_nat (length batch + 1) = EXCEL_CHUNK_SIZE settings)
          as Hfull by lia.
        destruct (bulk_insert_users (batch ++ [user]) w) as [[[]|e] w2] eqn:W;
          apply bulk_insert_users_spec in W as (Hlog & _).
        -- apply IH in Hrun as (log & Hl & Hall & Hr); [|cbn; lia].
           exists ((batch ++ [user]) :: log).
           rewrite Hl, Hlog, <- app_assoc. split; [done|].
           split; [constructor; [by rewrite length_app|done]|].
           destruct r as [[batch' inserted']|e]; [|done].
           destruct Hr as (Hc & Hi & Hb). cbn [concat length].
           rewrite <- !app_assoc. split; [by rewrite Hc|]. split; [lia|done].
        -- injection Hrun as <- <-. exists [batch ++ [user]].
           rewrite Hlog. split; [done|]. split; [|done].
           constructor; [by rewrite length_app|done].
      * rewrite Z.geb_leb in G. apply Z.leb_gt in G.
        apply IH in Hrun as (log & Hl & Hall & Hr); [|done].
        exists log. split; [done|]. split; [done|].
        destruct r as [[batch' inserted']|e]; [|done].
        by rewrite <- app_assoc in Hr.
    + injection Hrun as <- <-. exists []. cbn. by rewrite !app_nil_r.
  - by eapply IH.
Qed.

End Engine.

Section Run.

Implicit Types (w : World) (batch : list User) (rows : list (option raw_row)).

(** The shape of a run that reaches [set_upload_job_completed]. *)
Lemma process_excel_try_completed settings id headers rows column_map
    started finished w w' :
  resolve_columns settings headers = Ok column_map ->
  process_excel_try settings id (Ok (Some headers :: rows)) started finished w
  = (Ok tt, w') ->
  exists batch inserted w1 w2,
    ingest_rows settings column_map rows [] 0
                (set_upload_job_running (SessionLocal w) id started)
    = (Ok (batch, inserted), w1)
    /\ bulk_log w2 = bulk_log w1 ++ tail_batch batch
    /\ users w2 = users w1 ++ batch
    /\ upload_jobs w2 = upload_jobs w1
    /\ files w2 = files w1
    /\ w' = set_upload_job_completed w2 id
              (inserted + Z.of_nat (length batch)) finished.
Proof.
  intros Hres Hrun.
  unfold process_excel_try, bind, lift, modify, on_session in Hrun.
  cbn [tl deactivated SessionLocal] in Hrun.
  rewrite Hres in Hrun.
  destruct (ingest_rows settings column_map rows [] 0
              (set_upload_job_running (SessionLocal w) id started))
    as [[[batch inserted]|e] w1] eqn:Hloop; [|done].
  pose proof (ingest_rows_session _ _ _ _ _ _ _ _ Hloop eq_refl) as Hs1.
  cbn [fst snd] in Hrun. exists batch, inserted, w1.
  destruct batch as [|u batch].
  - unfold ret in Hrun. rewrite Hs1 in Hrun. injection Hrun as <-. exists w1.
    cbn [tail_batch length]. rewrite !app_nil_r, Z.add_0_r. done.
  - destruct (bulk_insert_users (u :: batch) w1) as [[[]|e] w2] eqn:W; [|done].
    pose proof (bulk_insert_users_session _ _ _ _ W) as [_ Hs2].
    unfold ret in Hrun. rewrite Hs2 in Hrun. injection Hrun as <-. exists w2.
    apply bulk_insert_users_spec in W as (Hlog & Hjobs & Hfiles & Husers).
    done.
Qed.

(** A run whose body ends without an exception leaves the session in
    working order, so closing it changes nothing. *)
Lemma process_excel_try_session settings id loaded started finished w w' :
  process_excel_try settings id loaded started finished w = (Ok tt, w') ->
  deactivated w' = None /\ close_session w' = w'.
Proof.
  intros Hrun.
  assert (deactivated w' = None) as Hs.
  { unfold process_excel_try, bind, lift, modify, on_session in Hrun.
    cbn [tl deactivated SessionLocal] in Hrun.
    destruct loaded as [[|[headers|] rows]|e]; try done.
    cbn [tl] in Hrun.
    destruct (resolve_columns settings headers) as [column_map|e]; [|done].
    destruct (ingest_rows settings column_map rows [] 0
                (set_upload_job_running (SessionLocal w) id started))
      as [[[batch inserted]|e] w1] eqn:Hloop; [|done].
    pose proof (ingest_rows_session _ _ _ _ _ _ _ _ Hloop eq_refl) as Hs1.
    cbn [fst snd] in Hrun. destruct batch as [|u batch].
    - unfold ret in Hrun. rewrite Hs1 in Hrun. by injection Hrun as <-.
    - destruct (bulk_insert_users (u :: batch) w1) as [[[]|e] w2] eqn:W;
        [|done].
      pose proof (bulk_insert_users_session _ _ _ _ W) as [_ Hs2].
      unfold ret in Hrun. rewrite Hs2 in Hrun. by injection Hrun as <-. }
  split; [done|]. unfold close_session. rewrite <- Hs. by destruct w'.
Qed.

(** The run of a body that ends without an exception. *)
Lemma process_excel_job_completed settings id loaded started finished w w' :
  process_excel_try settings id loaded started finished w = (Ok tt, w') ->
  process_excel_job settings id loaded started finished w = w'.
Proof.
  intros Hrun. unfold process_excel_job. rewrite Hrun.
  by apply (process_excel_try_session _ _ _ _ _ _ _ Hrun).
Qed.

Lemma length_concat_full (C : Z) (log : list (list User)) :
  Forall (fun b => Z.of_nat (length b) = C) log ->
  Z.of_nat (length (concat log)) = C * Z.of_nat (length log).
Proof.
  induction 1 as [|b log Hb _ IH]; cbn [concat length]; [lia|].
  rewrite length_app. lia.
Qed.

(** A completed run, with a chunk size of at least one: the writes are full
    chunks followed by the remainder, they carry the valid rows in order, and
    the job is recorded as completed with their number. *)
Lemma completed_run_batches settings id headers rows column_map
    started finished w w' :
  1 <= EXCEL_CHUNK_SIZE settings ->
  resolve_columns settings headers = Ok column_map ->
  process_excel_try settings id (Ok (Some headers :: rows)) started finished w
  = (Ok tt, w') ->
  exists full rest,
    bulk_log w' = bulk_log w ++ full ++ tail_batch rest
    /\ Forall (fun b => Z.of_nat (length b) = EXCEL_CHUNK_SIZE settings) full
    /\ Z.of_nat (length rest) < EXCEL_CHUNK_SIZE settings
    /\ concat full ++ rest = valid_rows column_map rows
    /\ users w' = users w ++ valid_rows column_map rows
    /\ upload_jobs w'
       = completed_ledger id (Z.of_nat (length (valid_rows column_map rows)))
                          started finished (upload_jobs w)
    /\ files w' = files w.
Proof.
  intros HC Hres Hrun.
  destruct (process_excel_try_completed _ _ _ _ _ _ _ _ _ Hres Hrun)
    as (batch & inserted & w1 & w2 & Hloop & Hlog2 & Husers2 & Hjobs2 & Hfiles2
        & ->).
  pose proof (ingest_rows_effects _ _ _ _ _ _ _ _ Hloop)
    as (log & done & Hlog & Husers & Hjobs & Hfiles & ->).
  assert (Z.of_nat (length (@nil User)) < EXCEL_CHUNK_SIZE settings) as Hnil
    by (cbn; lia).
  destruct (ingest_rows_chunks _ _ rows HC _ _ _ _ _ Hnil Hloop)
    as (log' & Hlog' & Hfull & Hvalid & Hins & Hrest).
  rewrite Hlog in Hlog'. apply app_inv_head in Hlog' as <-.
  cbn [app] in Hvalid.
  exists log, batch.
  unfold set_upload_job_completed.
  rewrite update_job_log, update_job_users, update_job_files, update_job_rows.
  rewrite Hlog2, Husers2, Hjobs2, Hfiles2, Hlog, Husers, Hjobs, Hfiles.
  cbn [bulk_log users upload_jobs files set_upload_job_running update_job
       with_jobs].
  rewrite <- !app_assoc, Hvalid. repeat split; try done.
  unfold completed_ledger. rewrite map_map. apply map_ext. intros j.
  assert (inserted + Z.of_nat (length batch)
          = Z.of_nat (length (valid_rows column_map rows))) as ->.
  { rewrite <- Hvalid, length_app, Nat2Z.inj_add,
      (length_concat_full _ _ Hfull). lia. }
  destruct (String.eqb (job_id j) id) eqn:E; cbn [job_id running_fields];
    by rewrite E.
Qed.

End Run.

(** C5. A completed run over a file with [N] valid rows, with a chunk size
    [C] of at least one, hands the storage [ceil (N / C)] batches; every
    batch but the last has [C] records, the last has [N mod C] records, or
    [C] when [C] divides [N]; the batches carry the valid rows in order and
    these rows are what the users table gains; and the record of the job
    ends with [status = completed] and [inserted_rows = N]. *)
Theorem chunking_of_completed_run (settings : Settings) (id : string)
    (headers : raw_row) (rows : list (option raw_row))
    (column_map : gmap string nat) (started finished : Z) (w w' : World) :
  1 <= EXCEL_CHUNK_SIZE settings ->
  resolve_columns settings headers = Ok column_map ->
  process_excel_try settings id (Ok (Some headers :: rows)) started finished w
  = (Ok tt, w') ->
  let C := EXCEL_CHUNK_SIZE settings in
  let valid := valid_rows column_map rows in
  let N := Z.of_nat (length valid) in
  process_excel_job settings id (Ok (Some headers :: rows)) started finished w
  = w'
  /\ (exists log,
        bulk_log w' = bulk_log w ++ log
        /\ concat log = valid
        /\ Z.of_nat (length log) = (N + C - 1) / C
        /\ (forall i b, log !! i = Some b -> (S i < length log)%nat ->
              Z.of_nat (length b) = C)
        /\ (forall b, last log = Some b ->
              Z.of_nat (length b) = if N mod C =? 0 then C else N mod C))
  /\ users w' = users w ++ valid
  /\ forall job, get_upload_job w id = Some job ->
       exists job',
         get_upload_job w' id = Some job'
         /\ status job' = "completed"
         /\ inserted_rows job' = N
         /\ error job' = None
         /\ completed_at job' = Some finished.
Proof.
  intros HC Hres Hrun C valid N.
  split; [by apply process_excel_job_completed|].
  destruct (completed_run_batches _ _ _ _ _ _ _ _ _ HC Hres Hrun)
    as (full & rest & Hlog & Hfull & Hrest & Hvalid & Husers & Hjobs & _).
  fold C in Hfull, Hrest. fold valid in Hvalid, Husers. fold valid N in Hjobs.
  assert (N = C * Z.of_nat (length full) + Z.of_nat (length rest)) as HN.
  { unfold N. rewrite <- Hvalid, length_app, Nat2Z.inj_add.
    by rewrite (length_concat_full _ _ Hfull). }
  split; [|split; [done|]].
  2: { intros job Hjob. eexists. split.
       - apply (get_upload_job_changed
                  (fun x => completed_fields N finished
                              (running_fields started x)) w);
           [done|exact Hjobs|exact Hjob].
       - done. }
  exists (full ++ tail_batch rest). split; [done|].
  assert (forall i b, (full ++ tail_batch rest) !! i = Some b ->
            (S i < length (full ++ tail_batch rest))%nat ->
            Z.of_nat (length b) = C) as Hinner.
  { intros i b Hi Hlt. rewrite length_app in Hlt.
    assert (length (tail_batch rest) <= 1)%nat by (destruct rest; cbn; lia).
    rewrite lookup_app_l in Hi by lia.
    apply (Forall_lookup_1 _ _ _ _ Hfull Hi). }
  destruct rest as [|u rest]; cbn [tail_batch length] in *.
  - rewrite !app_nil_r in *. rewrite Z.add_0_r in HN.
    assert (N mod C = 0) as Hmod.
    { symmetry. apply (Z.mod_unique N C (Z.of_nat (length full))); lia. }
    repeat split; try done.
    + apply (Z.div_unique _ _ _ (C - 1)); lia.
    + intros b Hb. rewrite Hmod. cbn [Z.eqb].
      apply last_Some_elem_of in Hb.
      by apply (proj1 (Forall_forall _ _) Hfull).
  - assert (N mod C = Z.of_nat (S (length rest))) as Hmod.
    { symmetry. apply (Z.mod_unique N C (Z.of_nat (length full))); lia. }
    repeat split; try done.
    + cbn [concat]. by rewrite concat_app, <- Hvalid; cbn; rewrite app_nil_r.
    + rewrite length_app. cbn [length].
      apply (Z.div_unique _ _ _ (Z.of_nat (length rest))); lia.
    + intros b Hb. rewrite last_snoc in Hb. injection Hb as <-.
      rewrite Hmod. destruct (_ =? 0) eqn:E; [|done].
      apply Z.eqb_eq in E. cbn [length] in *. lia.
Qed.

Lemma chunking_of_completed_run_witness :
  (1 <= EXCEL_CHUNK_SIZE two_per_chunk
   /\ resolve_columns two_per_chunk sample_headers = Ok sample_column_map
   /\ process_excel_try two_per_chunk "j1"
        (Ok (Some sample_headers :: sample_rows)) 200 300 sample_upload
      = (Ok tt, sample_completed)
   /\ get_upload_job sample_upload "j1"
      = Some (sample_job "j1" "up/people.xlsx" "queued" None))
  /\ (exists log,
        bulk_log sample_completed = bulk_log sample_upload ++ log
        /\ Z.of_nat (length log) = 3)
  /\ exists job',
       get_upload_job sample_completed "j1" = Some job'
       /\ status job' = "completed"
       /\ inserted_rows job' = 5.
Proof.
  assert (1 <= EXCEL_CHUNK_SIZE two_per_chunk) as H1 by (cbn; lia).
  assert (resolve_columns two_per_chunk sample_headers = Ok sample_column_map)
    as H2 by (vm_compute; reflexivity).
  assert (process_excel_try two_per_chunk "j1"
            (Ok (Some sample_headers :: sample_rows)) 200 300 sample_upload
          = (Ok tt, sample_completed)) as H3 by (vm_compute; reflexivity).
  assert (get_upload_job sample_upload "j1"
          = Some (sample_job "j1" "up/people.xlsx" "queued" None)) as H4
    by (vm_compute; reflexivity).
  split; [by repeat split|].
  destruct (chunking_of_completed_run _ _ _ _ _ _ _ _ _ H1 H2 H3)
    as (_ & (log & Hlog & _ & Hlen & _) & _ & Hjob).
  split; [exists log; split; [exact Hlog|exact Hlen]|].
  destruct (Hjob _ H4) as (job' & Hget & Hstatus & Hrows & _).
  exists job'. split; [exact Hget|]. split; [exact Hstatus|exact Hrows].
Defined.

(** The scenario of the specification: 1205 valid rows under the default
    chunk size of 500 are written as batches of 500, 500 and 205 rows, and
    the job completes with [inserted_rows = 1205]. *)
Example end_to_end_1205_rows :
  let after :=
    process_excel_job default_settings "j1"
      (Ok (Some sample_headers
           :: repeat (sample_row "Ann" "ann@example.org" (CInt 31)) 1205))
      200 300 sample_upload in
  map length (bulk_log after) = [500; 500; 205]%nat
  /\ map (fun j => (status j, inserted_rows j)) (upload_jobs after)
     = [("completed", 1205)].
Proof. vm_compute. split; reflexivity. Qed.

(** ** Blank rows *)

Section Blank.

Implicit Types (w : World) (batch : list User) (rows : list (option raw_row)).

(** A blank row leaves no trace in the loop. *)
Lemma ingest_rows_skip_blank settings column_map row user before after :
  _normalize_row row column_map = Ok user ->
  is_blank user = true ->
  forall batch inserted w,
    ingest_rows settings column_map (before ++ Some row :: after)
                batch inserted w
    = ingest_rows settings column_map (before ++ after) batch inserted w.
Proof.
  intros Hnorm Hblank.
  induction before as [|[r|] before IH]; intros batch inserted w;
    cbn [app ingest_rows].
  - unfold bind, lift. by rewrite Hnorm, Hblank.
  - unfold bind at 1 3, lift at 1 2.
    destruct (_normalize_row r column_map) as [u|e]; [|done].
    destruct (is_blank u); [apply IH|].
    destruct (_ >=? _); [|apply IH].
    unfold bind.
    destruct (bulk_insert_users (batch ++ [u]) w) as [[[]|e] w2]; [|done].
    apply IH.
  - apply IH.
Qed.

(** No blank record reaches a batch. *)
Lemma ingest_rows_nonblank settings column_map rows :
  forall batch inserted w r w',
    Forall (fun u => is_blank u = false) batch ->
    ingest_rows settings column_map rows batch inserted w = (r, w') ->
    exists log,
      bulk_log w' = bulk_log w ++ log
      /\ Forall (Forall (fun u => is_blank u = false)) log
      /\ match r with
         | Ok (batch', _) => Forall (fun u => is_blank u = false) batch'
         | Raise _ => True
         end.
Proof.
  induction rows as [|[row|] rows IH]; intros batch inserted w r w' Hb Hrun;
    cbn [ingest_rows] in Hrun.
  - injection Hrun as <- <-. exists []. by rewrite app_nil_r.
  - unfold bind at 1, lift at 1 in Hrun.
    destruct (_normalize_row row column_map) as [user|e].
    + destruct (is_blank user) eqn:B; [by eapply IH|].
      assert (Forall (fun u => is_blank u = false) (batch ++ [user])) as Hb'
        by (apply Forall_app; split; [done|by constructor]).
      destruct (_ >=? _); [|by eapply IH].
      unfold bind in Hrun.
      destruct (bulk_insert_users (batch ++ [user]) w) as [[[]|e] w2] eqn:W;
        apply bulk_insert_users_spec in W as (Hlog & _).
      * apply IH in Hrun as (log & Hl & Hall & Hr); [|constructor].
        exists ((batch ++ [user]) :: log).
        rewrite Hl, Hlog, <- app_assoc. split; [done|].
        split; [by constructor|done].
      * injection Hrun as <- <-. exists [batch ++ [user]].
        split; [done|]. split; [by constructor|done].
    + injection Hrun as <- <-. exists []. by rewrite app_nil_r.
  - by eapply IH.
Qed.

(** The same for the body of a run, however it ends. *)
Lemma process_excel_try_nonblank settings id loaded started finished w r w' :
  process_excel_try settings id loaded started finished w = (r, w') ->
  exists log,
    bulk_log w' = bulk_log w ++ log
    /\ Forall (Forall (fun u => is_blank u = false)) log.
Proof.
  unfold process_excel_try, bind, lift, modify, ret, on_session.
  cbn [tl deactivated SessionLocal].
  destruct loaded as [sheet|e];
    [|intros [= <- <-]; exists []; by rewrite app_nil_r].
  destruct sheet as [|[headers|] rows]; cbn [tl];
    try (intros [= <- <-]; exists []; by rewrite app_nil_r).
  destruct (resolve_columns settings headers) as [column_map|e];
    [|intros [= <- <-]; exists []; by rewrite app_nil_r].
  destruct (ingest_rows settings column_map rows [] 0
              (set_upload_job_running (SessionLocal w) id started))
    as [[[batch inserted]|e] w1] eqn:Hloop.
  - pose proof (ingest_rows_session _ _ _ _ _ _ _ _ Hloop eq_refl) as Hs1.
    apply ingest_rows_nonblank in Hloop as (log & Hlog & Hall & Hb);
      [|constructor].
    cbn [fst snd]. destruct batch as [|u batch].
    + rewrite Hs1. intros [= <- <-]. exists log.
      unfold set_upload_job_completed. by rewrite update_job_log, Hlog.
    + destruct (bulk_insert_users (u :: batch) w1) as [[[]|e] w2] eqn:W.
      * pose proof (bulk_insert_users_session _ _ _ _ W) as [_ Hs2].
        apply bulk_insert_users_spec in W as (Hlog2 & _).
        rewrite Hs2. intros [= <- <-]. exists (log ++ [u :: batch]).
        unfold set_upload_job_completed.
        rewrite update_job_log, Hlog2, Hlog, <- app_assoc.
        split; [done|]. apply Forall_app. split; [done|by constructor].
      * apply bulk_insert_users_spec in W as (Hlog2 & _).
        intros [= <- <-]. exists (log ++ [u :: batch]).
        rewrite Hlog2, Hlog, <- app_assoc.
        split; [done|]. apply Forall_app. split; [done|by constructor].
  - apply ingest_rows_nonblank in Hloop as (log & Hlog & Hall & _);
      [|constructor].
    intros [= <- <-]. by exists log.
Qed.

(** The handler and the [finally] hand nothing to the storage. *)
Lemma process_excel_job_log settings id loaded started finished w :
  bulk_log (process_excel_job settings id loaded started finished w)
  = bulk_log (snd (process_excel_try settings id loaded started finished w)).
Proof.
  unfold process_excel_job, process_excel_except, on_session.
  destruct (process_excel_try settings id loaded started finished w)
    as [[[]|e] w1]; [done|].
  by destruct (deactivated w1).
Qed.

(** The same for a whole run, however it ends. *)
Lemma process_excel_job_nonblank settings id loaded started finished w :
  exists log,
    bulk_log (process_excel_job settings id loaded started finished w)
    = bulk_log w ++ log
    /\ Forall (Forall (fun u => is_blank u = false)) log.
Proof.
  rewrite process_excel_job_log.
  destruct (process_excel_try settings id loaded started finished w)
    as [r w1] eqn:Hrun.
  by apply process_excel_try_nonblank in Hrun.
Qed.

End Blank.

(** C7. A row that normalizes to an empty name, an empty email and age 0
    is skipped: the run over the file with the row is the run over the file
    without it (the same batches handed to the storage, the same table, the
    same ledger and count), and no batch a run hands to the storage holds a
    blank record. *)
Theorem blank_rows_are_skipped (settings : Settings) (id : string)
    (headers : raw_row) (column_map : gmap string nat)
    (row : raw_row) (user : User) (before after : list (option raw_row))
    (started finished : Z) (w : World) :
  resolve_columns settings headers = Ok column_map ->
  _normalize_row row column_map = Ok user ->
  is_blank user = true ->
  process_excel_job settings id
    (Ok (Some headers :: before ++ Some row :: after)) started finished w
  = process_excel_job settings id
      (Ok (Some headers :: before ++ after)) started finished w
  /\ exists log,
       bulk_log (process_excel_job settings id
                   (Ok (Some headers :: before ++ Some row :: after))
                   started finished w)
       = bulk_log w ++ log
       /\ Forall (Forall (fun u => is_blank u = false)) log.
Proof.
  intros Hres Hnorm Hblank. split; [|apply process_excel_job_nonblank].
  unfold process_excel_job, process_excel_try, bind, lift, modify, on_session.
  cbn [tl deactivated SessionLocal]. rewrite Hres.
  by rewrite (ingest_rows_skip_blank _ _ _ _ _ _ Hnorm Hblank).
Qed.

Lemma blank_rows_are_skipped_witness :
  (resolve_columns two_per_chunk sample_headers = Ok sample_column_map
   /\ _normalize_row blank_row sample_column_map
      = Ok {| name := ""; email := ""; age := 0 |}
   /\ is_blank {| name := ""; email := ""; age := 0 |} = true)
  /\ process_excel_job two_per_chunk "j1"
       (Ok (Some sample_headers :: firstn 1 sample_rows ++ Some blank_row
                                   :: skipn 2 sample_rows))
       200 300 sample_upload
     = process_excel_job two_per_chunk "j1"
         (Ok (Some sample_headers :: firstn 1 sample_rows ++ skipn 2 sample_rows))
         200 300 sample_upload.
Proof.
  assert (resolve_columns two_per_chunk sample_headers = Ok sample_column_map)
    as H1 by (vm_compute; reflexivity).
  assert (_normalize_row blank_row sample_column_map
          = Ok {| name := ""; email := ""; age := 0 |})
    as H2 by (vm_compute; reflexivity).
  assert (is_blank {| name := ""; email := ""; age := 0 |} = true)
    as H3 by reflexivity.
  split; [by repeat split|].
  exact (proj1 (blank_rows_are_skipped two_per_chunk "j1" sample_headers
                  sample_column_map blank_row _ (firstn 1 sample_rows)
                  (skipn 2 sample_rows) 200 300 sample_upload H1 H2 H3)).
Defined.

(** ** Runs that fail *)

Section FailedRun.

Implicit Types (w : World) (batch : list User) (rows : list (option raw_row)).

(** What the body of the [try] has done when it raises. *)
Lemma process_excel_try_raises settings id loaded started finished w e w1 :
  process_excel_try settings id loaded started finished w = (Raise e, w1) ->
  exists log done,
    bulk_log w1 = bulk_log w ++ log
    /\ users w1 = users w ++ concat done
    /\ (done = log \/ exists b, log = done ++ [b])
    /\ files w1 = files w
    /\ upload_jobs w1
       = map (fun j => if String.eqb (job_id j) id
                       then running_fields started j else j) (upload_jobs w).
Proof.
  unfold process_excel_try, bind, lift, modify, ret, on_session.
  cbn [tl deactivated SessionLocal]. intros Hrun.
  set (w0 := set_upload_job_running (SessionLocal w) id started) in *.
  assert (exists log done : list (list User),
            bulk_log w0 = bulk_log w ++ log
            /\ users w0 = users w ++ concat done
            /\ (done = log \/ exists b, log = done ++ [b])
            /\ files w0 = files w
            /\ upload_jobs w0
               = map (fun j => if String.eqb (job_id j) id
                               then running_fields started j else j)
                     (upload_jobs w)) as Hstart.
  { exists [], []. cbn. rewrite !app_nil_r. repeat split; try done. by left. }
  destruct loaded as [sheet|e0]; [|by injection Hrun as <- <-].
  destruct sheet as [|[headers|] rows]; cbn [tl] in Hrun;
    try (by injection Hrun as <- <-).
  destruct (resolve_columns settings headers) as [column_map|e0];
    [|by injection Hrun as <- <-].
  destruct (ingest_rows settings column_map rows [] 0 w0)
    as [[[batch inserted]|e0] w2] eqn:Hloop.
  - pose proof (ingest_rows_session _ _ _ _ _ _ _ _ Hloop eq_refl) as Hs2.
    apply ingest_rows_effects in Hloop
      as (log & done & Hlog & Husers & Hjobs & Hfiles & Hdone).
    cbn [fst snd] in Hrun.
    subst done. destruct batch as [|u batch]; [by rewrite Hs2 in Hrun|].
    destruct (bulk_insert_users (u :: batch) w2) as [[[]|e0] w3] eqn:W.
    { pose proof (bulk_insert_users_session _ _ _ _ W) as [_ Hs3].
      by rewrite Hs3 in Hrun. }
    injection Hrun as <- <-.
    apply bulk_insert_users_spec in W as (Hlog3 & Hjobs3 & Hfiles3 & Husers3 & _).
    exists (log ++ [u :: batch]), log.
    rewrite Hlog3, Husers3, Hjobs3, Hfiles3, Hlog, Husers, Hjobs, Hfiles.
    rewrite <- app_assoc. repeat split; try done.
    right. by exists (u :: batch).
  - apply ingest_rows_effects in Hloop
      as (log & done & Hlog & Husers & Hjobs & Hfiles & Hdone).
    injection Hrun as <- <-. exists log, done.
    by rewrite Hlog, Husers, Hjobs, Hfiles.
Qed.

(** What the handler and the [finally] do to the world the body left: on a
    session in working order the record of the job is marked failed; on a
    deactivated session nothing is written. *)
Lemma process_excel_job_raised settings id loaded started finished w e w1 :
  process_excel_try settings id loaded started finished w = (Raise e, w1) ->
  let after := process_excel_job settings id loaded started finished w in
  bulk_log after = bulk_log w1 /\ users after = users w1
  /\ files after = files w1
  /\ upload_jobs after
     = match deactivated w1 with
       | Some _ => upload_jobs w1
       | None => map (fun j => if String.eqb (job_id j) id
                               then failed_fields (exn_text e) finished j
                               else j) (upload_jobs w1)
       end.
Proof.
  intros Hrun. cbv zeta.
  unfold process_excel_job, process_excel_except, on_session. rewrite Hrun.
  by destruct (deactivated w1).
Qed.

End FailedRun.

(** C1, as stated, fails: the first chunk of two rows is written, the
    second write raises, and the record of the job ends with
    [inserted_rows = 0], not 2. *)
Lemma failed_run_counts_committed_rows_fails :
  ~ failed_run_counts_committed_rows two_per_chunk "j1"
      (Ok (Some sample_headers :: sample_rows)) 200 300 sample_faulty.
Proof.
  intros H.
  destruct (H (Exn LibraryError "server has gone away")
              (snd (process_excel_try two_per_chunk "j1"
                      (Ok (Some sample_headers :: sample_rows)) 200 300
                      sample_faulty)))
    as (j & Hget & _ & _ & Hcount).
  - vm_compute. reflexivity.
  - reflexivity.
  - vm_compute. discriminate.
  - vm_compute in Hget. injection Hget as <-.
    vm_compute in Hcount. discriminate Hcount.
Qed.

(** C1, amended. When the body of the run raises (a bulk write that fails
    on a later chunk included), the rows of the batches written before the
    failure stay in the users table, and [inserted_rows] is not touched: the
    record of the job keeps the value it had before the run (0 for a new
    job), however many rows were written. *)
Theorem failed_run_keeps_ledger_count (settings : Settings) (id : string)
    (loaded : result (list (option raw_row))) (started finished : Z)
    (w : World) (e : exn) (w1 : World) :
  process_excel_try settings id loaded started finished w = (Raise e, w1) ->
  let after := process_excel_job settings id loaded started finished w in
  (forall j, get_upload_job w id = Some j ->
     exists j', get_upload_job after id = Some j'
                /\ inserted_rows j' = inserted_rows j)
  /\ exists log done,
       bulk_log after = bulk_log w ++ log
       /\ (done = log \/ exists b, log = done ++ [b])
       /\ users after = users w ++ concat done.
Proof.
  intros Hrun after.
  pose proof (process_excel_try_raises _ _ _ _ _ _ _ _ Hrun)
    as (log & done & Hlog & Husers & Hdone & _ & Hjobs).
  pose proof (process_excel_job_raised _ _ _ _ _ _ _ _ Hrun)
    as (Hlog' & Husers' & _ & Hjobs'). fold after in Hlog', Husers', Hjobs'.
  split.
  - intros j Hj. destruct (deactivated w1) as [original|].
    + exists (running_fields started j). split; [|done].
      apply (get_upload_job_changed (running_fields started) w);
        [done|by rewrite Hjobs', Hjobs|exact Hj].
    + exists (failed_fields (exn_text e) finished (running_fields started j)).
      split; [|done].
      apply (get_upload_job_changed
               (fun x => failed_fields (exn_text e) finished
                           (running_fields started x)) w);
        [done| |exact Hj].
      rewrite Hjobs', Hjobs, map_map. apply map_ext. intros x.
      destruct (String.eqb (job_id x) id) eqn:E; cbn [job_id running_fields];
        by rewrite E.
  - exists log, done. by rewrite Hlog', Husers'.
Qed.

Lemma failed_run_keeps_ledger_count_witness :
  (process_excel_try two_per_chunk "j1"
     (Ok (Some sample_headers :: sample_rows)) 200 300 sample_faulty
   = (Raise (Exn LibraryError "server has gone away"),
      snd (process_excel_try two_per_chunk "j1"
             (Ok (Some sample_headers :: sample_rows)) 200 300 sample_faulty))
   /\ get_upload_job sample_faulty "j1"
      = Some (sample_job "j1" "up/people.xlsx" "queued" None))
  /\ exists j',
       get_upload_job
         (process_excel_job two_per_chunk "j1"
            (Ok (Some sample_headers :: sample_rows)) 200 300 sample_faulty)
         "j1" = Some j'
       /\ inserted_rows j' = 0.
Proof.
  assert (process_excel_try two_per_chunk "j1"
            (Ok (Some sample_headers :: sample_rows)) 200 300 sample_faulty
          = (Raise (Exn LibraryError "server has gone away"),
             snd (process_excel_try two_per_chunk "j1"
                    (Ok (Some sample_headers :: sample_rows)) 200 300
                    sample_faulty))) as H by (vm_compute; reflexivity).
  assert (get_upload_job sample_faulty "j1"
          = Some (sample_job "j1" "up/people.xlsx" "queued" None)) as Hj
    by (vm_compute; reflexivity).
  split; [by split|].
  exact (proj1 (failed_run_keeps_ledger_count _ _ _ _ _ _ _ _ H) _ Hj).
Defined.

(** ** The chunk size of a run *)

Section ChunkSize.

Implicit Types (w db : World) (job j : UploadJob).

Lemma get_upload_job_appended db id job :
  has_job db id = false -> job_id job = id ->
  get_upload_job (with_jobs db (upload_jobs db ++ [job])) id = Some job.
Proof.
  intros Hnew Hid. unfold get_upload_job. cbn [upload_jobs with_jobs].
  apply has_job_false_rows in Hnew.
  induction Hnew as [|r rows Hr _ IH]; cbn [app List.filter].
  - by rewrite Hid, String.eqb_refl.
  - by rewrite Hr.
Qed.

(** The record [upload_excel] creates holds the chunk size of the settings
    in force at that moment. *)
Lemma upload_excel_records_chunk_size settings fname id path now w0 job w :
  upload_excel settings fname id path now w0 = (Ok job, w) ->
  chunk_size job = EXCEL_CHUNK_SIZE settings
  /\ get_upload_job w id = Some job.
Proof.
  unfold upload_excel.
  destruct (String.eqb fname ""); [done|].
  destruct (negb _); [done|].
  unfold bind, modify.
  destruct (cleanup_expired_uploads settings now w0) as [[n|e] w1]; [|done].
  unfold create_upload_job.
  destruct (has_job _ id) eqn:Hnew; [done|].
  intros [= <- <-]. split; [done|].
  by apply (get_upload_job_appended
              (with_files w1 (<[path := RegularFile true]> (files w1)))).
Qed.

End ChunkSize.

(** C2, as stated, fails: the job was created with chunk size 2, the run
    happens under a chunk size of 3, and the first batch has three
    records. *)
Lemma batches_follow_recorded_chunk_size_fails :
  ~ batches_follow_recorded_chunk_size three_per_chunk "j1" sample_headers
      sample_rows 200 300 sample_upload.
Proof.
  intros H.
  pose (w' := snd (process_excel_try three_per_chunk "j1"
                     (Ok (Some sample_headers :: sample_rows)) 200 300
                     sample_upload)).
  assert (get_upload_job sample_upload "j1"
          = Some (sample_job "j1" "up/people.xlsx" "queued" None)) as Hget
    by (vm_compute; reflexivity).
  assert (process_excel_try three_per_chunk "j1"
            (Ok (Some sample_headers :: sample_rows)) 200 300 sample_upload
          = (Ok tt, w')) as Hrun by (vm_compute; reflexivity).
  assert (bulk_log w' = bulk_log sample_upload ++ bulk_log w') as Hlog
    by (vm_compute; reflexivity).
  assert (bulk_log w' !! 0%nat = Some (hd [] (bulk_log w'))) as Hfirst
    by (vm_compute; reflexivity).
  assert (1 < length (bulk_log w'))%nat as Hlen by (vm_compute; lia).
  pose proof (H _ _ _ Hget Hrun Hlog _ _ Hfirst Hlen) as Habs.
  vm_compute in Habs. discriminate Habs.
Qed.

(** C2, amended. The batch size of a run is the [EXCEL_CHUNK_SIZE] of the
    settings in force when the run executes: every batch but the last has
    that many records and no batch has more.  The [chunk_size] in the job's
    record is the [EXCEL_CHUNK_SIZE] in force when [upload_excel] created the
    job; the run neither reads it nor changes it, so the two agree only when
    the setting is the same at both moments. *)
Theorem batch_size_follows_run_settings (settings : Settings) (id : string)
    (job : UploadJob) (headers : raw_row) (rows : list (option raw_row))
    (column_map : gmap string nat) (started finished : Z) (w w' : World) :
  1 <= EXCEL_CHUNK_SIZE settings ->
  get_upload_job w id = Some job ->
  resolve_columns settings headers = Ok column_map ->
  process_excel_try settings id (Ok (Some headers :: rows)) started finished w
  = (Ok tt, w') ->
  (exists log,
     bulk_log w' = bulk_log w ++ log
     /\ (forall i b, log !! i = Some b -> (S i < length log)%nat ->
           Z.of_nat (length b) = EXCEL_CHUNK_SIZE settings)
     /\ (forall b, In b log ->
           0 < Z.of_nat (length b) <= EXCEL_CHUNK_SIZE settings))
  /\ (exists j', get_upload_job w' id = Some j'
                 /\ chunk_size j' = chunk_size job)
  /\ (forall at_creation fname path now w0 created db,
        upload_excel at_creation fname id path now w0 = (Ok created, db) ->
        chunk_size created = EXCEL_CHUNK_SIZE at_creation
        /\ get_upload_job db id = Some created).
Proof.
  intros HC Hjob Hres Hrun.
  destruct (completed_run_batches _ _ _ _ _ _ _ _ _ HC Hres Hrun)
    as (full & rest & Hlog & Hfull & Hrest & _ & _ & Hjobs & _).
  split; [|split].
  - exists (full ++ tail_batch rest). split; [done|]. split.
    + intros i b Hi Hlt. rewrite length_app in Hlt.
      assert (length (tail_batch rest) <= 1)%nat by (destruct rest; cbn; lia).
      rewrite lookup_app_l in Hi by lia.
      apply (Forall_lookup_1 _ _ _ _ Hfull Hi).
    + intros b Hb. apply in_app_or in Hb as [Hb|Hb].
      * rewrite (proj1 (Forall_forall _ _) Hfull b); [lia|].
        by apply list_elem_of_In.
      * destruct rest as [|u rest]; [done|].
        destruct Hb as [<-|[]]. cbn [length] in *. lia.
  - eexists. split.
    + apply (get_upload_job_changed
               (fun x => completed_fields
                           (Z.of_nat (length (valid_rows column_map rows)))
                           finished (running_fields started x)) w);
        [done|exact Hjobs|exact Hjob].
    + reflexivity.
  - intros at_creation fname path now w0 created db Hup.
    by apply (upload_excel_records_chunk_size _ _ _ _ _ _ _ _ Hup).
Qed.

Lemma batch_size_follows_run_settings_witness :
  (1 <= EXCEL_CHUNK_SIZE three_per_chunk
   /\ get_upload_job sample_upload "j1"
      = Some (sample_job "j1" "up/people.xlsx" "queued" None)
   /\ chunk_size (sample_job "j1" "up/people.xlsx" "queued" None) = 2)
  /\ exists log,
       bulk_log (process_excel_job three_per_chunk "j1"
                   (Ok (Some sample_headers :: sample_rows)) 200 300
                   sample_upload)
       = bulk_log sample_upload ++ log
       /\ forall i b, log !! i = Some b -> (S i < length log)%nat ->
            Z.of_nat (length b) = 3.
Proof.
  assert (1 <= EXCEL_CHUNK_SIZE three_per_chunk) as H1 by (cbn; lia).
  assert (get_upload_job sample_upload "j1"
          = Some (sample_job "j1" "up/people.xlsx" "queued" None)) as H2
    by (vm_compute; reflexivity).
  assert (resolve_columns three_per_chunk sample_headers = Ok sample_column_map)
    as H3 by (vm_compute; reflexivity).
  assert (process_excel_try three_per_chunk "j1"
            (Ok (Some sample_headers :: sample_rows)) 200 300 sample_upload
          = (Ok tt,
             process_excel_job three_per_chunk "j1"
               (Ok (Some sample_headers :: sample_rows)) 200 300 sample_upload))
    as H4 by (vm_compute; reflexivity).
  split; [by repeat split|].
  destruct (proj1 (batch_size_follows_run_settings _ _ _ _ _ _ _ _ _ _
                     H1 H2 H3 H4)) as (log & Hlog & Hsize & _).
  exists log. split; [exact Hlog|exact Hsize].
Defined.

(** ** Rows the normalizer cannot handle *)

Section Normalizer.

Lemma float_of_string_raises s e :
  Py.float_of_string s = Raise e -> exn_class e = ValueError.
Proof.
  unfold Py.float_of_string.
  destruct (if existsb _ _ then _ else _); [done|]. by intros [= <-].
Qed.

Lemma float_of_int_raises z e :
  Py.float_of_int z = Raise e -> exn_class e = OverflowError.
Proof.
  unfold Py.float_of_int. destruct (z =? 0); [done|].
  destruct (Py.binary64_of_ratio _ _) as [[m x]|]; [done|]. by intros [= <-].
Qed.

Lemma int_of_float_raises f e :
  Py.int_of_float f = Raise e ->
  exn_class e = ValueError \/ exn_class e = OverflowError.
Proof. destruct f; [| |done]; intros [= <-]; auto. Qed.

Lemma conversion_raises v e :
  bind_result (py_float v) Py.int_of_float = Raise e ->
  exn_class e = ValueError \/ exn_class e = TypeError
  \/ exn_class e = OverflowError.
Proof.
  destruct (py_float v) as [f|x] eqn:F; cbn [bind_result].
  - intros H. destruct (int_of_float_raises _ _ H); auto.
  - intros [= <-].
    destruct v as [|s|z|b|f t|t txt]; cbn [py_float] in F; try done.
    + injection F as <-. auto.
    + left. by apply (float_of_string_raises s).
    + right. right. by apply (float_of_int_raises z).
    + injection F as <-. auto.
Qed.

(** The conversion of the age lets nothing but [OverflowError] through. *)
Lemma age_of_raises v e : age_of v = Raise e -> exn_class e = OverflowError.
Proof.
  unfold age_of. destruct (is_none_or_empty v); [done|].
  destruct (bind_result (py_float v) Py.int_of_float) as [n|e'] eqn:E; [done|].
  destruct (conversion_raises _ _ E) as [K|[K|K]]; rewrite K; try done.
  by intros [= <-].
Qed.

(** What [_normalize_row] can raise: [KeyError] when the mapping lacks a
    column, [IndexError] when the row is shorter than a mapped position,
    [OverflowError] from the age. *)
Lemma normalize_row_raises_only raw column_map e :
  _normalize_row raw column_map = Raise e ->
  exn_class e = KeyError \/ exn_class e = IndexError
  \/ exn_class e = OverflowError.
Proof.
  assert (forall c x, get_value raw column_map c = Raise x ->
            exn_class x = KeyError \/ exn_class x = IndexError) as Hget.
  { intros c x. unfold get_value.
    destruct (column_map !! c) as [i|]; [|intros [= <-]; by left].
    destruct (raw !! i); [done|]. intros [= <-]. by right. }
  unfold _normalize_row.
  destruct (get_value raw column_map "name") as [vn|x] eqn:Hn; cbn [bind_result];
    [|intros [= <-]; destruct (Hget _ _ Hn); auto].
  destruct (get_value raw column_map "email") as [ve|x] eqn:He; cbn [bind_result];
    [|intros [= <-]; destruct (Hget _ _ He); auto].
  destruct (get_value raw column_map "age") as [va|x] eqn:Ha; cbn [bind_result];
    [|intros [= <-]; destruct (Hget _ _ Ha); auto].
  destruct (age_of va) as [n|x] eqn:Hage; cbn [bind_result]; [done|].
  intros [= <-]. right. right. by apply (age_of_raises va).
Qed.

(** On a row that has the three cells, with an age that is null, empty or
    does not convert, the record holds the trimmed texts and age 0. *)
Lemma normalize_row_defaults raw column_map i_name i_email i_age
    v_name v_email v_age :
  column_map !! "name" = Some i_name -> raw !! i_name = Some v_name ->
  column_map !! "email" = Some i_email -> raw !! i_email = Some v_email ->
  column_map !! "age" = Some i_age -> raw !! i_age = Some v_age ->
  (is_none_or_empty v_age = true
   \/ exists x, py_float v_age = Raise x /\ exn_class x <> OverflowError) ->
  _normalize_row raw column_map
  = Ok {| name := text_of v_name; email := text_of v_email; age := 0 |}.
Proof.
  intros Hn Hvn He Hve Ha Hva Hage.
  unfold _normalize_row, get_value.
  rewrite Hn, Hvn, He, Hve, Ha, Hva. cbn [bind_result].
  assert (age_of v_age = Ok 0) as ->; [|done].
  unfold age_of. destruct Hage as [->|(x & Hx & Hclass)]; [done|].
  destruct (is_none_or_empty v_age); [done|].
  assert (bind_result (py_float v_age) Py.int_of_float = Raise x) as Hconv
    by (by rewrite Hx).
  rewrite Hconv.
  destruct (conversion_raises _ _ Hconv) as [K|[K|K]]; by rewrite K.
Qed.

End Normalizer.

(** C3 fails on these rows. An age cell holding the text [inf] converts to
    an infinite float; [int] then raises [OverflowError], which the handler
    for [TypeError] and [ValueError] lets through.  A row that is shorter
    than a mapped position raises [IndexError].  Either way the run of the
    whole job ends as failed on that row. *)
Theorem normalize_row_raises :
  _normalize_row [CStr "Ann"; CStr "ann@example.org"; CStr "inf"] three_columns
  = Raise (Exn OverflowError "cannot convert float infinity to integer")
  /\ _normalize_row [CStr "Ann"] three_columns
     = Raise (Exn IndexError "tuple index out of range")
  /\ map (fun j => (status j, error j))
         (upload_jobs
            (process_excel_job default_settings "j1"
               (Ok [Some [CStr "name"; CStr "email"; CStr "age"];
                    Some [CStr "Ann"; CStr "ann@example.org"; CStr "inf"]])
               200 300 sample_upload))
     = [("failed", Some "cannot convert float infinity to integer")].
Proof. repeat split; vm_compute; reflexivity. Qed.

(* ===================================================================== *)
(** * Part 3: further properties of the code                              *)
(* ===================================================================== *)

(** ** The ledger as a keyed table *)

Section LedgerTable.

Implicit Types (db w : World) (id : string) (j : UploadJob).

Lemma update_job_ids id change db :
  (forall j, job_id (change j) = job_id j) ->
  map job_id (upload_jobs (update_job id change db))
  = map job_id (upload_jobs db).
Proof.
  intros Hid. rewrite update_job_rows, map_map. apply map_ext. intros j.
  destruct (String.eqb (job_id j) id); [apply Hid|done].
Qed.

Lemma get_upload_job_update id id' change db :
  (forall j, job_id (change j) = job_id j) ->
  get_upload_job (update_job id change db) id'
  = if String.eqb id id' then change <$> get_upload_job db id'
    else get_upload_job db id'.
Proof.
  intros Hid. unfold get_upload_job. rewrite update_job_rows.
  induction (upload_jobs db) as [|r rows IH]; cbn [map List.filter].
  - by destruct (String.eqb id id').
  - destruct (String.eqb (job_id r) id) eqn:E.
    + rewrite Hid. apply String.eqb_eq in E. subst id.
      destruct (String.eqb (job_id r) id') eqn:E'; [|done].
      by cbn.
    + destruct (String.eqb (job_id r) id') eqn:E'; [|done].
      apply String.eqb_eq in E'. subst id'.
      rewrite String.eqb_sym, E. by cbn.
Qed.

End LedgerTable.

(** X1. Each of the four ledger updates acts on the record of its job id
    alone: a lookup of that id afterwards gives the old record with the
    fields of the transition written over it, a lookup of any other id gives
    what it gave before, and the ids in the table, the users table and the
    files are as they were. *)
Theorem ledger_updates_are_keyed (db : World) (id id' : string)
    (now rows : Z) (err : string) :
  let changed (change : UploadJob -> UploadJob) (db' : World) :=
    get_upload_job db' id'
    = (if String.eqb id id' then change <$> get_upload_job db id'
       else get_upload_job db id')
    /\ map job_id (upload_jobs db') = map job_id (upload_jobs db)
    /\ users db' = users db /\ files db' = files db in
  changed (running_fields now) (set_upload_job_running db id now)
  /\ changed (completed_fields rows now)
             (set_upload_job_completed db id rows now)
  /\ changed (failed_fields err now) (set_upload_job_failed db id err now)
  /\ changed (deleted_fields now) (mark_upload_file_deleted db id now).
Proof.
  cbv zeta.
  unfold set_upload_job_running, set_upload_job_completed,
    set_upload_job_failed, mark_upload_file_deleted.
  repeat split; try (by apply get_upload_job_update);
    by apply update_job_ids.
Qed.

(** X2. [create_upload_job] refuses an id that is already in the table
    and then leaves the world as it was; with a new id it adds one record,
    in state queued with [inserted_rows = 0] and the given chunk size, which
    a lookup of the id returns; the lookups of all other ids are unchanged
    and the ids stay unique. *)
Theorem create_upload_job_adds_one_record (db : World)
    (id fname path : string) (size now : Z) :
  match create_upload_job db id fname path size now with
  | (Raise _, db') => has_job db id = true /\ db' = db
  | (Ok job, db') =>
      has_job db id = false
      /\ get_upload_job db' id = Some job
      /\ (job_id job, status job, inserted_rows job, chunk_size job,
          saved_path job, error job, completed_at job, file_deleted_at job)
         = (id, "queued", 0, size, path, None, None, None)
      /\ (forall id', id' <> id ->
            get_upload_job db' id' = get_upload_job db id')
      /\ (ledger_ok db -> ledger_ok db')
      /\ users db' = users db /\ files db' = files db
  end.
Proof.
  unfold create_upload_job. destruct (has_job db id) eqn:Hnew; [done|].
  split; [done|]. split; [by apply get_upload_job_appended|].
  split; [done|]. split; [|split; [|done]].
  - intros id' Hne. unfold get_upload_job. cbn [upload_jobs with_jobs].
    rewrite List.filter_app. cbn [List.filter job_id].
    apply String.eqb_neq in Hne. rewrite String.eqb_sym, Hne.
    by rewrite app_nil_r.
  - unfold ledger_ok. cbn [upload_jobs with_jobs]. intros Hok.
    rewrite map_app. cbn [map job_id].
    apply NoDup_app. split; [done|]. split; [|apply NoDup_singleton].
    intros x Hx Hx'. apply list_elem_of_singleton in Hx'. subst x.
    apply list_elem_of_In, in_map_iff in Hx as (j & Hj & Hin).
    pose proof (has_job_false_rows _ _ Hnew) as Hall.
    rewrite Forall_forall in Hall.
    apply list_elem_of_In, Hall in Hin.
    rewrite Hj, String.eqb_refl in Hin. done.
Qed.

(** ** Runs under any chunk size *)

Section AnyChunkSize.

Implicit Types (w : World) (batch : list User) (rows : list (option raw_row)).

(** A run reaches the end of its body only on a sheet with a header row
    that resolves. *)
Lemma process_excel_try_ok_shape settings id loaded started finished w w' :
  process_excel_try settings id loaded started finished w = (Ok tt, w') ->
  exists headers rows column_map,
    loaded = Ok (Some headers :: rows)
    /\ resolve_columns settings headers = Ok column_map.
Proof.
  unfold process_excel_try, bind, lift, modify. intros Hrun.
  destruct loaded as [[|[headers|] rows]|e]; try done.
  cbn [tl] in Hrun.
  destruct (resolve_columns settings headers) as [column_map|e] eqn:R;
    [|done].
  by exists headers, rows, column_map.
Qed.

(** The rows counted and the rows flushed, whatever the chunk size. *)
Lemma ingest_rows_count settings column_map rows :
  forall batch inserted w batch' inserted' w',
    ingest_rows settings column_map rows batch inserted w
    = (Ok (batch', inserted'), w') ->
    exists log,
      bulk_log w' = bulk_log w ++ log
      /\ concat log ++ batch' = batch ++ valid_rows column_map rows
      /\ inserted' = inserted + Z.of_nat (length (concat log))
      /\ Forall (fun b => b <> []) log.
Proof.
  induction rows as [|[row|] rows IH];
    intros batch inserted w batch' inserted' w' Hrun;
    cbn [ingest_rows valid_rows] in *.
  - injection Hrun as <- <- <-. exists []. cbn. rewrite !app_nil_r.
    repeat split; try done. lia.
  - unfold bind at 1, lift at 1 in Hrun.
    destruct (_normalize_row row column_map) as [user|e]; [|done].
    destruct (is_blank user); [by eapply IH|].
    destruct (_ >=? _).
    + unfold bind in Hrun.
      destruct (bulk_insert_users (batch ++ [user]) w) as [[[]|e] w2] eqn:W;
        [|done].
      apply bulk_insert_users_spec in W as (Hlog & _).
      apply IH in Hrun as (log & Hl & Hc & Hi & Hne).
      exists ((batch ++ [user]) :: log).
      rewrite Hl, Hlog, <- app_assoc. split; [done|].
      cbn [concat app] in *. rewrite <- !app_assoc, Hc.
      split; [done|]. split.
      * rewrite Hi, !length_app. cbn [length]. lia.
      * constructor; [|done]. by destruct batch.
    + apply IH in Hrun as (log & Hl & Hc & Hi & Hne).
      exists log. by rewrite <- app_assoc in Hc.
  - by eapply IH.
Qed.

(** With a chunk size of one or less, every record is flushed at once. *)
Lemma ingest_rows_one_by_one settings column_map rows :
  EXCEL_CHUNK_SIZE settings <= 1 ->
  forall inserted w r w',
    ingest_rows settings column_map rows [] inserted w = (r, w') ->
    exists n,
      bulk_log w'
      = bulk_log w
        ++ map (fun u => [u]) (firstn n (valid_rows column_map rows)) /\
      match r with
         | Ok (batch', _) =>
             batch' = [] /\ firstn n (valid_rows column_map rows)
                            = valid_rows column_map rows
         | Raise _ => True
         end.
Proof.
  intros HC.
  induction rows as [|[row|] rows IH]; intros inserted w r w' Hrun;
    cbn [ingest_rows valid_rows] in *.
  - injection Hrun as <- <-. exists 0%nat. cbn. by rewrite app_nil_r.
  - unfold bind at 1, lift at 1 in Hrun.
    destruct (_normalize_row row column_map) as [user|e].
    + destruct (is_blank user); [by eapply IH|].
      cbn [app length] in Hrun.
      assert ((Z.of_nat 1 >=? EXCEL_CHUNK_SIZE settings) = true) as G
        by (rewrite Z.geb_leb; apply Z.leb_le; lia).
      rewrite G in Hrun. unfold bind in Hrun.
      destruct (bulk_insert_users [user] w) as [[[]|e] w2] eqn:W;
        apply bulk_insert_users_spec in W as (Hlog & _).
      * apply IH in Hrun as (n & Hl & Hr).
        exists (S n). cbn [firstn map]. rewrite Hl, Hlog, <- app_assoc.
        split; [done|]. destruct r as [[batch' i']|e]; [|done].
        destruct Hr as [-> Hr]. by rewrite Hr.
      * injection Hrun as <- <-. exists 1%nat. cbn [firstn map].
        by rewrite Hlog.
    + injection Hrun as <- <-. exists 0%nat. cbn. by rewrite app_nil_r.
  - by eapply IH.
Qed.

(** With a storage that accepts every write, no write raises and the
    session stays in working order. *)
Lemma bulk_insert_users_reliable batch w :
  deactivated w = None ->
  storage_reliable w ->
  exists w', bulk_insert_users batch w = (Ok tt, w')
             /\ deactivated w' = None /\ storage_reliable w'.
Proof.
  unfold storage_reliable, bulk_insert_users. intros ->.
  destruct (pending_faults w) as [|[msg|] rest]; intros Hrel.
  - eexists. split; [reflexivity|]. by cbn.
  - by inversion Hrel.
  - eexists. split; [reflexivity|]. cbn. split; [done|]. by inversion Hrel.
Qed.

Lemma ingest_rows_reliable settings column_map rows :
  forall batch inserted w r w',
    ingest_rows settings column_map rows batch inserted w = (r, w') ->
    deactivated w = None -> storage_reliable w ->
    deactivated w' = None /\ storage_reliable w'.
Proof.
  induction rows as [|[row|] rows IH]; intros batch inserted w r w' Hrun Hs Hrel;
    cbn [ingest_rows] in Hrun.
  - by injection Hrun as <- <-.
  - unfold bind at 1, lift at 1 in Hrun.
    destruct (_normalize_row row column_map) as [user|e];
      [|by injection Hrun as <- <-].
    destruct (is_blank user); [by eapply IH|].
    destruct (_ >=? _); [|by eapply IH].
    unfold bind in Hrun.
    destruct (bulk_insert_users_reliable (batch ++ [user]) w Hs Hrel)
      as (w2 & W & Hs2 & Hrel2).
    rewrite W in Hrun. by eapply IH.
  - by eapply IH.
Qed.

Lemma process_excel_try_reliable settings id loaded started finished w r w1 :
  process_excel_try settings id loaded started finished w = (r, w1) ->
  storage_reliable w -> deactivated w1 = None.
Proof.
  unfold process_excel_try, bind, lift, modify, ret, on_session.
  cbn [tl deactivated SessionLocal]. intros Hrun Hrel.
  set (w0 := set_upload_job_running (SessionLocal w) id started) in *.
  assert (deactivated w0 = None) as Hs0 by done.
  assert (storage_reliable w0) as Hrel0 by done.
  destruct loaded as [sheet|e0]; [|by injection Hrun as <- <-].
  destruct sheet as [|[headers|] rows]; cbn [tl] in Hrun;
    try (by injection Hrun as <- <-).
  destruct (resolve_columns settings headers) as [column_map|e0];
    [|by injection Hrun as <- <-].
  destruct (ingest_rows settings column_map rows [] 0 w0)
    as [[[batch inserted]|e0] w2] eqn:Hloop;
    apply ingest_rows_reliable in Hloop as [Hs2 Hrel2]; try done.
  - cbn [fst snd] in Hrun. destruct batch as [|u batch].
    + rewrite Hs2 in Hrun. by injection Hrun as <- <-.
    + destruct (bulk_insert_users_reliable (u :: batch) w2 Hs2 Hrel2)
        as (w3 & W & Hs3 & _).
      rewrite W, Hs3 in Hrun. by injection Hrun as <- <-.
  - by injection Hrun as <- <-.
Qed.

(** Where a run leaves the ledger, the table and the files.  The record of
    the job is marked running and then completed or failed; or it is left
    as running, which takes a write that the storage refused. *)
Lemma process_excel_job_effects settings id loaded started finished w :
  let after := process_excel_job settings id loaded started finished w in
  (exists final : UploadJob -> UploadJob,
     upload_jobs after
     = map (fun j => if String.eqb (job_id j) id
                     then final (running_fields started j) else j)
           (upload_jobs w)
     /\ ((exists total, final = completed_fields total finished)
         \/ (exists err, final = failed_fields err finished)
         \/ (final = (fun j => j) /\ ~ storage_reliable w)))
  /\ files after = files w
  /\ exists added, users after = users w ++ added.
Proof.
  cbv zeta.
  destruct (process_excel_try settings id loaded started finished w)
    as [[[]|e] w1] eqn:Hrun.
  - rewrite (process_excel_job_completed _ _ _ _ _ _ _ Hrun).
    destruct (process_excel_try_ok_shape _ _ _ _ _ _ _ Hrun)
      as (headers & rows & column_map & -> & Hres).
    destruct (process_excel_try_completed _ _ _ _ _ _ _ _ _ Hres Hrun)
      as (batch & inserted & w2 & w3 & Hloop & _ & Husers3 & Hjobs3 & Hfiles3
          & ->).
    apply ingest_rows_effects in Hloop
      as (log & done & _ & Husers & Hjobs & Hfiles & _).
    unfold set_upload_job_completed.
    rewrite update_job_rows, update_job_files, update_job_users.
    rewrite Hjobs3, Hfiles3, Husers3, Hjobs, Hfiles, Husers.
    split; [|split; [done|]].
    + exists (completed_fields (inserted + Z.of_nat (length batch)) finished).
      split; [|left; by eexists].
      cbn [upload_jobs set_upload_job_running update_job with_jobs
           SessionLocal].
      rewrite map_map. apply map_ext. intros j.
      destruct (String.eqb (job_id j) id) eqn:E; cbn [job_id running_fields];
        by rewrite E.
    + exists (concat done ++ batch). cbn [users set_upload_job_running
        update_job with_jobs SessionLocal]. by rewrite <- app_assoc.
  - pose proof (process_excel_job_raised _ _ _ _ _ _ _ _ Hrun)
      as (_ & Husers' & Hfiles' & Hjobs').
    pose proof (process_excel_try_raises _ _ _ _ _ _ _ _ Hrun)
      as (log & done & _ & Husers & _ & Hfiles & Hjobs).
    rewrite Hjobs', Hfiles', Husers', Hfiles, Husers.
    split; [|split; [done|by exists (concat done)]].
    destruct (deactivated w1) as [original|] eqn:Hs.
    + exists (fun j => j). split; [done|]. right. right. split; [done|].
      intros Hrel.
      pose proof (process_excel_try_reliable _ _ _ _ _ _ _ _ Hrun Hrel).
      congruence.
    + exists (failed_fields (exn_text e) finished).
      split; [|right; left; by eexists].
      rewrite Hjobs, map_map. apply map_ext. intros j.
      destruct (String.eqb (job_id j) id) eqn:E; cbn [job_id running_fields];
        by rewrite E.
Qed.

(** The row loop on rows that hold nothing. *)
Lemma ingest_rows_hollow settings column_map rows :
  Forall (fun r => normalizes column_map r = true) rows ->
  valid_rows column_map rows = [] ->
  forall batch inserted w,
    ingest_rows settings column_map rows batch inserted w
    = (Ok (batch, inserted), w).
Proof.
  induction 1 as [|[row|] rows Hrow _ IH]; intros Hvalid batch inserted w;
    cbn [ingest_rows valid_rows normalizes] in *.
  - done.
  - unfold bind, lift.
    destruct (_normalize_row row column_map) as [user|e]; [|done].
    destruct (is_blank user); [by apply IH|done].
  - by apply IH.
Qed.

End AnyChunkSize.

(** X3. Whatever the chunk size (zero and negative values included), a
    run that completes has handed the storage the valid rows of the sheet in
    order, in batches none of which is empty; the users table has grown by
    exactly these rows, and the record of the job has [status = completed],
    no error, and their number as [inserted_rows]. *)
Theorem completed_run_counts_valid_rows (settings : Settings) (id : string)
    (loaded : result (list (option raw_row))) (started finished : Z)
    (w w' : World) :
  process_excel_try settings id loaded started finished w = (Ok tt, w') ->
  exists headers rows column_map log,
    loaded = Ok (Some headers :: rows)
    /\ resolve_columns settings headers = Ok column_map
    /\ bulk_log w' = bulk_log w ++ log
    /\ concat log = valid_rows column_map rows
    /\ Forall (fun b => b <> []) log
    /\ users w' = users w ++ valid_rows column_map rows
    /\ forall job, get_upload_job w id = Some job ->
         exists job',
           get_upload_job w' id = Some job'
           /\ status job' = "completed"
           /\ error job' = None
           /\ inserted_rows job'
              = Z.of_nat (length (valid_rows column_map rows)).
Proof.
  intros Hrun.
  destruct (process_excel_try_ok_shape _ _ _ _ _ _ _ Hrun)
    as (headers & rows & column_map & -> & Hres).
  destruct (process_excel_try_completed _ _ _ _ _ _ _ _ _ Hres Hrun)
    as (batch & inserted & w1 & w2 & Hloop & Hlog2 & Husers2 & Hjobs2 & _ & ->).
  pose proof (ingest_rows_effects _ _ _ _ _ _ _ _ Hloop)
    as (log0 & done & Hlog0 & Husers & Hjobs & _ & ->).
  apply ingest_rows_count in Hloop as (log & Hlog & Hvalid & Hins & Hne).
  rewrite Hlog0 in Hlog. apply app_inv_head in Hlog as <-.
  cbn [app] in Hvalid.
  exists headers, rows, column_map, (log0 ++ tail_batch batch).
  unfold set_upload_job_completed.
  rewrite update_job_log, update_job_users.
  rewrite Hlog2, Husers2, Hlog0, Husers.
  cbn [bulk_log users upload_jobs set_upload_job_running update_job with_jobs
       SessionLocal].
  rewrite <- !app_assoc, Hvalid.
  assert (concat (log0 ++ tail_batch batch) = valid_rows column_map rows)
    as Hcat.
  { rewrite concat_app, <- Hvalid. f_equal. destruct batch; cbn; [done|].
    by rewrite app_nil_r. }
  assert (inserted + Z.of_nat (length batch)
          = Z.of_nat (length (valid_rows column_map rows))) as ->
    by (rewrite <- Hvalid, length_app; lia).
  repeat split; try done.
  - apply Forall_app. split; [done|]. destruct batch; by repeat constructor.
  - intros job Hjob. eexists. split.
    + apply (get_upload_job_changed
               (fun x => completed_fields
                           (Z.of_nat (length (valid_rows column_map rows)))
                           finished (running_fields started x)) w);
        [done| |exact Hjob].
      rewrite update_job_rows, Hjobs2, Hjobs.
      cbn [upload_jobs set_upload_job_running update_job with_jobs
           SessionLocal].
      rewrite map_map. apply map_ext. intros j.
      destruct (String.eqb (job_id j) id) eqn:E; cbn [job_id running_fields];
        by rewrite E.
    + done.
Qed.

Lemma completed_run_counts_valid_rows_witness :
  (process_excel_try two_per_chunk "j1"
     (Ok (Some sample_headers :: sample_rows)) 200 300 sample_upload
   = (Ok tt, sample_completed)
   /\ get_upload_job sample_upload "j1"
      = Some (sample_job "j1" "up/people.xlsx" "queued" None))
  /\ length (users sample_completed) = 5%nat
  /\ exists job',
       get_upload_job sample_completed "j1" = Some job'
       /\ status job' = "completed"
       /\ error job' = None
       /\ inserted_rows job' = 5.
Proof.
  assert (process_excel_try two_per_chunk "j1"
            (Ok (Some sample_headers :: sample_rows)) 200 300 sample_upload
          = (Ok tt, sample_completed)) as H by (vm_compute; reflexivity).
  assert (get_upload_job sample_upload "j1"
          = Some (sample_job "j1" "up/people.xlsx" "queued" None)) as Hj
    by (vm_compute; reflexivity).
  split; [by split|]. split; [reflexivity|].
  destruct (completed_run_counts_valid_rows _ _ _ _ _ _ _ H)
    as (headers & rows & column_map & log & Hsheet & Hres & _ & _ & _ & _
        & Hjob).
  injection Hsheet as <- <-.
  assert (column_map = sample_column_map) as ->.
  { assert (resolve_columns two_per_chunk sample_headers
            = Ok sample_column_map) as Hres' by (vm_compute; reflexivity).
    rewrite Hres' in Hres. by injection Hres. }
  exact (Hjob _ Hj).
Defined.

(** X4. With a chunk size of one or less, a run that completes has written
    every valid row in a batch of its own: as many bulk writes as valid
    rows. *)
Theorem small_chunk_size_writes_row_by_row (settings : Settings) (id : string)
    (headers : raw_row) (rows : list (option raw_row))
    (column_map : gmap string nat) (started finished : Z) (w w' : World) :
  EXCEL_CHUNK_SIZE settings <= 1 ->
  resolve_columns settings headers = Ok column_map ->
  process_excel_try settings id (Ok (Some headers :: rows)) started finished w
  = (Ok tt, w') ->
  bulk_log w'
  = bulk_log w ++ map (fun u => [u]) (valid_rows column_map rows).
Proof.
  intros HC Hres Hrun.
  destruct (process_excel_try_completed _ _ _ _ _ _ _ _ _ Hres Hrun)
    as (batch & inserted & w1 & w2 & Hloop & Hlog2 & _ & _ & _ & ->).
  apply (ingest_rows_one_by_one _ _ _ HC) in Hloop as (n & Hlog & -> & Hn).
  unfold set_upload_job_completed. rewrite update_job_log, Hlog2, Hlog, Hn.
  cbn. by rewrite app_nil_r.
Qed.

Lemma small_chunk_size_writes_row_by_row_witness :
  (EXCEL_CHUNK_SIZE
     {| EXCEL_CHUNK_SIZE := 0; CLEANUP_EXPIRED_UPLOADS := true;
        UPLOAD_FILE_RETENTION_HOURS := 72;
        REQUIRED_COLUMNS := ["name"; "email"; "age"] |} <= 1)
  /\ map length
       (bulk_log
          (process_excel_job
             {| EXCEL_CHUNK_SIZE := 0; CLEANUP_EXPIRED_UPLOADS := true;
                UPLOAD_FILE_RETENTION_HOURS := 72;
                REQUIRED_COLUMNS := ["name"; "email"; "age"] |}
             "j1" (Ok (Some sample_headers :: sample_rows)) 200 300
             sample_upload))
     = [1; 1; 1; 1; 1]%nat.
Proof.
  set (s := {| EXCEL_CHUNK_SIZE := 0; CLEANUP_EXPIRED_UPLOADS := true;
               UPLOAD_FILE_RETENTION_HOURS := 72;
               REQUIRED_COLUMNS := ["name"; "email"; "age"] |}).
  assert (EXCEL_CHUNK_SIZE s <= 1) as H1 by (cbn; lia).
  assert (resolve_columns s sample_headers = Ok sample_column_map) as H2
    by (vm_compute; reflexivity).
  assert (process_excel_try s "j1" (Ok (Some sample_headers :: sample_rows))
            200 300 sample_upload
          = (Ok tt, process_excel_job s "j1"
                      (Ok (Some sample_headers :: sample_rows)) 200 300
                      sample_upload)) as H3 by (vm_compute; reflexivity).
  split; [exact H1|].
  rewrite (small_chunk_size_writes_row_by_row _ _ _ _ _ _ _ _ _ H1 H2 H3).
  vm_compute. reflexivity.
Defined.

(** ** How a run ends *)

Section RunOutcome.

Implicit Types (w : World) (batch : list User) (rows : list (option raw_row)).

Lemma ingest_rows_completes settings column_map rows :
  Forall (fun r => normalizes column_map r = true) rows ->
  forall batch inserted w,
    deactivated w = None ->
    storage_reliable w ->
    exists batch' inserted' w',
      ingest_rows settings column_map rows batch inserted w
      = (Ok (batch', inserted'), w')
      /\ deactivated w' = None
      /\ storage_reliable w'.
Proof.
  induction 1 as [|[row|] rows Hrow _ IH]; intros batch inserted w Hs Hrel;
    cbn [ingest_rows].
  - by exists batch, inserted, w.
  - unfold bind at 1, lift at 1. cbn [normalizes] in Hrow.
    destruct (_normalize_row row column_map) as [user|e]; [|done].
    destruct (is_blank user); [by apply IH|].
    destruct (_ >=? _); [|by apply IH].
    unfold bind.
    destruct (bulk_insert_users_reliable (batch ++ [user]) w Hs Hrel)
      as (w2 & -> & Hs2 & Hrel2).
    by apply IH.
  - by apply IH.
Qed.

End RunOutcome.

(** X5. A sheet whose header row resolves and whose rows all normalize,
    ingested while the storage accepts every write, runs to completion. *)
Theorem clean_sheet_runs_to_completion (settings : Settings) (id : string)
    (headers : raw_row) (rows : list (option raw_row))
    (column_map : gmap string nat) (started finished : Z) (w : World) :
  resolve_columns settings headers = Ok column_map ->
  Forall (fun r => normalizes column_map r = true) rows ->
  storage_reliable w ->
  exists w',
    process_excel_try settings id (Ok (Some headers :: rows)) started finished w
    = (Ok tt, w')
    /\ process_excel_job settings id (Ok (Some headers :: rows))
                         started finished w = w'.
Proof.
  intros Hres Hrows Hrel.
  assert (exists w',
            process_excel_try settings id (Ok (Some headers :: rows))
                              started finished w = (Ok tt, w')) as [w' Hrun].
  { unfold process_excel_try, bind, lift, modify, ret, on_session.
    cbn [tl deactivated SessionLocal]. rewrite Hres.
    destruct (ingest_rows_completes settings column_map rows Hrows [] 0
                (set_upload_job_running (SessionLocal w) id started)
                eq_refl Hrel)
      as (batch & inserted & w1 & -> & Hs1 & Hrel1).
    cbn [fst snd]. destruct batch as [|u batch].
    - rewrite Hs1. by eexists.
    - destruct (bulk_insert_users_reliable (u :: batch) w1 Hs1 Hrel1)
        as (w2 & -> & Hs2 & _).
      rewrite Hs2. by eexists. }
  exists w'. split; [done|]. by apply process_excel_job_completed.
Qed.

Lemma clean_sheet_runs_to_completion_witness :
  (resolve_columns two_per_chunk sample_headers = Ok sample_column_map
   /\ Forall (fun r => normalizes sample_column_map r = true) sample_rows
   /\ storage_reliable sample_upload)
  /\ exists w',
       process_excel_try two_per_chunk "j1"
         (Ok (Some sample_headers :: sample_rows)) 200 300 sample_upload
       = (Ok tt, w')
       /\ process_excel_job two_per_chunk "j1"
            (Ok (Some sample_headers :: sample_rows)) 200 300 sample_upload
          = w'.
Proof.
  assert (resolve_columns two_per_chunk sample_headers = Ok sample_column_map)
    as H1 by (vm_compute; reflexivity).
  assert (Forall (fun r => normalizes sample_column_map r = true) sample_rows)
    as H2 by (repeat constructor).
  assert (storage_reliable sample_upload) as H3 by constructor.
  split; [by repeat split|].
  exact (clean_sheet_runs_to_completion two_per_chunk "j1" _ _ _ 200 300 _
           H1 H2 H3).
Defined.

(** X6. How a run leaves the record of its job.  The record ends completed
    with no error text, or failed with an error text, both with
    [completed_at] set to the end of the run; or, when a bulk write was
    refused by the storage, it is left as [running], with no error text and
    with the [completed_at] and [inserted_rows] it had: the handler's own
    ledger call raises on the session the failed write deactivated.  With a
    storage that accepts every write the record always ends completed or
    failed.  In every case [started_at] is the start of the run and the id,
    name, path, chunk size, creation time and deletion mark of the record
    are untouched. *)
Theorem run_ends_completed_failed_or_running (settings : Settings)
    (id : string) (loaded : result (list (option raw_row)))
    (started finished : Z) (w : World) (j : UploadJob) :
  get_upload_job w id = Some j ->
  exists j',
    get_upload_job (process_excel_job settings id loaded started finished w) id
    = Some j'
    /\ ((status j' = "completed" /\ error j' = None
         /\ completed_at j' = Some finished)
        \/ (status j' = "failed" /\ (exists err, error j' = Some err)
            /\ completed_at j' = Some finished
            /\ inserted_rows j' = inserted_rows j)
        \/ (status j' = "running" /\ error j' = None
            /\ completed_at j' = completed_at j
            /\ inserted_rows j' = inserted_rows j
            /\ ~ storage_reliable w))
    /\ started_at j' = Some started
    /\ (job_id j', filename j', saved_path j', chunk_size j', created_at j',
        file_deleted_at j')
       = (job_id j, filename j, saved_path j, chunk_size j, created_at j,
          file_deleted_at j).
Proof.
  intros Hj.
  destruct (process_excel_job_effects settings id loaded started finished w)
    as ((final & Hrows & Hfinal) & _).
  exists (final (running_fields started j)). split.
  - apply (get_upload_job_changed (fun x => final (running_fields started x)) w);
      [|exact Hrows|exact Hj].
    intros x. by destruct Hfinal as [[total ->]|[[err ->]|[-> _]]].
  - destruct Hfinal as [[total ->]|[[err ->]|[-> Hrel]]]; cbn.
    + repeat split. by left.
    + repeat split. right. left. repeat split. by exists err.
    + repeat split. right. right. by repeat split.
Qed.

Lemma run_ends_completed_failed_or_running_witness :
  get_upload_job sample_faulty "j1"
  = Some (sample_job "j1" "up/people.xlsx" "queued" None)
  /\ exists j',
       get_upload_job
         (process_excel_job two_per_chunk "j1"
            (Ok (Some sample_headers :: sample_rows)) 200 300 sample_faulty)
         "j1" = Some j'
       /\ (status j', error j', completed_at j', inserted_rows j',
           started_at j')
          = ("running", None, None, 0, Some 200).
Proof.
  assert (get_upload_job sample_faulty "j1"
          = Some (sample_job "j1" "up/people.xlsx" "queued" None)) as H
    by (vm_compute; reflexivity).
  split; [exact H|].
  destruct (run_ends_completed_failed_or_running two_per_chunk "j1"
              (Ok (Some sample_headers :: sample_rows)) 200 300 sample_faulty
              _ H) as (j' & Hget & _).
  exists j'. split; [exact Hget|].
  vm_compute in Hget. injection Hget as <-. reflexivity.
Defined.

(** X7. A run changes nothing but the record of its own job and the users
    table: the records of the other jobs, the set of job ids and the files
    are as before, and the users table keeps all the rows it had, in
    place. *)
Theorem run_touches_only_its_job (settings : Settings) (id : string)
    (loaded : result (list (option raw_row))) (started finished : Z)
    (w : World) :
  let after := process_excel_job settings id loaded started finished w in
  (forall id', id' <> id -> get_upload_job after id' = get_upload_job w id')
  /\ map job_id (upload_jobs after) = map job_id (upload_jobs w)
  /\ files after = files w
  /\ exists added, users after = users w ++ added.
Proof.
  cbv zeta.
  destruct (process_excel_job_effects settings id loaded started finished w)
    as ((final & Hrows & Hfinal) & Hfiles & Husers).
  assert (forall x, job_id (final (running_fields started x)) = job_id x)
    as Hid by (intros x; by destruct Hfinal as [[total ->]|[[err ->]|[-> _]]]).
  split; [|split; [|by split]].
  - intros id' Hne.
    transitivity (get_upload_job
                    (update_job id (fun x => final (running_fields started x)) w)
                    id').
    + unfold get_upload_job. by rewrite Hrows, update_job_rows.
    + rewrite get_upload_job_update by done.
      apply String.eqb_neq in Hne. by rewrite String.eqb_sym, Hne.
  - rewrite Hrows, map_map. apply map_ext. intros x.
    by destruct (String.eqb (job_id x) id).
Qed.

(** X8. A run over a file that gives the row loop nothing to write hands
    nothing to the storage and leaves the users table as it was.  When the
    workbook cannot be opened the record of the job ends failed with the
    text of that error; when the sheet has no header row, failed with the
    text [Excel file is empty]; when the header row does not resolve,
    failed with the text of the column error; and when the header row
    resolves and every row after it is absent or blank, completed with
    [inserted_rows = 0]. *)
Theorem run_without_data_rows (settings : Settings) (id : string)
    (loaded : result (list (option raw_row))) (started finished : Z)
    (w : World) (job : UploadJob) :
  get_upload_job w id = Some job ->
  no_data_rows settings loaded ->
  let after := process_excel_job settings id loaded started finished w in
  bulk_log after = bulk_log w
  /\ users after = users w
  /\ exists job',
       get_upload_job after id = Some job'
       /\ (status job', error job', inserted_rows job')
          = match loaded with
            | Raise e => ("failed", Some (exn_text e), inserted_rows job)
            | Ok (Some headers :: _) =>
                match resolve_columns settings headers with
                | Ok _ => ("completed", None, 0)
                | Raise e => ("failed", Some (exn_text e), inserted_rows job)
                end
            | Ok _ => ("failed", Some "Excel file is empty", inserted_rows job)
            end.
Proof.
  intros Hjob Hnone. cbv zeta.
  assert (forall text,
            get_upload_job
              (close_session
                 (set_upload_job_failed
                    (set_upload_job_running (SessionLocal w) id started)
                    id text finished)) id
            = Some (failed_fields text finished (running_fields started job)))
    as Hfailed.
  { intros text.
    apply (get_upload_job_changed
             (fun x => failed_fields text finished (running_fields started x))
             w); [done| |exact Hjob].
    cbn [upload_jobs close_session set_upload_job_failed
         set_upload_job_running update_job with_jobs SessionLocal].
    rewrite map_map. apply map_ext. intros x.
    destruct (String.eqb (job_id x) id) eqn:E; cbn [job_id running_fields];
      by rewrite E. }
  unfold process_excel_job, process_excel_except, process_excel_try, bind,
    lift, modify, ret, on_session.
  cbn [tl deactivated SessionLocal].
  destruct loaded as [[|[headers|] rows]|e]; cbn [snd];
    try (split; [done|]; split; [done|]; eexists; split;
         [apply Hfailed|done]).
  cbn [tl no_data_rows] in *.
  destruct (resolve_columns settings headers) as [column_map|e]; cbn [snd];
    [|split; [done|]; split; [done|]; eexists; split; [apply Hfailed|done]].
  destruct Hnone as [Hrows Hvalid].
  rewrite (ingest_rows_hollow settings column_map rows Hrows Hvalid).
  cbn [fst snd deactivated set_upload_job_running update_job with_jobs
       SessionLocal].
  split; [done|]. split; [done|].
  exists (completed_fields 0 finished (running_fields started job)).
  split; [|reflexivity].
  apply (get_upload_job_changed
           (fun x => completed_fields 0 finished (running_fields started x))
           w); [done| |exact Hjob].
  cbn [upload_jobs close_session set_upload_job_completed
       set_upload_job_running update_job with_jobs SessionLocal].
  rewrite map_map. apply map_ext. intros x.
  destruct (String.eqb (job_id x) id) eqn:E; cbn [job_id running_fields];
    by rewrite E.
Qed.

Lemma run_without_data_rows_witness :
  (get_upload_job sample_upload "j1"
   = Some (sample_job "j1" "up/people.xlsx" "queued" None)
   /\ no_data_rows two_per_chunk sample_hollow)
  /\ bulk_log (process_excel_job two_per_chunk "j1" sample_hollow 200 300
                 sample_upload) = []
  /\ exists job',
       get_upload_job
         (process_excel_job two_per_chunk "j1" sample_hollow 200 300
            sample_upload) "j1" = Some job'
       /\ (status job', error job', inserted_rows job') = ("completed", None, 0).
Proof.
  assert (get_upload_job sample_upload "j1"
          = Some (sample_job "j1" "up/people.xlsx" "queued" None)) as H1
    by (vm_compute; reflexivity).
  assert (no_data_rows two_per_chunk sample_hollow) as H2.
  { unfold no_data_rows, sample_hollow.
    assert (resolve_columns two_per_chunk sample_headers
            = Ok sample_column_map) as -> by (vm_compute; reflexivity).
    split; [repeat constructor|vm_compute; reflexivity]. }
  split; [by split|].
  destruct (run_without_data_rows two_per_chunk "j1" sample_hollow 200 300
              sample_upload _ H1 H2) as (Hlog & _ & Hrecord).
  split; [exact Hlog|exact Hrecord].
Defined.

(** ** The header row *)

Section Header.

Lemma lower_char_twice c : Py.lower_char (Py.lower_char c) = Py.lower_char c.
Proof. destruct c as [[] [] [] [] [] [] [] []]; reflexivity. Qed.

Lemma lower_twice s : Py.lower (Py.lower s) = Py.lower s.
Proof.
  induction s as [|c s IH]; [done|].
  cbn [Py.lower]. by rewrite lower_char_twice, IH.
Qed.

(** The key of a header cell is in lower case. *)
Lemma header_key_lower v k : header_key v = Some k -> Py.lower k = k.
Proof.
  unfold header_key.
  destruct v; try done;
    destruct (String.eqb _ ""); try done;
    intros [= <-]; apply lower_twice.
Qed.

(** Where a key of the header map comes from: the accumulator, when no
    cell has the key, or the last cell that has it. *)
Lemma build_header_map_some headers : forall index acc k i,
  build_header_map headers index acc !! k = Some i <->
  (acc !! k = Some i /\ forall v, In v headers -> header_key v <> Some k)
  \/ (exists n v,
        i = (index + n)%nat /\ headers !! n = Some v
        /\ header_key v = Some k
        /\ forall n' v', (n < n')%nat -> headers !! n' = Some v' ->
             header_key v' <> Some k).
Proof.
  induction headers as [|v headers IH]; intros index acc k i;
    cbn [build_header_map].
  - split.
    + intros H. left. split; [done|]. intros ? [].
    + intros [[H _]|(n & v & _ & Hn & _)]; [done|]. by destruct n.
  - rewrite IH. split.
    + intros [[Hacc Hnone]|(n & v' & -> & Hn & Hk & Hlast)].
      * destruct (header_key v) as [k'|] eqn:K.
        -- destruct (decide (k' = k)) as [->|Hne].
           ++ rewrite lookup_insert_eq in Hacc. injection Hacc as <-.
              right. exists 0%nat, v. rewrite Nat.add_0_r.
              repeat split; try done.
              intros [|n'] v' Hlt Hv'; [lia|]. cbn in Hv'.
              apply Hnone. apply list_elem_of_In.
              by apply (list_elem_of_lookup_2 _ n').
           ++ rewrite lookup_insert_ne in Hacc by done.
              left. split; [done|]. intros x [<-|Hx]; [congruence|by apply Hnone].
        -- left. split; [done|]. intros x [<-|Hx]; [congruence|by apply Hnone].
      * right. exists (S n), v'. repeat split; try done; [lia|].
        intros [|n'] x Hlt Hx; [lia|]. cbn in Hx. apply (Hlast n'); [lia|done].
    + intros [[Hacc Hnone]|(n & v' & -> & Hn & Hk & Hlast)].
      * left. split; [|intros x Hx; apply Hnone; by right].
        destruct (header_key v) as [k'|] eqn:K; [|done].
        rewrite lookup_insert_ne; [done|]. intros ->.
        by apply (Hnone v); [left|].
      * destruct n as [|n].
        -- cbn in Hn. injection Hn as ->. left. rewrite Hk, Nat.add_0_r.
           split; [by rewrite lookup_insert_eq|].
           intros x Hx. apply list_elem_of_In, list_elem_of_lookup in Hx
             as [m Hm].
           apply (Hlast (S m)); [lia|done].
        -- right. exists n, v'. repeat split; try done; [lia|].
           intros n' x Hlt Hx. apply (Hlast (S n')); [lia|done].
Qed.

End Header.

(** X9. The header map sends a name to the position of the last header
    cell whose trimmed, lower-cased text is that name: when two columns
    carry the same name, the one further right is the one read. *)
Theorem header_map_keeps_last_column (headers : list cell) (k : string)
    (i : nat) :
  header_map_of headers !! k = Some i <->
  exists v,
    headers !! i = Some v
    /\ header_key v = Some k
    /\ forall i' v', (i < i')%nat -> headers !! i' = Some v' ->
         header_key v' <> Some k.
Proof.
  unfold header_map_of. rewrite build_header_map_some.
  split.
  - intros [[H _]|(n & v & -> & Hn & Hk & Hlast)]; [by rewrite lookup_empty in H|].
    by exists v.
  - intros (v & Hv & Hk & Hlast). right. by exists i, v.
Qed.

(** X10. The three ways [resolve_columns] can end.  It returns a map, of
    the three fixed names to their header positions, when every required
    column and the three fixed names are in the header; it raises
    [ValueError] when a required column is not in the header; it raises
    [KeyError], with the quoted name as text, when every required column is
    there but one of the fixed names [name], [email], [age] is not. *)
Theorem resolve_columns_outcomes (settings : Settings) (headers : list cell) :
  let header_map := header_map_of headers in
  let all_required :=
    forall c, In c (REQUIRED_COLUMNS settings) -> header_map !! c <> None in
  match resolve_columns settings headers with
  | Ok m =>
      all_required
      /\ exists i_name i_email i_age,
           header_map !! "name" = Some i_name
           /\ header_map !! "email" = Some i_email
           /\ header_map !! "age" = Some i_age
           /\ m = <["age" := i_age]> (<["email" := i_email]>
                                      {["name" := i_name]})
  | Raise e =>
      (exn_class e = ValueError
       /\ exists c, In c (REQUIRED_COLUMNS settings) /\ header_map !! c = None)
      \/ (exn_class e = KeyError
          /\ all_required
          /\ exists c, In c ["name"; "email"; "age"]
                       /\ header_map !! c = None
                       /\ exn_text e = Py.repr c)
  end.
Proof.
  cbv zeta. unfold resolve_columns.
  destruct (missing_columns settings (header_map_of headers)) as [|c0 cs] eqn:M.
  - assert (forall c, In c (REQUIRED_COLUMNS settings) ->
              header_map_of headers !! c <> None) as Hall.
    { intros c Hc Hnone.
      assert (In c (missing_columns settings (header_map_of headers))) as Hin
        by (by apply missing_columns_spec).
      by rewrite M in Hin. }
    unfold subscript.
    destruct (header_map_of headers !! "name") as [i1|] eqn:H1;
      cbn [bind_result].
    2: { right. repeat split; try done. exists "name". cbn. auto. }
    destruct (header_map_of headers !! "email") as [i2|] eqn:H2;
      cbn [bind_result].
    2: { right. repeat split; try done. exists "email". cbn. auto. }
    destruct (header_map_of headers !! "age") as [i3|] eqn:H3;
      cbn [bind_result].
    2: { right. repeat split; try done. exists "age". cbn. auto. }
    split; [done|]. by exists i1, i2, i3.
  - left. split; [done|]. exists c0.
    apply missing_columns_spec. rewrite M. by left.
Qed.

(** The map of a resolved header. *)
Lemma resolve_columns_ok settings headers column_map :
  resolve_columns settings headers = Ok column_map ->
  exists i_name i_email i_age,
    header_map_of headers !! "name" = Some i_name
    /\ header_map_of headers !! "email" = Some i_email
    /\ header_map_of headers !! "age" = Some i_age
    /\ column_map = <["age" := i_age]> (<["email" := i_email]>
                                         {["name" := i_name]}).
Proof.
  unfold resolve_columns, subscript.
  destruct (missing_columns settings (header_map_of headers)); [|done].
  destruct (header_map_of headers !! "name") as [i1|]; [|done].
  destruct (header_map_of headers !! "email") as [i2|]; [|done].
  destruct (header_map_of headers !! "age") as [i3|]; [|done].
  cbn [bind_result]. intros [= <-]. by exists i1, i2, i3.
Qed.

(** X11. The required column names are compared as they are configured,
    while the names read from the header are lower-cased: a required column
    configured with a capital letter is never found, and column resolution
    then raises [ValueError] on every header row. *)
Theorem capitalized_required_column_never_resolves (settings : Settings)
    (c : string) (headers : list cell) :
  In c (REQUIRED_COLUMNS settings) ->
  Py.lower c <> c ->
  exists msg, resolve_columns settings headers = Raise (Exn ValueError msg).
Proof.
  intros Hreq Hcap.
  assert (In c (missing_columns settings (header_map_of headers))) as Hin.
  { apply missing_columns_spec. split; [done|].
    apply header_map_none. intros v _ Hk.
    by apply header_key_lower in Hk. }
  unfold resolve_columns.
  destruct (missing_columns settings (header_map_of headers)); [done|].
  by eexists.
Qed.

Lemma capitalized_required_column_never_resolves_witness :
  (In "Name" ["Name"; "email"; "age"] /\ Py.lower "Name" <> "Name")
  /\ exists msg,
       resolve_columns
         {| EXCEL_CHUNK_SIZE := 500; CLEANUP_EXPIRED_UPLOADS := true;
            UPLOAD_FILE_RETENTION_HOURS := 72;
            REQUIRED_COLUMNS := ["Name"; "email"; "age"] |}
         [CStr "Name"; CStr "email"; CStr "age"]
       = Raise (Exn ValueError msg).
Proof.
  assert (In "Name" ["Name"; "email"; "age"]) as H1 by (by left).
  assert (Py.lower "Name" <> "Name") as H2 by (vm_compute; discriminate).
  split; [by split|].
  exact (capitalized_required_column_never_resolves
           {| EXCEL_CHUNK_SIZE := 500; CLEANUP_EXPIRED_UPLOADS := true;
              UPLOAD_FILE_RETENTION_HOURS := 72;
              REQUIRED_COLUMNS := ["Name"; "email"; "age"] |}
           "Name" [CStr "Name"; CStr "email"; CStr "age"] H1 H2).
Defined.

(** ** The normalizer on resolved columns *)

Section Trimmed.

Lemma rstrip_twice s : Py.rstrip (Py.rstrip s) = Py.rstrip s.
Proof.
  induction s as [|c s IH]; [done|]. cbn [Py.rstrip].
  destruct (Py.rstrip s) as [|d r] eqn:R.
  - destruct (Py.isspace c) eqn:S; [done|]. cbn [Py.rstrip]. by rewrite S.
  - cbn [Py.rstrip]. cbn [Py.rstrip] in IH. by rewrite IH.
Qed.

Lemma lstrip_head s :
  Py.lstrip s = "" \/ exists c t, Py.lstrip s = String c t /\ Py.isspace c = false.
Proof.
  induction s as [|c s IH]; [by left|]. cbn [Py.lstrip].
  destruct (Py.isspace c) eqn:S; [done|]. right. by exists c, s.
Qed.

Lemma rstrip_head c t :
  Py.isspace c = false -> exists t', Py.rstrip (String c t) = String c t'.
Proof.
  intros S. cbn [Py.rstrip]. destruct (Py.rstrip t) as [|d r].
  - rewrite S. by eexists.
  - by eexists.
Qed.

(** Stripping a stripped text changes nothing. *)
Lemma strip_twice s : Py.strip (Py.strip s) = Py.strip s.
Proof.
  unfold Py.strip.
  destruct (lstrip_head s) as [->|(c & t & -> & S)]; [done|].
  destruct (rstrip_head c t S) as [t' Ht]. rewrite Ht.
  cbn [Py.lstrip]. rewrite S, <- Ht. apply rstrip_twice.
Qed.

Lemma header_position headers k i :
  header_map_of headers !! k = Some i -> (i < length headers)%nat.
Proof.
  unfold header_map_of. rewrite build_header_map_some.
  intros [[H _]|(n & v & -> & Hn & _)]; [by rewrite lookup_empty in H|].
  by apply lookup_lt_Some in Hn.
Qed.

End Trimmed.

(** X12. With the column map of a resolved header, a row that has at
    least as many cells as the header row is normalized to a record whose
    name and email carry no white space at either end, unless the age
    overflows: [OverflowError] is the only exception such a row can
    raise. *)
Theorem rows_as_long_as_the_header (settings : Settings)
    (headers row : raw_row) (column_map : gmap string nat) :
  resolve_columns settings headers = Ok column_map ->
  (length headers <= length row)%nat ->
  match _normalize_row row column_map with
  | Ok user => Py.strip (name user) = name user
               /\ Py.strip (email user) = email user
  | Raise e => exn_class e = OverflowError
  end.
Proof.
  intros Hres Hlen.
  pose proof (resolve_columns_ok settings headers column_map Hres)
    as (i1 & i2 & i3 & H1 & H2 & H3 & ->).
  assert (forall i, (i < length headers)%nat -> exists v, row !! i = Some v)
    as Hcell.
  { intros i Hi. destruct (row !! i) as [v|] eqn:E; [by exists v|].
    apply lookup_ge_None in E. lia. }
  destruct (Hcell i1 (header_position _ _ _ H1)) as [v1 Hv1].
  destruct (Hcell i2 (header_position _ _ _ H2)) as [v2 Hv2].
  destruct (Hcell i3 (header_position _ _ _ H3)) as [v3 Hv3].
  unfold _normalize_row, get_value.
  rewrite lookup_insert_ne, lookup_insert_ne, lookup_singleton_eq by done.
  rewrite Hv1. cbn [bind_result].
  rewrite lookup_insert_ne, lookup_insert_eq by done.
  rewrite Hv2. cbn [bind_result].
  rewrite lookup_insert_eq, Hv3. cbn [bind_result].
  destruct (age_of v3) as [n|e] eqn:A; cbn [bind_result].
  - unfold text_of. cbn [name email]. by rewrite !strip_twice.
  - by apply (age_of_raises v3).
Qed.

Lemma rows_as_long_as_the_header_witness :
  (resolve_columns two_per_chunk sample_headers = Ok sample_column_map
   /\ (length sample_headers <= length blank_row)%nat)
  /\ match _normalize_row blank_row sample_column_map with
     | Ok user => Py.strip (name user) = name user
                  /\ Py.strip (email user) = email user
     | Raise e => exn_class e = OverflowError
     end.
Proof.
  assert (resolve_columns two_per_chunk sample_headers = Ok sample_column_map)
    as H1 by (vm_compute; reflexivity).
  assert (length sample_headers <= length blank_row)%nat as H2 by (cbn; lia).
  split; [by split|].
  exact (rows_as_long_as_the_header two_per_chunk sample_headers blank_row
           sample_column_map H1 H2).
Defined.

(** ** Ages *)

Section Ages.

(** An integer below [2^53] is a binary64 number. *)
Lemma binary64_of_small_int n :
  0 < n < 2 ^ 53 ->
  Py.binary64_of_ratio n 1
  = Some (n * 2 ^ (52 - Z.log2 n), Z.log2 n - 52).
Proof.
  intros Hn. unfold Py.binary64_of_ratio.
  pose proof (Z.log2_spec n ltac:(lia)) as [Hlo Hhi].
  pose proof (Z.log2_nonneg n) as Hk0.
  assert (Z.log2 n < 53) as Hk by (apply Z.log2_lt_pow2; lia).
  change (Z.log2 1) with 0. rewrite Z.sub_0_r.
  destruct (0 <=? Z.log2 n) eqn:E; [|apply Z.leb_gt in E; lia].
  rewrite Z.mul_1_l.
  destruct (n <? 2 ^ Z.log2 n) eqn:B; [apply Z.ltb_lt in B; lia|].
  rewrite (Z.max_l (Z.log2 n - 52) (-1074)) by lia.
  rewrite (Z.max_r 0 (- (Z.log2 n - 52))) by lia.
  rewrite (Z.max_l 0 (Z.log2 n - 52)) by lia.
  replace (- (Z.log2 n - 52)) with (52 - Z.log2 n) by lia.
  change (1 * 2 ^ 0) with 1.
  unfold Py.round_half_even. rewrite Z.div_1_r, Z.mod_1_r.
  change (2 * 0 <? 1) with true. cbv iota.
  assert (n * 2 ^ (52 - Z.log2 n) < 2 ^ 53) as Hm.
  { replace (2 ^ 53) with (2 ^ (Z.log2 n + 1) * 2 ^ (52 - Z.log2 n)).
    - apply Z.mul_lt_mono_pos_r; [apply Z.pow_pos_nonneg; lia|lia].
    - rewrite <- Z.pow_add_r by lia. f_equal. lia. }
  destruct (n * 2 ^ (52 - Z.log2 n) =? 2 ^ 53) eqn:Q;
    [apply Z.eqb_eq in Q; lia|].
  destruct (971 <? Z.log2 n - 52) eqn:O; [apply Z.ltb_lt in O; lia|].
  done.
Qed.

Lemma int_of_float_of_small_int z :
  - 2 ^ 53 <= z <= 2 ^ 53 ->
  bind_result (Py.float_of_int z) Py.int_of_float = Ok z.
Proof.
  intros Hz. unfold Py.float_of_int.
  destruct (z =? 0) eqn:Z0; [apply Z.eqb_eq in Z0; by subst|].
  apply Z.eqb_neq in Z0.
  destruct (decide (Z.abs z = 2 ^ 53)) as [Hmax|Hlt].
  - rewrite Hmax.
    assert (Py.binary64_of_ratio (2 ^ 53) 1 = Some (2 ^ 52, 1)) as ->
      by (vm_compute; reflexivity).
    cbn [bind_result Py.int_of_float].
    change (if 0 <=? 1 then 2 ^ 52 * 2 ^ 1 else 2 ^ 52 / 2 ^ (- (1)))
      with (2 ^ 53).
    destruct (z <? 0) eqn:S; [apply Z.ltb_lt in S|apply Z.ltb_ge in S];
      f_equal; lia.
  - rewrite binary64_of_small_int by lia.
    cbn [bind_result Py.int_of_float].
    set (k := Z.log2 (Z.abs z)).
    assert (0 <= k < 53) as Hk.
    { split; [apply Z.log2_nonneg|apply Z.log2_lt_pow2; lia]. }
    assert (0 < 2 ^ (52 - k)) as Hpow by (apply Z.pow_pos_nonneg; lia).
    assert ((if 0 <=? k - 52 then Z.abs z * 2 ^ (52 - k) * 2 ^ (k - 52)
             else Z.abs z * 2 ^ (52 - k) / 2 ^ (- (k - 52))) = Z.abs z) as ->.
    { destruct (0 <=? k - 52) eqn:E.
      - apply Z.leb_le in E. assert (k = 52) as -> by lia.
        change (2 ^ (52 - 52)) with 1. change (2 ^ (52 - 52)) with 1. lia.
      - replace (- (k - 52)) with (52 - k) by lia.
        apply Z.div_mul. lia. }
    destruct (z <? 0) eqn:S; [apply Z.ltb_lt in S|apply Z.ltb_ge in S];
      f_equal; lia.
Qed.

End Ages.

(** X13. An age cell that holds an integer of at most [2^53] in magnitude
    is kept as it is: the detour through [float] loses nothing in that
    range. *)
Theorem integer_age_is_kept (z : Z) :
  - 2 ^ 53 <= z <= 2 ^ 53 -> age_of (CInt z) = Ok z.
Proof.
  intros Hz. unfold age_of. cbn [is_none_or_empty py_float].
  by rewrite int_of_float_of_small_int.
Qed.

Lemma integer_age_is_kept_witness :
  (- 2 ^ 53 <= 9007199254740991 <= 2 ^ 53)
  /\ age_of (CInt 9007199254740991) = Ok 9007199254740991.
Proof.
  assert (- 2 ^ 53 <= 9007199254740991 <= 2 ^ 53) as H by lia.
  split; [exact H|]. exact (integer_age_is_kept 9007199254740991 H).
Defined.

(** Past that range the age can change: [2^53 + 1] comes back as [2^53]. *)
Example integer_age_past_the_range :
  age_of (CInt 9007199254740993) = Ok 9007199254740992.
Proof. vm_compute. reflexivity. Qed.

(** X14. A cell that counts as false ([None], the empty text, the numbers
    0 and 0.0, [False], a zero duration) gives the empty text as name or
    email and 0 as age; so a row whose three cells count as false is
    normalized to the blank record, which the row loop skips. *)
Theorem false_cells_make_a_blank_row (row : raw_row)
    (column_map : gmap string nat) (i_name i_email i_age : nat)
    (v_name v_email v_age : cell) :
  column_map !! "name" = Some i_name -> row !! i_name = Some v_name ->
  column_map !! "email" = Some i_email -> row !! i_email = Some v_email ->
  column_map !! "age" = Some i_age -> row !! i_age = Some v_age ->
  truthy v_name = false -> truthy v_email = false -> truthy v_age = false ->
  _normalize_row row column_map = Ok {| name := ""; email := ""; age := 0 |}
  /\ is_blank {| name := ""; email := ""; age := 0 |} = true.
Proof.
  intros Hn Hvn He Hve Ha Hva Tn Te Ta. split; [|done].
  unfold _normalize_row, get_value.
  rewrite Hn, Hvn, He, Hve, Ha, Hva. cbn [bind_result].
  unfold text_of. rewrite Tn, Te.
  assert (age_of v_age = Ok 0) as ->; [|done].
  unfold age_of.
  destruct v_age as [|s|z|[]|[| |neg m e] t|[] t]; cbn in Ta |- *; try done.
  - apply negb_false_iff, String.eqb_eq in Ta. by subst.
  - apply negb_false_iff, Z.eqb_eq in Ta. by subst.
  - apply negb_false_iff, Z.eqb_eq in Ta. subst.
    destruct (0 <=? e), neg; by rewrite ?Z.mul_0_l, ?Zdiv_0_l.
Qed.

Lemma false_cells_make_a_blank_row_witness :
  (three_columns !! "name" = Some 0%nat
   /\ [CInt 0; CBool false; CFloat (Py.FFin true 0 0) "-0.0"] !! 0%nat
      = Some (CInt 0)
   /\ truthy (CInt 0) = false)
  /\ _normalize_row [CInt 0; CBool false; CFloat (Py.FFin true 0 0) "-0.0"]
                    three_columns
     = Ok {| name := ""; email := ""; age := 0 |}.
Proof.
  split; [by repeat split|].
  exact (proj1 (false_cells_make_a_blank_row
                  [CInt 0; CBool false; CFloat (Py.FFin true 0 0) "-0.0"]
                  three_columns 0 1 2 (CInt 0) (CBool false)
                  (CFloat (Py.FFin true 0 0) "-0.0")
                  eq_refl eq_refl eq_refl eq_refl eq_refl eq_refl
                  eq_refl eq_refl eq_refl)).
Defined.

(** ** More on the retention sweep *)

Section SweepCount.

Implicit Types (db w : World) (job j : UploadJob) (fs : gmap string node).

(** The loop adds one to its count for each file it removes. *)
Lemma cleanup_loop_count now l : forall acc w n w',
  cleanup_loop now l acc w = (Ok n, w') ->
  acc <= n
  /\ n + Z.of_nat (size (files w')) = acc + Z.of_nat (size (files w)).
Proof.
  induction l as [|job l IH]; intros acc w n w' Hrun; cbn [cleanup_loop] in Hrun.
  - injection Hrun as <- <-. lia.
  - rewrite cleanup_job_step in Hrun.
    destruct (files w !! saved_path job) as [[|[]]|] eqn:E.
    + apply IH in Hrun. cbn in Hrun. lia.
    + apply IH in Hrun. cbn [files mark_upload_file_deleted update_job
        with_jobs with_files] in Hrun.
      assert (is_Some (files w !! saved_path job)) as Hsome by (by rewrite E).
      pose proof (map_size_delete_Some (saved_path job) (files w) Hsome).
      assert (size (files w) <> 0)%nat.
      { intros H0. apply map_size_empty_inv in H0. rewrite H0 in E.
        by rewrite lookup_empty in E. }
      lia.
    + cbn [exn_class] in Hrun. by apply IH in Hrun.
    + apply IH in Hrun. cbn in Hrun. lia.
Qed.

(** A job whose file cannot be removed is passed over. *)
Lemma cleanup_loop_blocked now l : forall acc w,
  Forall (fun job => blocked (files w) (saved_path job) = true) l ->
  cleanup_loop now l acc w = (Ok acc, w).
Proof.
  induction l as [|job l IH]; intros acc w Hall; cbn [cleanup_loop]; [done|].
  inversion Hall as [|? ? Hb Hl]; subst.
  rewrite cleanup_job_step. unfold blocked in Hb.
  destruct (files w !! saved_path job) as [[|[]]|]; try done.
  cbn [exn_class]. by apply IH.
Qed.

End SweepCount.

(** X15. The number the sweep returns, which the cleanup endpoint reports
    as [deleted_files], is the number of files that are gone from the upload
    directory.  The sweep can raise in one way only, before it has looked at
    any job: with an [OverflowError], leaving everything as it was, exactly
    when it is switched on and the retention window does not fit a
    [timedelta] or the moment one window before [now] is outside the range
    of [datetime]. *)
Theorem sweep_counts_the_files_it_removes (settings : Settings) (now : Z)
    (db : World) :
  let retention := UPLOAD_FILE_RETENTION_HOURS settings in
  let in_range :=
    -999999999 <= retention / 24 <= 999999999
    /\ datetime_min <= now - retention * 3600000000 <= datetime_max in
  match cleanup_expired_uploads settings now db with
  | (Ok n, db') =>
      0 <= n
      /\ Z.of_nat (size (files db)) = Z.of_nat (size (files db')) + n
      /\ (CLEANUP_EXPIRED_UPLOADS settings = false \/ in_range)
  | (Raise e, db') =>
      exn_class e = OverflowError /\ db' = db
      /\ CLEANUP_EXPIRED_UPLOADS settings = true /\ ~ in_range
  end.
Proof.
  cbv zeta.
  change (now - UPLOAD_FILE_RETENTION_HOURS settings * 3600000000)
    with (cutoff_of settings now).
  destruct (cleanup_expired_uploads_cases settings now db)
    as [(Hon & Hcut & n & Hrun)|[(Hoff & ->)|(Hon & e & Hcut & He & ->)]].
  - rewrite Hrun. unfold cleanup_expired_uploads in Hrun.
    rewrite Hon, Hcut in Hrun. cbn [negb] in Hrun.
    apply cleanup_loop_count in Hrun. cbn [files] in Hrun |- *.
    split; [lia|]. split; [lia|]. right.
    apply sweep_cutoff_ok. by eexists.
  - split; [done|]. split; [lia|by left].
  - split; [done|]. split; [done|]. split; [done|].
    intros Hin. apply sweep_cutoff_ok in Hin as [cutoff Hok]. congruence.
Qed.

(** X16. The sweep removes nothing but uploads of the jobs it selected: a
    path that changes held a regular file, was the [saved_path] of a selected
    job, and is gone afterwards; the users table and the set of job ids are
    untouched. *)
Theorem sweep_removes_only_selected_uploads (settings : Settings) (now : Z)
    (db : World) :
  let after := snd (cleanup_expired_uploads settings now db) in
  (forall p,
      files after !! p = files db !! p
      \/ (files after !! p = None
          /\ files db !! p = Some (RegularFile true)
          /\ exists job,
               In job (get_jobs_for_cleanup db (cutoff_of settings now))
               /\ saved_path job = p))
  /\ users after = users db
  /\ map job_id (upload_jobs after) = map job_id (upload_jobs db).
Proof.
  cbv zeta.
  destruct (cleanup_expired_uploads_cases settings now db)
    as [(_ & _ & n & ->)|[(_ & ->)|(_ & e & _ & _ & ->)]]; cbn [snd];
    try (split; [by left|done]).
  cbn [files users upload_jobs]. split; [|split; [done|]].
  - intros p. rewrite swept_lookup.
    destruct (files db !! p) as [[|[]]|] eqn:E; try by left.
    destruct (existsb _ _) eqn:X; [|by left].
    right. repeat split; try done.
    apply existsb_exists in X as (job & Hjob & Hp).
    apply String.eqb_eq in Hp. by exists job.
  - apply mark_rows_ids.
Qed.

(** X17. A sweep repeated at the same time finds nothing to do.  When the
    first pass returned, the jobs it handled are marked and no longer
    selected, the jobs whose file could not be removed are selected again
    and fail in the same way, so the second pass returns 0 and changes
    nothing; when the first pass raised, the second raises the same
    exception, and changes nothing either. *)
Theorem sweep_repeated_is_idle (settings : Settings) (now : Z) (db : World) :
  let first := cleanup_expired_uploads settings now db in
  cleanup_expired_uploads settings now (snd first)
  = (match fst first with
     | Ok _ => Ok 0
     | Raise e => Raise e
     end, snd first).
Proof.
  cbv zeta.
  destruct (cleanup_expired_uploads_cases settings now db)
    as [(Hon & Hcut & n & ->)|[(Hoff & ->)|(Hon & e & Hcut & _ & ->)]];
    cbn [fst snd].
  2: { unfold cleanup_expired_uploads. by rewrite Hoff. }
  2: { unfold cleanup_expired_uploads. by rewrite Hon, Hcut. }
  unfold cleanup_expired_uploads. rewrite Hon, Hcut. cbn [negb].
  apply cleanup_loop_blocked. apply Forall_forall. intros j' Hj'.
  apply list_elem_of_In, cleanup_selected_rows in Hj' as [Hin Hdue].
  cbn [upload_jobs files] in *.
  apply in_map_iff in Hin as (j & <- & Hin).
  destruct (marked_by (files db)
              (get_jobs_for_cleanup db (cutoff_of settings now)) j) eqn:Hm.
  - apply due_for_cleanup_spec in Hdue as [_ Hd]. done.
  - assert (In j (get_jobs_for_cleanup db (cutoff_of settings now))) as Hsel
      by (apply filter_In; by split).
    destruct (blocked (files db) (saved_path j)) eqn:Hb.
    + unfold blocked in *. rewrite swept_lookup.
      by destruct (files db !! saved_path j) as [[|[]]|].
    + by rewrite (marked_by_selected _ _ _ Hsel Hb) in Hm.
Qed.

(** ** More on recovery *)

Section RecoveryAgain.

Implicit Types (db w : World) (job j : UploadJob).

Lemma recovered_ok now db :
  ledger_ok db ->
  ledger_ok (with_jobs db (map (recovered now db) (upload_jobs db))).
Proof.
  unfold ledger_ok. cbn [upload_jobs with_jobs]. intros Hok.
  rewrite rows_ids_preserved; [done|apply recovered_id].
Qed.

(** A recovered record is settled: recovering it again changes nothing. *)
Lemma recovered_twice now now' db rows j :
  recovered now' (with_jobs db rows) (recovered now db j) = recovered now db j.
Proof.
  unfold recovered at 2 3.
  destruct (String.eqb (status j) "running") eqn:R; [done|].
  destruct (String.eqb (status j) "queued") eqn:Q; cbn [andb].
  - destruct (file_missing db j) eqn:F; [done|].
    unfold recovered. rewrite R, Q.
    change (file_missing (with_jobs db rows) j) with (file_missing db j).
    by rewrite F.
  - unfold recovered. by rewrite R, Q.
Qed.

Lemma recovered_not_running now db j :
  String.eqb (status (recovered now db j)) "running" = false.
Proof.
  unfold recovered.
  destruct (String.eqb (status j) "running") eqn:R; [done|].
  by destruct (String.eqb (status j) "queued" && file_missing db j).
Qed.

End RecoveryAgain.

(** X18. Recovery run a second time, on the ledger the first run left,
    changes no record and marks no job as interrupted: no job is running any
    more, and the queued jobs left all have their file. *)
Theorem recovery_repeated_changes_nothing (now now' : Z) (db : World) :
  ledger_ok db ->
  let once := fst (_recover_jobs_after_restart now db) in
  fst (_recover_jobs_after_restart now' once) = once
  /\ forall id err,
       ~ In (MarkedFailed id err) (snd (_recover_jobs_after_restart now' once)).
Proof.
  intros Hok. cbv zeta.
  rewrite (recover_spec now db Hok). cbn [fst].
  set (once := with_jobs db (map (recovered now db) (upload_jobs db))).
  assert (ledger_ok once) as Hok' by (by apply recovered_ok).
  rewrite (recover_spec now' once Hok'). cbn [fst snd].
  assert (map (recovered now' once) (upload_jobs once) = upload_jobs once)
    as Hfix.
  { unfold once. cbn [upload_jobs with_jobs]. rewrite map_map.
    apply map_ext. intros j. apply recovered_twice. }
  split.
  - rewrite Hfix. apply with_jobs_same.
  - intros id err [Hin|Hin]; [discriminate|].
    apply in_app_or in Hin as [Hin|[Hin|Hin]]; [|discriminate|].
    + apply in_map_iff in Hin as (j & _ & Hj).
      rewrite by_status_one in Hj. apply filter_In in Hj as [Hj Hrun].
      unfold once in Hj. cbn [upload_jobs with_jobs] in Hj.
      apply in_map_iff in Hj as (j0 & <- & _).
      by rewrite recovered_not_running in Hrun.
    + apply in_flat_map in Hin as (j & Hj & Hev).
      rewrite by_status_one in Hj. apply filter_In in Hj as [Hj Hq].
      unfold once in Hj. cbn [upload_jobs with_jobs] in Hj.
      apply in_map_iff in Hj as (j0 & <- & _).
      unfold queued_events in Hev.
      change (file_missing once ?x) with (file_missing db x) in Hev.
      destruct (file_missing db (recovered now db j0)) eqn:F.
      * exfalso. revert Hq F. unfold recovered.
        destruct (String.eqb (status j0) "running") eqn:R; [done|].
        destruct (String.eqb (status j0) "queued") eqn:Q; cbn [andb].
        -- destruct (file_missing db j0) eqn:F0; [done|]. congruence.
        -- congruence.
      * destruct Hev as [Hev|[Hev|[]]]; discriminate.
Qed.

Lemma recovery_repeated_changes_nothing_witness :
  ledger_ok sample_restart
  /\ fst (_recover_jobs_after_restart 950
            (fst (_recover_jobs_after_restart 900 sample_restart)))
     = fst (_recover_jobs_after_restart 900 sample_restart).
Proof.
  split; [exact sample_restart_ok|].
  exact (proj1 (recovery_repeated_changes_nothing 900 950 sample_restart
                  sample_restart_ok)).
Defined.

(** X19. Recovery starts a thread for exactly the queued jobs whose file
    exists, with the job's id and path, and leaves the record of every job
    that was neither running nor queued with a missing file as it was; it
    touches neither the users table nor the files. *)
Theorem recovery_restarts_queued_jobs_with_a_file (now : Z) (db : World) :
  ledger_ok db ->
  let after := fst (_recover_jobs_after_restart now db) in
  let evs := snd (_recover_jobs_after_restart now db) in
  (forall id path,
      In (ThreadStarted id path) evs <->
      exists j, In j (upload_jobs db) /\ status j = "queued"
                /\ path_exists db (saved_path j) = true
                /\ id = job_id j /\ path = saved_path j)
  /\ (forall j, In j (upload_jobs db) -> status j <> "running" ->
        (status j = "queued" -> path_exists db (saved_path j) = true) ->
        get_upload_job after (job_id j) = Some j)
  /\ users after = users db /\ files after = files db.
Proof.
  intros Hok. cbv zeta. rewrite (recover_spec now db Hok). cbn [fst snd].
  split; [|split; [|done]].
  - intros id path. split.
    + intros [Hin|Hin]; [discriminate|].
      apply in_app_or in Hin as [Hin|[Hin|Hin]]; [|discriminate|].
      * apply in_map_iff in Hin as (j & Hj & _). discriminate.
      * apply in_flat_map in Hin as (j & Hj & Hev).
        rewrite by_status_one in Hj. apply filter_In in Hj as [Hj Hq].
        apply String.eqb_eq in Hq.
        unfold queued_events, file_missing in Hev.
        destruct (path_exists db (saved_path j)) eqn:P; cbn [negb] in Hev.
        -- destruct Hev as [Hev|[Hev|[]]]; [discriminate|].
           injection Hev as <- <-. by exists j.
        -- destruct Hev as [Hev|[Hev|[]]]; discriminate.
    + intros (j & Hj & Hq & Hp & -> & ->). right.
      apply in_or_app. right. right.
      apply in_flat_map. exists j. split.
      * rewrite by_status_one. apply filter_In. split; [done|].
        by apply String.eqb_eq.
      * unfold queued_events, file_missing. rewrite Hp. cbn. auto.
  - intros j Hj Hrun Hq.
    assert (recovered now db j = j) as Hsame.
    { unfold recovered.
      destruct (String.eqb (status j) "running") eqn:R;
        [by apply String.eqb_eq in R|].
      destruct (String.eqb (status j) "queued") eqn:Q; [|done].
      apply String.eqb_eq in Q. unfold file_missing. by rewrite (Hq Q). }
    rewrite <- Hsame at 2. rewrite <- (recovered_id now db j).
    apply get_upload_job_of_row; [by apply recovered_ok|].
    cbn [upload_jobs with_jobs]. by apply in_map.
Qed.

Lemma recovery_restarts_queued_jobs_with_a_file_witness :
  ledger_ok sample_restart
  /\ (forall id path,
        In (ThreadStarted id path)
           (snd (_recover_jobs_after_restart 900 sample_restart)) <->
        exists j, In j (upload_jobs sample_restart) /\ status j = "queued"
                  /\ path_exists sample_restart (saved_path j) = true
                  /\ id = job_id j /\ path = saved_path j).
Proof.
  split; [exact sample_restart_ok|].
  exact (proj1 (recovery_restarts_queued_jobs_with_a_file 900 sample_restart
                  sample_restart_ok)).
Defined.

(** ** The endpoints *)

Section Endpoints.

Implicit Types (db w : World) (job j : UploadJob).

(** A sweep at most marks rows and removes files; when it raises it has
    changed nothing. *)
Lemma cleanup_marks_rows settings now db :
  exists r (mark : UploadJob -> bool) db',
    cleanup_expired_uploads settings now db = (r, db')
    /\ upload_jobs db'
       = map (fun j => if mark j then deleted_fields now j else j)
             (upload_jobs db)
    /\ users db' = users db
    /\ (forall p, path_exists db' p = true -> path_exists db p = true)
    /\ match r with
       | Ok _ => True
       | Raise e => exn_class e = OverflowError /\ db' = db
       end.
Proof.
  destruct (cleanup_expired_uploads_cases settings now db)
    as [(_ & _ & n & Hrun)|[(_ & Hrun)|(_ & e & _ & He & Hrun)]].
  - eexists (Ok n), _, _. split; [exact Hrun|]. cbn [upload_jobs users].
    split; [reflexivity|]. split; [done|]. split; [|done].
    intros p. unfold path_exists. cbn [files]. rewrite swept_lookup.
    destruct (files db !! p) as [[|[]]|]; try done.
  - exists (Ok 0), (fun _ => false), db.
    split; [done|]. split; [by rewrite map_id|done].
  - exists (Raise e), (fun _ => false), db.
    split; [done|]. split; [by rewrite map_id|done].
Qed.


Lemma has_job_mapped (g : UploadJob -> UploadJob) db db' id :
  (forall j, job_id (g j) = job_id j) ->
  upload_jobs db' = map g (upload_jobs db) ->
  has_job db' id = has_job db id.
Proof.
  intros Hid Hrows. unfold has_job. rewrite Hrows. clear Hrows.
  induction (upload_jobs db) as [|r rows IH]; [done|].
  cbn [map existsb]. by rewrite Hid, IH.
Qed.

End Endpoints.


(** X21. What [upload_excel] does with an upload.  A file name that is
    empty or does not end in [.xlsx], in any letter case, is refused before
    anything happens.  Otherwise the sweep runs; when it raises, so does the
    upload, and nothing has happened.  Otherwise the file is stored; then,
    if the id is new, a record in state queued is created with the chunk
    size of the settings, and a lookup of the id returns it; if the id is
    taken, the storage refuses the record and the stored file stays without
    a job. *)
Theorem upload_excel_outcomes (settings : Settings) (fname id path : string)
    (now : Z) (w : World) :
  let accepted :=
    negb (String.eqb fname "") && endswith (Py.lower fname) ".xlsx" in
  match upload_excel settings fname id path now w with
  | (Ok job, w') =>
      accepted = true /\ has_job w id = false
      /\ get_upload_job w' id = Some job
      /\ (job_id job, filename job, saved_path job, status job,
          chunk_size job, inserted_rows job)
         = (id, fname, path, "queued", EXCEL_CHUNK_SIZE settings, 0)
      /\ path_exists w' path = true
  | (Raise e, w') =>
      (exn_class e = HTTPException /\ accepted = false /\ w' = w)
      \/ (exn_class e = LibraryError /\ accepted = true
          /\ has_job w id = true
          /\ path_exists w' path = true
          /\ map job_id (upload_jobs w') = map job_id (upload_jobs w))
      \/ (exn_class e = OverflowError /\ accepted = true /\ w' = w
          /\ fst (cleanup_expired_uploads settings now w) = Raise e)
  end.
Proof.
  cbv zeta. unfold upload_excel.
  destruct (String.eqb fname "") eqn:E; cbn [negb andb].
  { left. by repeat split. }
  destruct (endswith (Py.lower fname) ".xlsx") eqn:X; cbn [negb].
  2: { left. by repeat split. }
  unfold bind, modify.
  destruct (cleanup_marks_rows settings now w)
    as (r & mark & w1 & -> & Hrows & _ & _ & Hr).
  destruct r as [n|e]; cbn [fst].
  2: { destruct Hr as [He ->]. right. right. by repeat split. }
  assert (forall j, job_id (if mark j then deleted_fields now j else j)
                    = job_id j) as Hid by (intros j; by destruct (mark j)).
  set (w2 := with_files w1 (<[path := RegularFile true]> (files w1))).
  assert (has_job w2 id = has_job w id) as Hhas
    by (by apply (has_job_mapped _ w w2 id Hid)).
  assert (path_exists w2 path = true) as Hpath.
  { unfold path_exists, w2. cbn [files with_files].
    by rewrite lookup_insert_eq. }
  unfold create_upload_job. rewrite Hhas.
  destruct (has_job w id) eqn:Hnew.
  - right. left. repeat split; try done.
    unfold w2. cbn [upload_jobs with_files]. rewrite Hrows, map_map.
    by apply map_ext.
  - repeat split; try done.
    apply get_upload_job_appended; [by rewrite Hhas|done].
Qed.

Section UploadThenRestart.

Implicit Types (db w : World) (job j : UploadJob).

(** The world an accepted upload leaves. *)
Lemma upload_excel_created settings fname id path now w0 job w :
  upload_excel settings fname id path now w0 = (Ok job, w) ->
  map job_id (upload_jobs w) = map job_id (upload_jobs w0) ++ [id]
  /\ has_job w0 id = false
  /\ In job (upload_jobs w)
  /\ (job_id job, saved_path job, status job) = (id, path, "queued")
  /\ path_exists w path = true.
Proof.
  unfold upload_excel.
  destruct (String.eqb fname ""); [done|].
  destruct (negb _); [done|].
  unfold bind, modify.
  destruct (cleanup_marks_rows settings now w0)
    as (r & mark & w1 & -> & Hrows & _).
  destruct r as [n|e]; [|done].
  assert (forall j, job_id (if mark j then deleted_fields now j else j)
                    = job_id j) as Hid by (intros j; by destruct (mark j)).
  set (w2 := with_files w1 (<[path := RegularFile true]> (files w1))).
  assert (has_job w2 id = has_job w0 id) as Hhas
    by (by apply (has_job_mapped _ w0 w2 id Hid)).
  unfold create_upload_job. rewrite Hhas.
  destruct (has_job w0 id) eqn:Hnew; [done|].
  intros [= <- <-]. cbn [upload_jobs with_jobs with_files job_id saved_path
    status]. repeat split; try done.
  - rewrite map_app. cbn [map job_id]. f_equal.
    unfold w2. cbn [upload_jobs with_files]. rewrite Hrows, map_map.
    by apply map_ext.
  - apply in_or_app. right. by left.
  - unfold path_exists, w2. cbn [files with_jobs with_files].
    by rewrite lookup_insert_eq.
Qed.

End UploadThenRestart.

(** X22. An upload that was accepted but whose job had not started when
    the process stopped is picked up at the next start: recovery, run on the
    world [upload_excel] left, starts a thread for the job with the stored
    path; and the ids stay unique. *)
Theorem accepted_upload_is_restarted (settings : Settings)
    (fname id path : string) (now now' : Z) (w0 w : World) (job : UploadJob) :
  ledger_ok w0 ->
  upload_excel settings fname id path now w0 = (Ok job, w) ->
  ledger_ok w
  /\ In (ThreadStarted id path) (snd (_recover_jobs_after_restart now' w))
  /\ get_upload_job (fst (_recover_jobs_after_restart now' w)) id = Some job.
Proof.
  intros Hok0 Hup.
  destruct (upload_excel_created _ _ _ _ _ _ _ _ Hup)
    as (Hids & Hnew & Hin & Hjob & Hpath).
  injection Hjob as Hid Hsp Hst.
  assert (ledger_ok w) as Hok.
  { unfold ledger_ok. rewrite Hids. apply NoDup_app.
    split; [done|]. split; [|apply NoDup_singleton].
    intros x Hx Hx'. apply list_elem_of_singleton in Hx'. subst x.
    apply list_elem_of_In, in_map_iff in Hx as (j & Hj & Hjin).
    pose proof (has_job_false_rows _ _ Hnew) as Hall.
    rewrite Forall_forall in Hall.
    apply list_elem_of_In, Hall in Hjin.
    rewrite Hj, String.eqb_refl in Hjin. done. }
  split; [done|].
  rewrite (recover_spec now' w Hok). cbn [fst snd]. split.
  - right. apply in_or_app. right. right.
    apply in_flat_map. exists job. split.
    + rewrite by_status_one. apply filter_In. split; [done|].
      by rewrite Hst.
    + unfold queued_events, file_missing. rewrite Hsp, Hpath, Hid. cbn. auto.
  - rewrite <- Hid.
    assert (recovered now' w job = job) as Hsame.
    { unfold recovered, file_missing. rewrite Hst, Hsp, Hpath. done. }
    rewrite <- Hsame at 2. rewrite <- (recovered_id now' w job).
    apply get_upload_job_of_row; [by apply recovered_ok|].
    cbn [upload_jobs with_jobs]. by apply in_map.
Qed.

Lemma accepted_upload_is_restarted_witness :
  (ledger_ok sample_restart
   /\ fst (upload_excel two_per_chunk "more.xlsx" "j7" "up/more.xlsx" 700
             sample_restart)
      = Ok {| job_id := "j7"; filename := "more.xlsx";
              saved_path := "up/more.xlsx"; status := "queued";
              chunk_size := 2; inserted_rows := 0; error := None;
              created_at := 700; started_at := None; completed_at := None;
              file_deleted_at := None |})
  /\ In (ThreadStarted "j7" "up/more.xlsx")
        (snd (_recover_jobs_after_restart 900
                (snd (upload_excel two_per_chunk "more.xlsx" "j7"
                        "up/more.xlsx" 700 sample_restart)))).
Proof.
  assert (upload_excel two_per_chunk "more.xlsx" "j7" "up/more.xlsx" 700
            sample_restart
          = (Ok {| job_id := "j7"; filename := "more.xlsx";
                   saved_path := "up/more.xlsx"; status := "queued";
                   chunk_size := 2; inserted_rows := 0; error := None;
                   created_at := 700; started_at := None;
                   completed_at := None; file_deleted_at := None |},
             snd (upload_excel two_per_chunk "more.xlsx" "j7" "up/more.xlsx"
                    700 sample_restart))) as H
    by (vm_compute; reflexivity).
  split; [split; [exact sample_restart_ok|by rewrite H]|].
  exact (proj1 (proj2 (accepted_upload_is_restarted _ _ _ _ 700 900 _ _ _
                         sample_restart_ok H))).
Defined.

(** ** The settings *)

Section Config.

Lemma contains_char_lstrip q s :
  Py.contains_char q s = false -> Py.contains_char q (Py.lstrip s) = false.
Proof.
  induction s as [|c s IH]; [done|]. cbn [Py.contains_char Py.lstrip].
  intros H. apply orb_false_iff in H as [Hc Hs].
  destruct (Py.isspace c); [by apply IH|].
  cbn [Py.contains_char]. by rewrite Hc, Hs.
Qed.

Lemma contains_char_rstrip q s :
  Py.contains_char q s = false -> Py.contains_char q (Py.rstrip s) = false.
Proof.
  induction s as [|c s IH]; [done|]. cbn [Py.contains_char Py.rstrip].
  intros H. apply orb_false_iff in H as [Hc Hs]. specialize (IH Hs).
  destruct (Py.rstrip s) as [|d r].
  - destruct (Py.isspace c); [done|]. cbn [Py.contains_char]. by rewrite Hc.
  - cbn [Py.contains_char] in *. by rewrite Hc, IH.
Qed.

Lemma contains_char_strip q s :
  Py.contains_char q s = false -> Py.contains_char q (Py.strip s) = false.
Proof. intros H. by apply contains_char_rstrip, contains_char_lstrip. Qed.

Lemma split_on_pieces sep s :
  Forall (fun piece => Py.contains_char sep piece = false) (split_on sep s).
Proof.
  induction s as [|c s IH]; cbn [split_on]; [by repeat constructor|].
  destruct (Ascii.eqb c sep) eqn:E; [by constructor|].
  destruct (split_on sep s) as [|piece rest]; [by repeat constructor; cbn; rewrite E|].
  inversion IH as [|? ? Hp Hr]; subst.
  constructor; [|done]. cbn [Py.contains_char]. by rewrite E, Hp.
Qed.

Lemma required_columns_of_names raw c :
  In c (required_columns_of raw) ->
  c <> "" /\ Py.strip c = c /\ Py.contains_char "," c = false.
Proof.
  unfold required_columns_of. rewrite in_map_iff.
  intros (piece & <- & Hin). apply filter_In in Hin as [Hin Hne].
  apply negb_true_iff, String.eqb_neq in Hne.
  split; [done|]. split; [apply strip_twice|].
  apply contains_char_strip.
  pose proof (split_on_pieces "," raw) as Hall. rewrite Forall_forall in Hall.
  by apply Hall, list_elem_of_In.
Qed.

Lemma int_of_string_raises s e :
  int_of_string s = Raise e -> exn_class e = ValueError.
Proof.
  unfold int_of_string.
  destruct (Py.take_sign _) as [neg body].
  destruct (span_digits body) as [run rest].
  destruct (negb _); [by intros [= <-]|].
  destruct (_ <? _)%nat; [by intros [= <-]|].
  destruct (List.filter Py.is_digit run); [by intros [= <-]|].
  destruct (Py.drop_float_space rest); [done|by intros [= <-]].
Qed.

End Config.

(** X23. What [Settings] holds once the class body has run.  The required
    column names are the pieces of the configured text between commas,
    trimmed, the empty ones left out: none is empty, none has white space at
    either end, none holds a comma.  The two numbers are what [int] makes
    of the configured texts.  An option whose variable is not set has its
    default: 500 rows per chunk, 72 hours, the sweep switched on, the
    columns name, email and age.  The class body fails only with
    [ValueError], raised by [int] on one of the two numbers. *)
Theorem settings_from_the_environment (environ : gmap string string) :
  match load_settings environ with
  | Ok s =>
      (forall c, In c (REQUIRED_COLUMNS s) ->
         c <> "" /\ Py.strip c = c /\ Py.contains_char "," c = false)
      /\ int_of_string (getenv environ "EXCEL_CHUNK_SIZE" "500")
         = Ok (EXCEL_CHUNK_SIZE s)
      /\ int_of_string (getenv environ "UPLOAD_FILE_RETENTION_HOURS" "72")
         = Ok (UPLOAD_FILE_RETENTION_HOURS s)
      /\ (environ !! "EXCEL_CHUNK_SIZE" = None -> EXCEL_CHUNK_SIZE s = 500)
      /\ (environ !! "UPLOAD_FILE_RETENTION_HOURS" = None ->
          UPLOAD_FILE_RETENTION_HOURS s = 72)
      /\ (environ !! "CLEANUP_EXPIRED_UPLOADS" = None ->
          CLEANUP_EXPIRED_UPLOADS s = true)
      /\ (environ !! "REQUIRED_COLUMNS" = None ->
          REQUIRED_COLUMNS s = ["name"; "email"; "age"])
  | Raise e =>
      exn_class e = ValueError
      /\ (int_of_string (getenv environ "EXCEL_CHUNK_SIZE" "500") = Raise e
          \/ int_of_string (getenv environ "UPLOAD_FILE_RETENTION_HOURS" "72")
             = Raise e)
  end.
Proof.
  unfold load_settings.
  destruct (int_of_string (getenv environ "EXCEL_CHUNK_SIZE" "500"))
    as [chunk|e] eqn:C; cbn [bind_result].
  2: { split; [by apply (int_of_string_raises _ _ C)|by left]. }
  destruct (int_of_string (getenv environ "UPLOAD_FILE_RETENTION_HOURS" "72"))
    as [hrs|e] eqn:H; cbn [bind_result].
  2: { split; [by apply (int_of_string_raises _ _ H)|by right]. }
  cbn [REQUIRED_COLUMNS EXCEL_CHUNK_SIZE UPLOAD_FILE_RETENTION_HOURS
       CLEANUP_EXPIRED_UPLOADS].
  split; [apply required_columns_of_names|]. split; [done|]. split; [done|].
  unfold getenv in *. repeat split.
  - intros E. rewrite E in C. vm_compute in C. by injection C as <-.
  - intros E. rewrite E in H. vm_compute in H. by injection H as <-.
  - by intros ->.
  - by intros ->.
Qed.

(** ** The environment file *)

Section EnvFile.

Implicit Types (environ : gmap string string) (lines : list string).

Lemma setdefault_grows key value environ environ' :
  setdefault key value environ = Ok environ' ->
  environ ⊆ environ' /\ is_Some (environ' !! key).
Proof.
  unfold setdefault. destruct (environ !! key) as [v|] eqn:E.
  - intros [= <-]. split; [done|]. by rewrite E.
  - destruct (_ || _); [done|]. destruct (String.eqb key ""); [done|].
    intros [= <-]. split; [by apply insert_subseteq|].
    rewrite lookup_insert_eq. by eexists.
Qed.

Lemma setdefault_set key value environ :
  is_Some (environ !! key) -> setdefault key value environ = Ok environ.
Proof. unfold setdefault. by intros [v ->]. Qed.

Lemma load_env_line_grows raw_line environ environ' :
  load_env_line raw_line environ = Ok environ' ->
  environ ⊆ environ'
  /\ forall later, environ' ⊆ later -> load_env_line raw_line later = Ok later.
Proof.
  unfold load_env_line.
  destruct (_ || _ || _); [by intros [= <-]|].
  destruct (split_first "=" (Py.strip raw_line)) as [key value].
  intros H. apply setdefault_grows in H as [Hsub [v Hv]].
  split; [done|]. intros later Hlater. apply setdefault_set.
  exists v. by eapply lookup_weaken.
Qed.

Lemma load_env_lines_grows lines environ environ' :
  load_env_lines lines environ = Ok environ' ->
  environ ⊆ environ'
  /\ forall later, environ' ⊆ later -> load_env_lines lines later = Ok later.
Proof.
  revert environ. induction lines as [|raw_line rest IH]; intros environ.
  - by intros [= <-].
  - cbn [load_env_lines].
    destruct (load_env_line raw_line environ) as [e1|] eqn:E1; [|done].
    cbn [bind_result]. intros Hrest.
    apply load_env_line_grows in E1 as [Hsub1 Hline].
    apply IH in Hrest as [Hsub Hlines].
    split; [by etrans|]. intros later Hlater.
    rewrite Hline by (by etrans). cbn [bind_result]. by apply Hlines.
Qed.

Lemma strip_head s :
  Py.strip s = ""
  \/ exists c t, Py.strip s = String c t /\ Py.isspace c = false.
Proof.
  unfold Py.strip.
  destruct (lstrip_head s) as [->|(c & t & -> & S)]; [by left|].
  destruct (rstrip_head c t S) as [t' ->]. right. by exists c, t'.
Qed.

(** A line is refused only for the variable it would add: one with a null
    character in its name or value, or one with no name, which is a line
    that starts with the equals sign. *)
Lemma load_env_line_raises raw_line environ e :
  load_env_line raw_line environ = Raise e ->
  e = Exn ValueError "embedded null byte"
  \/ (e = Exn OSError "[Errno 22] Invalid argument"
      /\ String.prefix "=" (Py.strip raw_line) = true).
Proof.
  unfold load_env_line.
  destruct (String.eqb (Py.strip raw_line) "") eqn:Hline; [done|].
  cbn [orb]. destruct (_ || _); [done|].
  destruct (split_first "=" (Py.strip raw_line)) as [key value] eqn:S.
  unfold setdefault. destruct (environ !! _); [done|].
  destruct (_ || _); [intros [= <-]; by left|].
  destruct (String.eqb (Py.strip key) "") eqn:K; [|done].
  intros [= <-]. right. split; [done|].
  apply String.eqb_eq in K.
  destruct (strip_head raw_line) as [E|(c & line & E & Hc)];
    rewrite E in S, Hline |- *; [done|].
  cbn [split_first] in S. cbn [String.prefix].
  destruct (Ascii.eqb c "=") eqn:C.
  - apply Ascii.eqb_eq in C. subst c. by destruct line.
  - destruct (split_first "=" line) as [k v]. injection S as <- <-.
    exfalso. revert K. unfold Py.strip. cbn [Py.lstrip]. rewrite Hc.
    by destruct (rstrip_head c k Hc) as [t' ->].
Qed.

Lemma load_env_lines_raises lines : forall environ e,
  load_env_lines lines environ = Raise e ->
  e = Exn ValueError "embedded null byte"
  \/ (e = Exn OSError "[Errno 22] Invalid argument"
      /\ exists raw_line, In raw_line lines
                          /\ String.prefix "=" (Py.strip raw_line) = true).
Proof.
  induction lines as [|raw_line rest IH]; intros environ e; [done|].
  cbn [load_env_lines].
  destruct (load_env_line raw_line environ) as [e1|e1] eqn:E1;
    cbn [bind_result].
  - intros H. apply IH in H as [H|[H (l & Hl & Hp)]]; [by left|].
    right. split; [done|]. exists l. split; [by right|done].
  - intros [= <-]. apply load_env_line_raises in E1 as [H|[H Hp]]; [by left|].
    right. split; [done|]. exists raw_line. split; [by left|done].
Qed.

End EnvFile.

(** X24. Reading the environment file only adds variables.  When
    [_load_env_file] returns, every variable that was set before the call
    still has the value it had, however often and with whatever value the
    file names it; and reading the same file again changes nothing.  When
    there is no file the environment is returned as it was.  The loop lets
    out two exceptions: the [ValueError] for a null character in the name or
    value of a variable it would add, and the [OSError] of [setenv] for a
    variable without a name, which takes a line that starts with the equals
    sign. *)
Theorem env_file_only_adds_variables
    (dotenv : option (list string)) (environ : gmap string string) :
  _load_env_file None environ = Ok environ
  /\ match _load_env_file dotenv environ with
     | Ok environ' =>
         (forall key value,
            environ !! key = Some value -> environ' !! key = Some value)
         /\ _load_env_file dotenv environ' = Ok environ'
     | Raise e =>
         e = Exn ValueError "embedded null byte"
         \/ (e = Exn OSError "[Errno 22] Invalid argument"
             /\ exists lines raw_line,
                  dotenv = Some lines /\ In raw_line lines
                  /\ String.prefix "=" (Py.strip raw_line) = true)
     end.
Proof.
  split; [done|]. destruct dotenv as [lines|]; cbn [_load_env_file]; [|done].
  destruct (load_env_lines lines environ) as [environ'|e] eqn:E.
  - apply load_env_lines_grows in E as [Hsub Hagain].
    split; [|by apply Hagain].
    intros key value Hk. by eapply lookup_weaken.
  - apply load_env_lines_raises in E as [H|[H (l & Hl & Hp)]]; [by left|].
    right. split; [done|]. by exists lines, l.
Qed.

(** A file whose second line has no name before the equals sign: the first
    variable is set, then [setenv] refuses the empty name. *)
Example env_file_line_without_a_name :
  _load_env_file (Some ["A=1"; " =novalue"; "B=2"]) ∅
  = Raise (Exn OSError "[Errno 22] Invalid argument").
Proof. vm_compute. reflexivity. Qed.

(** ** [_to_bool] *)

Section ToBool.

Lemma isspace_lower_char c : Py.isspace (Py.lower_char c) = Py.isspace c.
Proof. destruct c as [[] [] [] [] [] [] [] []]; reflexivity. Qed.

Lemma lstrip_lower s : Py.lstrip (Py.lower s) = Py.lower (Py.lstrip s).
Proof.
  induction s as [|c s IH]; [done|]. cbn [Py.lower Py.lstrip].
  rewrite isspace_lower_char. by destruct (Py.isspace c).
Qed.

Lemma rstrip_lower s : Py.rstrip (Py.lower s) = Py.lower (Py.rstrip s).
Proof.
  induction s as [|c s IH]; [done|]. cbn [Py.lower Py.rstrip].
  rewrite IH, isspace_lower_char.
  destruct (Py.rstrip s); cbn [Py.lower]; [|done].
  by destruct (Py.isspace c).
Qed.

Lemma strip_lower s : Py.strip (Py.lower s) = Py.lower (Py.strip s).
Proof. unfold Py.strip. by rewrite lstrip_lower, rstrip_lower. Qed.

End ToBool.

(** X25. [_to_bool] reads a given value without regard to the case of its
    letters or to white space around it, and without regard to the default:
    two values that differ only in case give the same answer, trimmed or
    not, whatever defaults are passed. *)
Theorem to_bool_ignores_case_and_margins (v1 v2 : string) (d1 d2 : bool) :
  Py.lower v1 = Py.lower v2 ->
  _to_bool (Some v1) d1 = _to_bool (Some v2) d2
  /\ _to_bool (Some (Py.strip v1)) d1 = _to_bool (Some v2) d2.
Proof.
  intros H. unfold _to_bool.
  rewrite strip_twice, <- !strip_lower, H. done.
Qed.

Lemma to_bool_ignores_case_and_margins_witness :
  _to_bool (Some " Yes") false = _to_bool (Some " yES") true
  /\ _to_bool (Some (Py.strip " Yes")) false = _to_bool (Some " yES") true.
Proof.
  apply (to_bool_ignores_case_and_margins " Yes" " yES" false true).
  reflexivity.
Defined.
